(** * tts_app: the document-to-audio citation pipeline

    A shallow embedding of [my_app/pdf_processor/process.py]: the Chunker
    ([prepare_tts_chunks_with_citations]), the Segment Generator
    ([generate_audio_streaming]), the Citation Resolver
    ([get_citation_at_timestamp]) and the orchestrator ([run_full_pipeline],
    [process_pdf]).

    Modelling conventions.
    - A Python [str] is a [string] whose characters are code points below
      256; [is_space] and [is_word] are Python's [str.isspace] and the
      regex class [\w] on that range.
    - A Python [float] is carried as the rational [Q] it denotes, and
      [int(x)] is truncation towards zero.  The Citation Resolver computes
      in binary64: each of its operations is the exact one followed by
      [Py.round64].  The times the Chunker stores (a length over 14, and
      the running sums of these) are kept exact.
    - Files live in a finite map from path strings to typed contents; a
      file whose JSON cannot be read is [Garbage].
    - A function that may raise returns an [outcome]. *)

From Stdlib Require Import ZArith QArith Qround Qabs Qpower Lia Lqa List Ascii
  String.
From stdpp Require Import base option list strings gmap pretty sorting.

Close Scope Q_scope.

(* ===================================================================== *)
(** * Python primitives                                                   *)
(* ===================================================================== *)

Module Py.

(** What a call does: it returns a value or raises. *)
Inductive exn :=
  IndexError | JSONDecodeError | KeyError | OSError | ValueError.

Inductive outcome (A : Type) :=
| Return (a : A)
| Raise (e : exn).
Arguments Return {A} a.
Arguments Raise {A} e.

(** [str.isspace] on code points below 256 (also the regex class [\s]). *)
Definition is_space (c : ascii) : bool :=
  let n := nat_of_ascii c in
  ((9 <=? n) && (n <=? 13)) || ((28 <=? n) && (n <=? 32))
  || (n =? 133) || (n =? 160).

(** The regex class [\w] on code points below 256. *)
Definition is_word (c : ascii) : bool :=
  let n := nat_of_ascii c in
  ((48 <=? n) && (n <=? 57)) || ((65 <=? n) && (n <=? 90)) || (n =? 95)
  || ((97 <=? n) && (n <=? 122))
  || (n =? 170) || (n =? 178) || (n =? 179) || (n =? 181) || (n =? 185)
  || (n =? 186) || ((188 <=? n) && (n <=? 190))
  || ((192 <=? n) && (n <=? 214)) || ((216 <=? n) && (n <=? 246))
  || (248 <=? n).

Fixpoint lstrip (s : string) : string :=
  match s with
  | "" => ""
  | String c r => if is_space c then lstrip r else s
  end.

Definition rstrip (s : string) : string :=
  String.rev (lstrip (String.rev s)).

(** [s.strip()] *)
Definition strip (s : string) : string := rstrip (lstrip s).

(** [sep.join(l)] *)
Fixpoint join (sep : string) (l : list string) : string :=
  match l with
  | [] => ""
  | [s] => s
  | s :: r => s +:+ sep +:+ join sep r
  end.

(** [s[:n]] for a non-negative [n]. *)
Fixpoint str_take (n : nat) (s : string) : string :=
  match n, s with
  | S k, String c r => String c (str_take k r)
  | _, _ => ""
  end.

(** [re.sub(r'[^...]', '', s)]: keep the characters of the class. *)
Fixpoint str_filter (keep : ascii -> bool) (s : string) : string :=
  match s with
  | "" => ""
  | String c r =>
      if keep c then String c (str_filter keep r) else str_filter keep r
  end.

(** [s.replace(a, b)] for a one-character [a]. *)
Fixpoint replace_char (a : ascii) (b : string) (s : string) : string :=
  match s with
  | "" => ""
  | String c r =>
      if Ascii.eqb c a then b +:+ replace_char a b r
      else String c (replace_char a b r)
  end.

(** [s.replace(a1 a2, "")] for a two-character pattern, scanning left to
    right over non-overlapping occurrences. *)
Fixpoint remove_pair (a1 a2 : ascii) (s : string) : string :=
  match s with
  | "" => ""
  | String c r =>
      match r with
      | String d r' =>
          if Ascii.eqb c a1 && Ascii.eqb d a2 then remove_pair a1 a2 r'
          else String c (remove_pair a1 a2 r)
      | "" => s
      end
  end.

(** [l[i]] with Python's negative indices. *)
Definition index {A} (l : list A) (i : Z) : outcome A :=
  let n := Z.of_nat (length l) in
  let j := if (i <? 0)%Z then (i + n)%Z else i in
  if (j <? 0)%Z then Raise IndexError
  else match l !! Z.to_nat j with
       | Some a => Return a
       | None => Raise IndexError
       end.

(** [l[:limit] if limit else l] *)
Definition slice_limit {A} (l : list A) (limit : option Z) : list A :=
  match limit with
  | None => l
  | Some k =>
      if (k =? 0)%Z then l
      else if (k <? 0)%Z then take (length l - Z.to_nat (- k)) l
      else take (Z.to_nat k) l
  end.

(** [int(x)] of a float: truncation towards zero. *)
Definition int_of (x : Q) : Z := Z.quot (Qnum x) (Zpos (Qden x)).

(** ** Float arithmetic

    A Python float is a binary64 number and is carried as the rational it
    denotes.  An operation on floats is the exact operation followed by
    [round64]: rounding to the nearest number with 53 significant bits whose
    last place is not below [2^-1074], ties going to the even one.  Numbers
    of magnitude [2^1024] and more, where Python has [inf], are beyond the
    binary64 range; [in_range] tells the others. *)

(** The nearest integer, ties going to the even one. *)
Definition round_half_even (x : Q) : Z :=
  let f := Qfloor x in
  match Qcompare (x - inject_Z f) (1 # 2) with
  | Lt => f
  | Gt => (f + 1)%Z
  | Eq => if Z.even f then f else (f + 1)%Z
  end.

(** [floor(log2(x))] for a positive [x]. *)
Definition ilog2 (x : Q) : Z :=
  if Qle_bool 1 x then Z.log2 (Qfloor x)
  else (- Z.log2_up (Qceiling (/ x)))%Z.

(** The exponent of the last place of the binary64 numbers next to [x]:
    52 places below the leading one, and never below [2^-1074]. *)
Definition last_place (x : Q) : Z :=
  (Z.max (ilog2 (Qabs x)) (-1022) - 52)%Z.

Definition round64 (x : Q) : Q :=
  if Qeq_bool x 0 then 0%Q
  else
    let k := last_place x in
    (inject_Z (round_half_even (x / Qpower 2 k)) * Qpower 2 k)%Q.

Definition in_range (x : Q) : bool :=
  negb (Qle_bool (Qpower 2 1024) (Qabs (round64 x))).

(** [a + b], [a - b], [a * b] and [a / b] on floats. *)
Definition fadd (a b : Q) : Q := round64 (a + b).
Definition fsub (a b : Q) : Q := round64 (a - b).
Definition fmul (a b : Q) : Q := round64 (a * b).
Definition fdiv (a b : Q) : Q := round64 (a / b).

(** The float an [int] operand is turned into. *)
Definition float_of_int (z : Z) : Q := round64 (inject_Z z).

(** C's [fmod(x, y)]: the exact remainder, with the sign of [x]. *)
Definition fmod (x y : Q) : Q := (x - y * inject_Z (int_of (x / y)))%Q.

(** [vx % wx] on floats, for a positive [wx]: [fmod], moved into
    [[0, wx]] by a float addition when it is negative. *)
Definition float_mod (vx wx : Q) : Q :=
  let m := fmod vx wx in
  if negb (Qle_bool 0 m) then fadd m wx else m.

(** [vx // wx] on floats, for a positive [wx]. *)
Definition float_floordiv (vx wx : Q) : Q :=
  let m := fmod vx wx in
  let div := fdiv (fsub vx m) wx in
  let div := if negb (Qle_bool 0 m) then fsub div 1 else div in
  if Qeq_bool div 0 then 0%Q
  else
    let floordiv := inject_Z (Qfloor div) in
    if negb (Qle_bool (fsub div floordiv) (1 # 2))
    then fadd floordiv 1 else floordiv.

(** [f"{n:0{w}d}"] for a non-negative [n]: zero padding on the left. *)
Definition zero_pad (w : nat) (s : string) : string :=
  String.rev (str_take (w - String.length s) "0000000000000000") +:+ s.

Definition format_d (n : nat) : string := pretty n.
Definition format_0d (w : nat) (n : nat) : string := zero_pad w (pretty n).

(** [f"{z:0{w}d}"] for any integer: the sign counts in the width. *)
Definition format_0dZ (w : nat) (z : Z) : string :=
  if (z <? 0)%Z then "-" +:+ zero_pad (w - 1) (pretty (Z.to_nat (- z)))
  else zero_pad w (pretty (Z.to_nat z)).

End Py.

(* ===================================================================== *)
(** * Sentence splitting                                                  *)
(* ===================================================================== *)

(** [re.split(r'(?<=[.!?])\s+', block_text)]: the text is cut at every
    maximal run of whitespace that directly follows one of [.], [!], [?];
    the run itself is dropped.  A run at the very end leaves a last, empty
    piece. *)
Definition is_terminator (c : ascii) : bool :=
  Ascii.eqb c "."%char || Ascii.eqb c "!"%char || Ascii.eqb c "?"%char.

Inductive split_mode :=
| InPiece (after_terminator : bool)
| InSeparator.

Fixpoint re_split_go (m : split_mode) (cur : string) (s : string)
  : list string :=
  match s with
  | "" => [String.rev cur]
  | String c r =>
      match m with
      | InSeparator =>
          if Py.is_space c then re_split_go InSeparator "" r
          else re_split_go (InPiece (is_terminator c)) (String c "") r
      | InPiece true =>
          if Py.is_space c
          then String.rev cur :: re_split_go InSeparator "" r
          else re_split_go (InPiece (is_terminator c)) (String c cur) r
      | InPiece false =>
          re_split_go (InPiece (is_terminator c)) (String c cur) r
      end
  end.

Definition re_split_sentences (block_text : string) : list string :=
  re_split_go (InPiece false) "" block_text.

(* ===================================================================== *)
(** * Data model                                                          *)
(* ===================================================================== *)

Record Metadata := {
  title : option string;
  author : option string;
  source_filename : string;
  total_pages : nat
}.

Record CoordinateBlock := {
  cb_text : string;
  cb_font_name : string
}.

(** One entry of the raw extraction cache's [content]. *)
Record PageData := {
  page_number : nat;
  text_blocks : list string;
  coordinate_blocks : list CoordinateBlock
}.

Record RawData := {
  raw_metadata : Metadata;
  content : list PageData
}.

Record Sentence := {
  global_index : nat;
  sentence_in_block : nat;
  sentence_text : string
}.

Record Chunk := {
  chunk_id : nat;
  text : string;
  page : nat;
  block_index : nat;
  sentences : list Sentence;
  start_time : Q;
  duration_seconds : Q;
  end_time : Q
}.

Record Processing := {
  total_chunks : nat;
  total_sentences : nat;
  total_estimated_duration_seconds : Q
}.

Record CitationManifest := {
  metadata : Metadata;
  book_id : string;
  processing : Processing;
  chunks : list Chunk
}.

(* ===================================================================== *)
(** * Stage 2: the Chunker                                                *)
(* ===================================================================== *)

Definition AVG_CHARS_PER_SECOND : Z := 14.
Definition default_max_chars : Z := 400.

(** The local variables of [prepare_tts_chunks_with_citations]. *)
Record Locals := {
  tts_chunks : list Chunk;
  global_sentence_index : nat;
  estimated_total_time : Q;
  current_chunk : list string;
  current_chunk_chars : nat;
  chunk_sentences_data : list Sentence
}.

Definition initial_locals : Locals :=
  {| tts_chunks := []; global_sentence_index := 0;
     estimated_total_time := 0%Q;
     current_chunk := []; current_chunk_chars := 0;
     chunk_sentences_data := [] |}.

(** [tts_chunks.append({...}); estimated_total_time += est_duration] *)
Definition close_chunk (page_num block_idx : nat) (st : Locals) : Locals :=
  let chunk_text := Py.join " " (current_chunk st) in
  let est_duration :=
    (inject_Z (Z.of_nat (String.length chunk_text))
       / inject_Z AVG_CHARS_PER_SECOND)%Q in
  {| tts_chunks :=
       tts_chunks st ++
       [ {| chunk_id := length (tts_chunks st);
            text := chunk_text;
            page := page_num;
            block_index := block_idx + 1;
            sentences := chunk_sentences_data st;
            start_time := estimated_total_time st;
            duration_seconds := est_duration;
            end_time := (estimated_total_time st + est_duration)%Q |} ];
     global_sentence_index := global_sentence_index st;
     estimated_total_time := (estimated_total_time st + est_duration)%Q;
     current_chunk := current_chunk st;
     current_chunk_chars := current_chunk_chars st;
     chunk_sentences_data := chunk_sentences_data st |}.

(** [if current_chunk: ...] *)
Definition close_if_open (page_num block_idx : nat) (st : Locals) : Locals :=
  match current_chunk st with
  | [] => st
  | _ :: _ => close_chunk page_num block_idx st
  end.

(** The body of [for sentence in sentences]. *)
Definition sentence_step (max_chars : Z) (page_num block_idx : nat)
    (st : Locals) (sentence : string) : Locals :=
  let sentence := Py.strip sentence in
  if String.eqb sentence "" then st
  else
    let sentence_chars := String.length sentence + 1 in
    if (Z.of_nat (current_chunk_chars st + sentence_chars) <? max_chars)%Z
    then
      {| tts_chunks := tts_chunks st;
         global_sentence_index := global_sentence_index st + 1;
         estimated_total_time := estimated_total_time st;
         current_chunk := current_chunk st ++ [sentence];
         current_chunk_chars := current_chunk_chars st + sentence_chars;
         chunk_sentences_data :=
           chunk_sentences_data st ++
           [ {| global_index := global_sentence_index st;
                sentence_in_block := length (chunk_sentences_data st);
                sentence_text := sentence |} ] |}
    else
      let st' := close_if_open page_num block_idx st in
      {| tts_chunks := tts_chunks st';
         global_sentence_index := global_sentence_index st' + 1;
         estimated_total_time := estimated_total_time st';
         current_chunk := [sentence];
         current_chunk_chars := sentence_chars;
         chunk_sentences_data :=
           [ {| global_index := global_sentence_index st';
                sentence_in_block := 0;
                sentence_text := sentence |} ] |}.

(** The body of [for block_index, block_text in enumerate(...)]. *)
Definition block_step (max_chars : Z) (page_num : nat)
    (st : Locals) (block_idx : nat) (block_text : string) : Locals :=
  let sentences := re_split_sentences block_text in
  let st0 :=
    {| tts_chunks := tts_chunks st;
       global_sentence_index := global_sentence_index st;
       estimated_total_time := estimated_total_time st;
       current_chunk := []; current_chunk_chars := 0;
       chunk_sentences_data := [] |} in
  close_if_open page_num block_idx
    (fold_left (sentence_step max_chars page_num block_idx) sentences st0).

Fixpoint blocks_loop (max_chars : Z) (page_num : nat) (block_idx : nat)
    (blocks : list string) (st : Locals) : Locals :=
  match blocks with
  | [] => st
  | b :: r =>
      blocks_loop max_chars page_num (S block_idx) r
        (block_step max_chars page_num st block_idx b)
  end.

(** The body of [for page_data in data['content']]. *)
Definition page_step (max_chars : Z) (st : Locals) (page_data : PageData)
  : Locals :=
  blocks_loop max_chars (page_number page_data) 0 (text_blocks page_data) st.

Definition chunk_pages (max_chars : Z) (pages : list PageData) : Locals :=
  fold_left (page_step max_chars) pages initial_locals.

(** [re.sub(r'[^\w\s-]', '', t).strip().replace(' ', '_')] *)
Definition sanitize_title (t : string) : string :=
  Py.replace_char " "%char "_"
    (Py.strip
       (Py.str_filter
          (fun c => Py.is_word c || Py.is_space c || Ascii.eqb c "-"%char) t)).

(** The [output_data] dictionary the Chunker writes; [fallback_title] is
    [cache_file_path.stem.replace("_raw", "")]. *)
Definition build_manifest (max_chars : Z) (fallback_title : string)
    (data : RawData) : CitationManifest :=
  let st := chunk_pages max_chars (content data) in
  let book_title := default fallback_title (title (raw_metadata data)) in
  {| metadata := raw_metadata data;
     book_id := sanitize_title book_title;
     processing :=
       {| total_chunks := length (tts_chunks st);
          total_sentences := global_sentence_index st;
          total_estimated_duration_seconds := estimated_total_time st |};
     chunks := tts_chunks st |}.

(* ===================================================================== *)
(** * The Citation Resolver                                               *)
(* ===================================================================== *)

Definition Qlt_bool (a b : Q) : bool := negb (Qle_bool b a).

Record Citation := {
  citation : string;
  timestamp : string;
  cit_page : nat;
  cit_block : nat;
  cit_sentence_in_block : nat;
  cit_sentence_text : string
}.

(** [chunk['start_time'] <= timestamp_seconds < chunk['end_time']] *)
Definition covers (c : Chunk) (t : Q) : bool :=
  Qle_bool (start_time c) t && Qlt_bool t (end_time c).

(** The index computed for a matching chunk, before the list is read. *)
Definition sentence_index_at (c : Chunk) (t : Q) : Z :=
  let time_into_chunk := Py.fsub t (start_time c) in
  let progress_ratio :=
    if Qlt_bool 0 (duration_seconds c)
    then Py.fdiv time_into_chunk (duration_seconds c) else 0%Q in
  let sentence_index :=
    Py.int_of
      (Py.fmul progress_ratio
         (Py.float_of_int (Z.of_nat (length (sentences c))))) in
  Z.min sentence_index (Z.of_nat (length (sentences c)) - 1).

Definition SNIPPET_LIMIT : nat := 100.

(** [s[:100] + "..." if len(s) > 100 else s] *)
Definition truncate_text (s : string) : string :=
  if SNIPPET_LIMIT <? String.length s
  then Py.str_take SNIPPET_LIMIT s +:+ "..." else s.

(** The two characters the source writes before the block ordinal. *)
Definition pilcrow : string :=
  String (ascii_of_nat 194) (String (ascii_of_nat 182) "").

(** [f"{int(t // 60)}:{int(t % 60):02d}"] *)
Definition format_timestamp (t : Q) : string :=
  let minutes := Py.int_of (Py.float_floordiv t 60) in
  let seconds := Py.int_of (Py.float_mod t 60) in
  pretty minutes +:+ ":" +:+ Py.format_0dZ 2 seconds.

Definition make_citation (md : Metadata) (c : Chunk) (s : Sentence) (t : Q)
  : Citation :=
  {| citation :=
       default "Unknown" (author md) +:+ " - " +:+
       default "Unknown Title" (title md) +:+ ", p." +:+
       Py.format_d (page c) +:+ ", " +:+ pilcrow +:+
       Py.format_d (block_index c) +:+ ", sent." +:+
       Py.format_d (sentence_in_block s + 1);
     timestamp := format_timestamp t;
     cit_page := page c;
     cit_block := block_index c;
     cit_sentence_in_block := sentence_in_block s + 1;
     cit_sentence_text := truncate_text (sentence_text s) |}.

(** [for chunk in data['chunks']: if ...: ... return {...}] and the final
    [return None]. *)
Fixpoint resolve_in (md : Metadata) (cs : list Chunk) (t : Q)
  : Py.outcome (option Citation) :=
  match cs with
  | [] => Py.Return None
  | c :: r =>
      if covers c t then
        match Py.index (sentences c) (sentence_index_at c t) with
        | Py.Return s => Py.Return (Some (make_citation md c s t))
        | Py.Raise e => Py.Raise e
        end
      else resolve_in md r t
  end.

Definition resolve (m : CitationManifest) (t : Q)
  : Py.outcome (option Citation) :=
  resolve_in (metadata m) (chunks m) t.

(* ===================================================================== *)
(** * Files                                                               *)
(* ===================================================================== *)

Record ReadyChunk := {
  rc_chunk_id : nat;
  rc_filename : string;
  rc_page : nat;
  rc_text_snippet : string;
  rc_start_time : Q;
  rc_duration_seconds : Q
}.

(** The generation ledger, [manifest.json]; a ledger found on disk may
    lack the [ready_chunks] key. *)
Record Ledger := {
  ledger_metadata : Metadata;
  ledger_book_id : string;
  ledger_total_chunks : nat;
  ready_chunks : option (list ReadyChunk)
}.

(** What [fitz] sees in a document: per page, the text of the sorted
    blocks ([b[4]]) and the spans of [extract_text_blocks_with_coords]. *)
Record FitzPage := {
  fitz_blocks : list string;
  fitz_spans : list CoordinateBlock
}.

Record FitzDoc := {
  fitz_title : option string;
  fitz_author : option string;
  fitz_pages : list FitzPage
}.

Inductive File :=
| Pdf (d : FitzDoc)
| RawJSON (d : RawData)
| CitationJSON (m : CitationManifest)
| LedgerJSON (l : Ledger)
| Wav (audio : string)
| Garbage (bytes : string).

(** Paths are strings; the model covers plain file names (no separator
    inside a name), which is what the endpoints pass on. *)
Definition joinpath (dir name : string) : string := dir +:+ "/" +:+ name.

Definition BASE_DIR : string := "/workspace".
Definition CACHE_DIR : string := joinpath BASE_DIR "pdf_cache".
Definition INPUT_DIR : string := joinpath BASE_DIR "pdf_input".
Definition OUTPUT_DIR : string :=
  joinpath (joinpath BASE_DIR "outputs") "audiobooks".

(** [Path.name]: what follows the last separator. *)
Fixpoint path_name_go (acc : string) (s : string) : string :=
  match s with
  | "" => String.rev acc
  | String c r =>
      if Ascii.eqb c "/"%char then path_name_go "" r
      else path_name_go (String c acc) r
  end.
Definition path_name (p : string) : string := path_name_go "" p.

(** [name.rfind('.')], counted from the right end: the number of
    characters after the last dot. *)
Fixpoint chars_before_dot (rev_name : string) : option nat :=
  match rev_name with
  | "" => None
  | String c r =>
      if Ascii.eqb c "."%char then Some 0 else S <$> chars_before_dot r
  end.

(** [Path.stem]: the name without its last suffix; a dot that starts or
    ends the name opens no suffix. *)
Definition stem_of_name (name : string) : string :=
  match chars_before_dot (String.rev name) with
  | Some k =>
      let i := String.length name - 1 - k in
      if (0 <? i) && (i <? String.length name - 1)
      then Py.str_take i name else name
  | None => name
  end.

Definition path_stem (p : string) : string := stem_of_name (path_name p).

Fixpoint str_drop (n : nat) (s : string) : string :=
  match n, s with
  | S k, String _ r => str_drop k r
  | _, _ => s
  end.

(** [s.replace(pat, "")] for a non-empty [pat]; [skip] counts the
    characters of a match still to be dropped. *)
Fixpoint remove_all_go (pat : string) (skip : nat) (s : string) : string :=
  match s with
  | "" => ""
  | String c r =>
      match skip with
      | S k => remove_all_go pat k r
      | O =>
          if String.prefix pat s
          then remove_all_go pat (String.length pat - 1) r
          else String c (remove_all_go pat 0 r)
      end
  end.
Definition remove_all (pat s : string) : string := remove_all_go pat 0 s.

(** The world the pipeline runs in: the files, and the calls made so far
    to the two external capabilities. *)
Record World := {
  fs : gmap string File;
  tts_requests : list string;
  fitz_opened : list string
}.

Definition path_exists (w : World) (p : string) : bool :=
  bool_decide (is_Some (fs w !! p)).

Definition write_file (w : World) (p : string) (f : File) : World :=
  {| fs := <[p := f]> (fs w);
     tts_requests := tts_requests w;
     fitz_opened := fitz_opened w |}.

(** [json.load] of a file expected to hold a citation manifest. *)
Definition load_citation (w : World) (p : string)
  : Py.outcome CitationManifest :=
  match fs w !! p with
  | Some (CitationJSON m) => Py.Return m
  | Some (RawJSON _) | Some (LedgerJSON _) => Py.Raise Py.KeyError
  | Some _ => Py.Raise Py.JSONDecodeError
  | None => Py.Raise Py.OSError
  end.

(** What [json.load] returns on the JSON files of the pipeline: one of
    its three objects. *)
Inductive JSON :=
| JRaw (d : RawData)
| JCitation (m : CitationManifest)
| JLedger (l : Ledger).

(** [json.load(f)] on the opened file [p]: the object, whatever its keys
    are; a file that is not JSON raises. *)
Definition json_load (w : World) (p : string) : Py.outcome JSON :=
  match fs w !! p with
  | Some (RawJSON d) => Py.Return (JRaw d)
  | Some (CitationJSON m) => Py.Return (JCitation m)
  | Some (LedgerJSON l) => Py.Return (JLedger l)
  | Some _ => Py.Raise Py.JSONDecodeError
  | None => Py.Raise Py.OSError
  end.

(** [data['metadata']]: each of the three objects has the key. *)
Definition json_metadata (data : JSON) : Metadata :=
  match data with
  | JRaw d => raw_metadata d
  | JCitation m => metadata m
  | JLedger l => ledger_metadata l
  end.

(** [json.load(f).get('ready_chunks', [])] on an existing ledger file:
    any JSON object without the key gives the empty list. *)
Definition load_ready_chunks (w : World) (p : string)
  : Py.outcome (list ReadyChunk) :=
  match fs w !! p with
  | Some (LedgerJSON l) => Py.Return (default [] (ready_chunks l))
  | Some (RawJSON _) | Some (CitationJSON _) => Py.Return []
  | Some _ => Py.Raise Py.JSONDecodeError
  | None => Py.Raise Py.OSError
  end.

(** [prepare_tts_chunks_with_citations(cache_file_path, max_chars)]:
    [json.load] is outside the [try], so a file that is not JSON raises;
    the keys are read inside it, so an object without [content] is a
    [KeyError] that is caught, and the stage returns [None].  On a raw
    cache it builds the manifest, writes it under the sanitized title and
    returns its path. *)
Definition prepare_tts_chunks_with_citations (w : World)
    (cache_file_path : option string) (max_chars : Z)
  : Py.outcome (option string) * World :=
  match cache_file_path with
  | None => (Py.Return None, w)
  | Some p =>
      if negb (path_exists w p) then (Py.Return None, w)
      else
        match json_load w p with
        | Py.Raise e => (Py.Raise e, w)
        | Py.Return (JRaw data) =>
            let m :=
              build_manifest max_chars (remove_all "_raw" (path_stem p)) data in
            let citation_path :=
              joinpath CACHE_DIR (book_id m +:+ "_citation_ready.json") in
            (Py.Return (Some citation_path),
             write_file w citation_path (CitationJSON m))
        | Py.Return (JCitation _) | Py.Return (JLedger _) =>
            (Py.Return None, w)
        end
  end.

(** [get_citation_at_timestamp(citation_json_path, timestamp_seconds)] *)
Definition get_citation_at_timestamp (w : World) (citation_json_path : string)
    (timestamp_seconds : Q) : Py.outcome (option Citation) :=
  if negb (path_exists w citation_json_path) then Py.Return None
  else
    match load_citation w citation_json_path with
    | Py.Raise e => Py.Raise e
    | Py.Return data => resolve data timestamp_seconds
    end.

(* ===================================================================== *)
(** * Stage 3: the Segment Generator                                      *)
(* ===================================================================== *)

(** The external synthesizer: given how many requests came before and the
    text, the audio bytes of a successful response, or [None] for a
    non-success status, a transport error or a timeout. *)
Definition Synthesizer := nat -> string -> option string.

(** [f"chunk_{chunk_id:04d}_p{page}.wav"] *)
Definition audio_filename (c : Chunk) : string :=
  "chunk_" +:+ Py.format_0d 4 (chunk_id c) +:+ "_p" +:+
  Py.format_d (page c) +:+ ".wav".

Definition ready_record (c : Chunk) : ReadyChunk :=
  {| rc_chunk_id := chunk_id c;
     rc_filename := audio_filename c;
     rc_page := page c;
     rc_text_snippet := Py.str_take 50 (text c) +:+ "...";
     rc_start_time := start_time c;
     rc_duration_seconds := duration_seconds c |}.

(** [ready_chunks.sort(key=lambda c: c['chunk_id'])]: a stable sort. *)
Fixpoint insert_by_id (x : ReadyChunk) (l : list ReadyChunk)
  : list ReadyChunk :=
  match l with
  | [] => [x]
  | y :: r =>
      if rc_chunk_id x <=? rc_chunk_id y then x :: l
      else y :: insert_by_id x r
  end.

Definition sort_by_id (l : list ReadyChunk) : list ReadyChunk :=
  foldr insert_by_id [] l.

(** [any(c['chunk_id'] == chunk_id for c in manifest['ready_chunks'])] *)
Definition listed (chunk_id : nat) (ready : list ReadyChunk) : bool :=
  existsb (fun c => rc_chunk_id c =? chunk_id) ready.

(** The state of the [for chunk in chunks_to_process] loop: the in-memory
    [manifest['ready_chunks']] and the world. *)
Record GenState := {
  ready : list ReadyChunk;
  world : World
}.

Section Generator.
Variable tts : Synthesizer.
Variables (md : Metadata) (book_name : string) (n_chunks : nat).

Definition audio_dir : string := joinpath OUTPUT_DIR book_name.
Definition manifest_path : string := joinpath audio_dir "manifest.json".
Definition audio_path (c : Chunk) : string :=
  joinpath audio_dir (audio_filename c).

(** [json.dump(manifest, f)] *)
Definition save_ledger (rs : list ReadyChunk) (w : World) : World :=
  write_file w manifest_path
    (LedgerJSON {| ledger_metadata := md; ledger_book_id := book_name;
                   ledger_total_chunks := n_chunks;
                   ready_chunks := Some rs |}).

(** [ready_chunks.append(...); ready_chunks.sort(...); json.dump(...)] *)
Definition mark_ready (c : Chunk) (st : GenState) : GenState :=
  let rs := sort_by_id (ready st ++ [ready_record c]) in
  {| ready := rs; world := save_ledger rs (world st) |}.

(** [client.post(TTS_SERVICE_URL, params={"text": chunk['text'], ...})]
    followed by [raise_for_status()]. *)
Definition request_tts (c : Chunk) (w : World) : option string * World :=
  (tts (length (tts_requests w)) (text c),
   {| fs := fs w;
      tts_requests := tts_requests w ++ [text c];
      fitz_opened := fitz_opened w |}).

(** The body of [for chunk in chunks_to_process]. *)
Definition chunk_step (st : GenState) (c : Chunk) : GenState :=
  let on_disk := path_exists (world st) (audio_path c) in
  let in_ledger := listed (chunk_id c) (ready st) in
  if on_disk || in_ledger then
    if on_disk && negb in_ledger then mark_ready c st else st
  else
    match request_tts c (world st) with
    | (None, w) => {| ready := ready st; world := w |}
    | (Some audio, w) =>
        mark_ready c
          {| ready := ready st;
             world := write_file w (audio_path c) (Wav audio) |}
    end.

Definition chunks_loop (cs : list Chunk) (st : GenState) : GenState :=
  fold_left chunk_step cs st.
End Generator.

(** [generate_audio_streaming(citation_json_path, limit)]: the result is
    the audio directory, or [None] when the stage refuses to run. *)
Definition generate_audio_streaming (tts : Synthesizer) (w : World)
    (citation_json_path : string) (limit : option Z)
  : Py.outcome (option string) * World :=
  if negb (path_exists w citation_json_path) then (Py.Return None, w)
  else
    match load_citation w citation_json_path with
    | Py.Raise e => (Py.Raise e, w)
    | Py.Return data =>
        let book_name := book_id data in
        let start (rs : list ReadyChunk) :=
          let st :=
            chunks_loop tts (metadata data) book_name (length (chunks data))
              (Py.slice_limit (chunks data) limit)
              {| ready := rs; world := w |} in
          (Py.Return (Some (audio_dir book_name)), world st) in
        if path_exists w (manifest_path book_name) then
          match load_ready_chunks w (manifest_path book_name) with
          | Py.Return rs => start rs
          | Py.Raise _ => (Py.Return None, w)
          end
        else start []
    end.

(* ===================================================================== *)
(** * Stage 1 and the orchestrator                                        *)
(* ===================================================================== *)

Definition newline : ascii := ascii_of_nat 10.

(** [b[4].replace("-\n", "").replace("\n", " ").strip()] *)
Definition clean_block (b : string) : string :=
  Py.strip (Py.replace_char newline " " (Py.remove_pair "-"%char newline b)).

Fixpoint extract_pages (page_num : nat) (pages : list FitzPage)
  : list PageData :=
  match pages with
  | [] => []
  | p :: r =>
      let page_text_chunks :=
        filter (fun t => t <> "") (clean_block <$> fitz_blocks p) in
      let coordinate_blocks := fitz_spans p in
      let rest := extract_pages (S page_num) r in
      match page_text_chunks, coordinate_blocks with
      | [], [] => rest
      | _, _ =>
          {| page_number := page_num + 1;
             text_blocks := page_text_chunks;
             coordinate_blocks := coordinate_blocks |} :: rest
      end
  end.

(** The [output_data] that [process_pdf] builds from an opened document. *)
Definition extract_document (pdf_path : string) (doc : FitzDoc) : RawData :=
  {| raw_metadata :=
       {| title := Some (default (path_stem pdf_path) (fitz_title doc));
          author := Some (default "Unknown" (fitz_author doc));
          source_filename := path_name pdf_path;
          total_pages := length (fitz_pages doc) |};
     content := extract_pages 0 (fitz_pages doc) |}.

(** The world once [fitz.open] has been called on a path. *)
Definition fitz_open (w : World) (pdf_path : string) : World :=
  {| fs := fs w; tts_requests := tts_requests w;
     fitz_opened := fitz_opened w ++ [pdf_path] |}.

(** [process_pdf(pdf_filename)]: every call that reaches [fitz.open] is
    recorded in [fitz_opened]; a file that is no document makes it raise,
    which the function turns into [None]. *)
Definition process_pdf (w : World) (pdf_filename : string)
  : option string * World :=
  let pdf_path := joinpath INPUT_DIR pdf_filename in
  if negb (path_exists w pdf_path) then (None, w)
  else
    let cache_file_path :=
      joinpath CACHE_DIR (path_stem pdf_path +:+ "_raw.json") in
    let w1 := fitz_open w pdf_path in
    match fs w !! pdf_path with
    | Some (Pdf doc) =>
        (Some cache_file_path,
         write_file w1 cache_file_path (RawJSON (extract_document pdf_path doc)))
    | _ => (None, w1)
    end.

(** How a pipeline run ends, as its last log line tells. *)
Inductive PipelineEnd :=
| HaltedAtStage1
| HaltedAtStage2
| Finished.

(** The early guess at the citation path in [run_full_pipeline]: of the
    file under the raw cache's name only [metadata] and its title are
    read; [None] when [json.load] raised. *)
Definition potential_citation_path (w : World) (pdf_filename : string)
  : option string :=
  let pdf_path := joinpath INPUT_DIR pdf_filename in
  let raw_cache := joinpath CACHE_DIR (path_stem pdf_path +:+ "_raw.json") in
  let named (temp_title : string) :=
    Some (joinpath CACHE_DIR
            (sanitize_title temp_title +:+ "_citation_ready.json")) in
  if path_exists w raw_cache then
    match json_load w raw_cache with
    | Py.Return raw_data =>
        named (default (path_stem pdf_path) (title (json_metadata raw_data)))
    | Py.Raise _ => None
    end
  else named (path_stem pdf_path).

Definition cache_hit (w : World) (pdf_filename : string) : option string :=
  match potential_citation_path w pdf_filename with
  | Some p => if path_exists w p then Some p else None
  | None => None
  end.

(** [await generate_audio_streaming(citation_path)] and the log line
    that follows; the value returned is not looked at. *)
Definition stage3 (tts : Synthesizer) (citation_path : string) (w : World)
  : Py.outcome PipelineEnd * World :=
  match generate_audio_streaming tts w citation_path None with
  | (Py.Return _, w') => (Py.Return Finished, w')
  | (Py.Raise e, w') => (Py.Raise e, w')
  end.

(** [run_full_pipeline(pdf_filename)] *)
Definition run_full_pipeline (tts : Synthesizer) (w : World)
    (pdf_filename : string) : Py.outcome PipelineEnd * World :=
  let stage3 := stage3 tts in
  match cache_hit w pdf_filename with
  | Some citation_path => stage3 citation_path w
  | None =>
      match process_pdf w pdf_filename with
      | (None, w1) => (Py.Return HaltedAtStage1, w1)
      | (Some raw_cache_path, w1) =>
          match
            prepare_tts_chunks_with_citations w1 (Some raw_cache_path)
              default_max_chars
          with
          | (Py.Raise e, w2) => (Py.Raise e, w2)
          | (Py.Return None, w2) => (Py.Return HaltedAtStage2, w2)
          | (Py.Return (Some citation_path), w2) => stage3 citation_path w2
          end
      end
  end.

(* ===================================================================== *)
(** * The chunking rule in the words of the specification                 *)
(* ===================================================================== *)

(** The sentences of a block that the Chunker keeps: stripped, non-empty. *)
Definition nonempty_sentences (block_text : string) : list string :=
  filter (fun s => s <> "") (Py.strip <$> re_split_sentences block_text).

(** The size the rule charges to a group: each sentence and one
    separator. *)
Definition group_chars (g : list string) : nat :=
  sum_list_with (fun s => String.length s + 1) g.

Definition close_group (cur : list string) : list (list string) :=
  match cur with
  | [] => []
  | _ :: _ => [cur]
  end.

(** "Add a sentence to the current chunk while
    [current_chunk_chars + len(sentence) + 1 < max_chars]; otherwise close
    the current chunk and start a new one with that sentence." *)
Fixpoint greedy (max_chars : Z) (cur : list string) (ss : list string)
  : list (list string) :=
  match ss with
  | [] => close_group cur
  | s :: r =>
      if (Z.of_nat (group_chars cur + String.length s + 1) <? max_chars)%Z
      then greedy max_chars (cur ++ [s]) r
      else close_group cur ++ greedy max_chars [s] r
  end.

Definition block_groups (max_chars : Z) (block_text : string)
  : list (list string) :=
  greedy max_chars [] (nonempty_sentences block_text).

(** A group with the page and the 1-based ordinal of its block. *)
Definition Located : Type := nat * nat * list string.

Definition located (page_num ordinal : nat) (gs : list (list string))
  : list Located :=
  (fun g => (page_num, ordinal, g)) <$> gs.

Fixpoint blocks_groups (max_chars : Z) (page_num block_idx : nat)
    (blocks : list string) : list Located :=
  match blocks with
  | [] => []
  | b :: r =>
      located page_num (block_idx + 1) (block_groups max_chars b)
      ++ blocks_groups max_chars page_num (S block_idx) r
  end.

Definition doc_groups (max_chars : Z) (pages : list PageData)
  : list Located :=
  concat ((fun pd => blocks_groups max_chars (page_number pd) 0 (text_blocks pd))
            <$> pages).

(** The counters the Chunker carries from one chunk to the next. *)
Record Cursor := {
  next_id : nat;
  next_gsi : nat;
  next_time : Q
}.

Definition sentence_records (gsi0 : nat) (g : list string) : list Sentence :=
  imap (fun i s => {| global_index := gsi0 + i;
                      sentence_in_block := i;
                      sentence_text := s |}) g.

Definition chunk_of_group (k : Cursor) (g : Located) : Chunk :=
  let chunk_text := Py.join " " g.2 in
  let est_duration :=
    (inject_Z (Z.of_nat (String.length chunk_text))
       / inject_Z AVG_CHARS_PER_SECOND)%Q in
  {| chunk_id := next_id k;
     text := chunk_text;
     page := g.1.1;
     block_index := g.1.2;
     sentences := sentence_records (next_gsi k) g.2;
     start_time := next_time k;
     duration_seconds := est_duration;
     end_time := (next_time k + est_duration)%Q |}.

Definition advance1 (k : Cursor) (g : Located) : Cursor :=
  {| next_id := S (next_id k);
     next_gsi := next_gsi k + length g.2;
     next_time := end_time (chunk_of_group k g) |}.

Definition advance (k : Cursor) (gs : list Located) : Cursor :=
  fold_left advance1 gs k.

Fixpoint assemble (k : Cursor) (gs : list Located) : list Chunk :=
  match gs with
  | [] => []
  | g :: r => chunk_of_group k g :: assemble (advance1 k g) r
  end.

Definition cursor_of (st : Locals) : Cursor :=
  {| next_id := length (tts_chunks st);
     next_gsi := global_sentence_index st;
     next_time := estimated_total_time st |}.

Definition start_cursor : Cursor :=
  {| next_id := 0; next_gsi := 0; next_time := 0%Q |}.

(** What a chunk tells about where its sentences come from. *)
Definition provenance (c : Chunk) : Located :=
  (page c, block_index c, sentence_text <$> sentences c).

(** The half-open interval of a chunk, as a proposition. *)
Definition in_interval (c : Chunk) (t : Q) : Prop :=
  (start_time c <= t)%Q /\ (t < end_time c)%Q.

(** "[floor(progress_ratio * sentence_count)] clamped to
    [[0, sentence_count - 1]]", the ratio being 0 when the duration is 0. *)
Definition spec_sentence_index (c : Chunk) (t : Q) : Z :=
  let n := Z.of_nat (length (sentences c)) in
  let progress_ratio :=
    if Qeq_bool (duration_seconds c) 0 then 0%Q
    else ((t - start_time c) / duration_seconds c)%Q in
  Z.max 0 (Z.min (Qfloor (progress_ratio * inject_Z n)%Q) (n - 1)).

(** A group the rule has let grow past one sentence is under the limit. *)
Definition within_limit (max_chars : Z) (g : list string) : Prop :=
  (exists s, g = [s]) \/ (Z.of_nat (group_chars g) < max_chars)%Z.

(** The manifest of the worked example: two chunks, [[0,5)] holding the
    sentences A and B, and [[5,10)] holding C. *)
Definition example_metadata : Metadata :=
  {| title := Some "Example"; author := Some "Author";
     source_filename := "example.pdf"; total_pages := 1 |}.

Definition example_manifest : CitationManifest :=
  {| metadata := example_metadata;
     book_id := "Example";
     processing := {| total_chunks := 2; total_sentences := 3;
                      total_estimated_duration_seconds := 10%Q |};
     chunks :=
       [ {| chunk_id := 0; text := "A B"; page := 1; block_index := 1;
            sentences :=
              [ {| global_index := 0; sentence_in_block := 0;
                   sentence_text := "A" |};
                {| global_index := 1; sentence_in_block := 1;
                   sentence_text := "B" |} ];
            start_time := 0%Q; duration_seconds := 5%Q; end_time := 5%Q |};
         {| chunk_id := 1; text := "C"; page := 1; block_index := 2;
            sentences :=
              [ {| global_index := 2; sentence_in_block := 0;
                   sentence_text := "C" |} ];
            start_time := 5%Q; duration_seconds := 5%Q;
            end_time := 10%Q |} ] |}.

(** The sentence text a resolution reports, if it reports one. *)
Definition reported_text (r : Py.outcome (option Citation)) : option string :=
  match r with
  | Py.Return (Some cit) => Some (cit_sentence_text cit)
  | _ => None
  end.

(** ** Worked scenarios *)

(** A book of one page with five one-sentence blocks: five chunks. *)
Definition five_raw : RawData :=
  {| raw_metadata :=
       {| title := Some "Five"; author := Some "Author";
          source_filename := "five.pdf"; total_pages := 1 |};
     content :=
       [ {| page_number := 1;
            text_blocks := ["One."; "Two."; "Three."; "Four."; "Five."];
            coordinate_blocks := [] |} ] |}.

Definition five_manifest : CitationManifest :=
  build_manifest default_max_chars "five" five_raw.

Definition five_citation_path : string :=
  joinpath CACHE_DIR "Five_citation_ready.json".

Definition five_world : World :=
  {| fs := {[ five_citation_path := CitationJSON five_manifest ]};
     tts_requests := []; fitz_opened := [] |}.

(** A synthesizer that always answers, and one whose third answer is an
    error. *)
Definition always_ok : Synthesizer := fun _ t => Some ("RIFF" +:+ t).
Definition fails_on_third : Synthesizer :=
  fun n t => if n =? 2 then None else Some ("RIFF" +:+ t).

(** The chunk ids a ledger file lists. *)
Definition ledger_ids (w : World) (p : string) : option (list nat) :=
  match fs w !! p with
  | Some (LedgerJSON l) =>
      (fun rs : list ReadyChunk => rc_chunk_id <$> rs) <$> ready_chunks l
  | _ => None
  end.

(** The world after a complete run on [five_world], with the ledger entry
    of chunk 2 deleted by hand: its audio file is still there. *)
Definition five_done : World :=
  (generate_audio_streaming always_ok five_world five_citation_path None).2.

Definition drop_entry (id : nat) (w : World) (p : string) : World :=
  match fs w !! p with
  | Some (LedgerJSON l) =>
      write_file w p
        (LedgerJSON
           {| ledger_metadata := ledger_metadata l;
              ledger_book_id := ledger_book_id l;
              ledger_total_chunks := ledger_total_chunks l;
              ready_chunks :=
                (fun rs : list ReadyChunk =>
                   filter (fun r => rc_chunk_id r <> id) rs)
                  <$> ready_chunks l |})
  | _ => w
  end.

Definition five_entry_lost : World :=
  drop_entry 2 five_done (manifest_path "Five").

(** A world whose ledger file for the book cannot be parsed. *)
Definition five_ledger_corrupt : World :=
  write_file five_world (manifest_path "Five") (Garbage "{ready_chunks: [").

(** A world with the document and an older raw cache of it, but no
    citation manifest. *)
Definition tale_doc : FitzDoc :=
  {| fitz_title := Some "Tale"; fitz_author := None;
     fitz_pages := [ {| fitz_blocks := ["Fresh text."]; fitz_spans := [] |} ] |}.

Definition tale_old_raw : RawData :=
  {| raw_metadata :=
       {| title := Some "Tale"; author := Some "Unknown";
          source_filename := "tale.pdf"; total_pages := 1 |};
     content :=
       [ {| page_number := 1; text_blocks := ["Old text."];
            coordinate_blocks := [] |} ] |}.

Definition tale_raw_path : string := joinpath CACHE_DIR "tale_raw.json".

Definition tale_world : World :=
  {| fs := {[ joinpath INPUT_DIR "tale.pdf" := Pdf tale_doc;
              tale_raw_path := RawJSON tale_old_raw ]};
     tts_requests := []; fitz_opened := [] |}.

Definition tale_run : Py.outcome PipelineEnd * World :=
  run_full_pipeline always_ok tale_world "tale.pdf".

(* ===================================================================== *)
(** * The endpoints of the processing service                             *)
(* ===================================================================== *)

(** What an endpoint answers: a body, or an [HTTPException]. *)
Inductive Http (A : Type) :=
| Ok (body : A)
| HTTPException (status_code : nat) (detail : string).
Arguments Ok {A} body.
Arguments HTTPException {A} status_code detail.

(** [s.endswith(suffix)] *)
Definition endswith (s suffix : string) : bool :=
  String.prefix (String.rev suffix) (String.rev s).

(** [re.sub(r'[^\w\-\.]', '', name).strip()] *)
Definition safe_filename_of (name : string) : string :=
  Py.strip
    (Py.str_filter
       (fun c => Py.is_word c || Ascii.eqb c "-"%char || Ascii.eqb c "."%char)
       name).

(** [re.sub(r'[^\w\s\-]', '', book_id).strip()] *)
Definition safe_book_id_of (book_id : string) : string :=
  Py.strip
    (Py.str_filter
       (fun c => Py.is_word c || Py.is_space c || Ascii.eqb c "-"%char)
       book_id).

Record ProcessingStarted := {
  ps_status : string;
  ps_filename : string
}.

(** [start_pdf_processing(pdf_filename, background_tasks)]: the answer, and
    the argument of the [run_full_pipeline] task it has added, if any. *)
Definition start_pdf_processing (w : World) (pdf_filename : string)
  : Http ProcessingStarted * option string :=
  let safe_filename := safe_filename_of pdf_filename in
  if negb (endswith safe_filename ".pdf")
  then (HTTPException 400 "Must be a PDF file", None)
  else
    let pdf_path := joinpath INPUT_DIR safe_filename in
    if negb (path_exists w pdf_path)
    then (HTTPException 404 "PDF not found in input directory", None)
    else (Ok {| ps_status := "processing_started";
                ps_filename := safe_filename |},
          Some safe_filename).

(** [Path.glob] takes [**] only as a whole component of the pattern and
    raises [ValueError] otherwise (pathlib of Python 3.11); the patterns
    here have one component, which is never [**] alone. *)
Fixpoint has_double_star (pattern : string) : bool :=
  match pattern with
  | String a (String b _ as r) =>
      (Ascii.eqb a "*"%char && Ascii.eqb b "*"%char) || has_double_star r
  | _ => false
  end.

Section CitationEndpoint.
(** [CACHE_DIR.glob(pattern)] for a pattern it takes, in the order the
    directory yields. *)
Variable glob_cache : World -> string -> list string.
(** [str(x)] of a float. *)
Variable float_str : Q -> string.

(** [get_citation(book_id, timestamp)] *)
Definition get_citation (w : World) (book_id : string) (timestamp : Q)
  : Py.outcome (Http Citation) :=
  let safe_book_id := safe_book_id_of book_id in
  let safe_book_id_sanitized := Py.replace_char " "%char "_" safe_book_id in
  let citation_filename := safe_book_id_sanitized +:+ "_citation_ready.json" in
  let citation_path := joinpath CACHE_DIR citation_filename in
  let answer (citation_path : string) :=
    match get_citation_at_timestamp w citation_path timestamp with
    | Py.Raise e => Py.Raise e
    | Py.Return None =>
        Py.Return
          (HTTPException 404
             ("No citation found for timestamp " +:+ float_str timestamp))
    | Py.Return (Some citation_data) => Py.Return (Ok citation_data)
    end in
  if negb (path_exists w citation_path) then
    let pattern :=
      "*" +:+ safe_book_id_sanitized +:+ "*citation_ready.json" in
    if has_double_star pattern then Py.Raise Py.ValueError
    else
      match glob_cache w pattern with
      | [] => Py.Return (HTTPException 404 "Citation data not available")
      | found_path :: _ => answer found_path
      end
  else answer citation_path.
End CitationEndpoint.

(* ===================================================================== *)
(** * Vocabulary for the further properties                               *)
(* ===================================================================== *)

(** The characters of a text that are not whitespace, in order. *)
Definition visible (s : string) : string :=
  Py.str_filter (fun c => negb (Py.is_space c)) s.

(** The texts of a list, one after the other. *)
Definition concat_str (l : list string) : string :=
  foldr String.append "" l.

(** Every block of the raw cache, page after page. *)
Definition all_blocks (data : RawData) : list string :=
  concat (text_blocks <$> content data).

(** A text as its list of characters. *)
Definition chars (s : string) : list ascii := list_ascii_of_string s.

(** No character of the text satisfies [bad]. *)
Definition free_of (bad : ascii -> bool) (s : string) : Prop :=
  Forall (fun c => bad c = false) (chars s).

(** The text neither starts nor ends with whitespace. *)
Definition trimmed (s : string) : Prop := Py.strip s = s.

(** The ids of a list of ready records. *)
Definition ready_ids (rs : list ReadyChunk) : list nat := rc_chunk_id <$> rs.

(** The state in which [generate_audio_streaming] enters its loop. *)
Definition loop_start (w : World) (rs : list ReadyChunk) : GenState :=
  {| ready := rs; world := w |}.

(** A block of two short sentences and a longer one. *)
Definition short_pair_raw : RawData :=
  {| raw_metadata := example_metadata;
     content := [ {| page_number := 1;
                     text_blocks := ["Hi. Yo. A long sentence."];
                     coordinate_blocks := [] |} ] |}.

(** The text is empty or ends with a visible character. *)
Fixpoint ends_visible (s : string) : Prop :=
  match s with
  | "" => True
  | String c "" => Py.is_space c = false
  | String _ r => ends_visible r
  end.

(** The ready records [generate_audio_streaming] starts its loop with:
    those of the ledger file when there is one, none when there is no
    file; [None] when the file cannot be read and the stage halts. *)
Definition ledger_start (w : World) (book_name : string)
  : option (list ReadyChunk) :=
  if path_exists w (manifest_path book_name) then
    match load_ready_chunks w (manifest_path book_name) with
    | Py.Return rs => Some rs
    | Py.Raise _ => None
    end
  else Some [].

(** The in-memory records and the ledger file agree: the file holds the
    records, or there is no file and no record. *)
Definition synced (book_name : string) (st : GenState) : Prop :=
  ledger_start (world st) book_name = Some (ready st).

(** What one step of the generator loop, and so a whole loop, may change:
    records are kept, files other than the ledger are never rewritten, no
    file disappears, and the ledger invariants are carried along. *)
Definition grows (book_name : string) (st st' : GenState) : Prop :=
  (forall r, r ∈ ready st -> r ∈ ready st')
  /\ (forall p, p <> manifest_path book_name ->
        is_Some (fs (world st) !! p) ->
        fs (world st') !! p = fs (world st) !! p)
  /\ (forall p, is_Some (fs (world st) !! p) -> is_Some (fs (world st') !! p))
  /\ (NoDup (ready_ids (ready st)) -> NoDup (ready_ids (ready st')))
  /\ (Sorted le (ready_ids (ready st)) -> Sorted le (ready_ids (ready st')))
  /\ (synced book_name st -> synced book_name st').

(** A decimal digit. *)
Definition is_digit (c : ascii) : bool :=
  let n := nat_of_ascii c in (48 <=? n) && (n <=? 57).

(** A world with no file at all. *)
Definition empty_world : World :=
  {| fs := ∅; tts_requests := []; fitz_opened := [] |}.

(** What Stages 1 and 2 leave behind for a document the pipeline has
    opened: the manifest, its path, and the world before Stage 3. *)
Definition pipeline_manifest (pdf_filename : string) (doc : FitzDoc)
  : CitationManifest :=
  let pdf_path := joinpath INPUT_DIR pdf_filename in
  let raw_path := joinpath CACHE_DIR (path_stem pdf_path +:+ "_raw.json") in
  build_manifest default_max_chars (remove_all "_raw" (path_stem raw_path))
    (extract_document pdf_path doc).

Definition pipeline_citation_path (pdf_filename : string) (doc : FitzDoc)
  : string :=
  joinpath CACHE_DIR
    (book_id (pipeline_manifest pdf_filename doc) +:+ "_citation_ready.json").

Definition before_stage3 (w : World) (pdf_filename : string) (doc : FitzDoc)
  : World :=
  let pdf_path := joinpath INPUT_DIR pdf_filename in
  let raw_path := joinpath CACHE_DIR (path_stem pdf_path +:+ "_raw.json") in
  write_file
    (write_file (fitz_open w pdf_path) raw_path
       (RawJSON (extract_document pdf_path doc)))
    (pipeline_citation_path pdf_filename doc)
    (CitationJSON (pipeline_manifest pdf_filename doc)).

(** The index of the specification with the quotient and the product
    taken in float arithmetic, each operation rounded, as Python takes
    them. *)
Definition float_sentence_index (c : Chunk) (t : Q) : Z :=
  let n := Z.of_nat (length (sentences c)) in
  let progress_ratio :=
    if Qeq_bool (duration_seconds c) 0 then 0%Q
    else Py.fdiv (Py.fsub t (start_time c)) (duration_seconds c) in
  Z.max 0
    (Z.min (Qfloor (Py.fmul progress_ratio (Py.float_of_int n))) (n - 1)).

(** Whether the float results on the way to the index stay in the
    binary64 range, so that [int] gets a finite number (with a duration
    that is not positive the index is the integer 0). *)
Definition floats_in_range (c : Chunk) (t : Q) : bool :=
  let n := Z.of_nat (length (sentences c)) in
  let time_into_chunk := Py.fsub t (start_time c) in
  negb (Qlt_bool 0 (duration_seconds c))
  || (Py.in_range (t - start_time c)
      && Py.in_range (time_into_chunk / duration_seconds c)
      && Py.in_range (inject_Z n)
      && Py.in_range (Py.fdiv time_into_chunk (duration_seconds c)
                      * Py.float_of_int n)).

(** A book of one block with 22 sentences, [Aa.] to [Ll.] and [m.] to
    [v.]: one chunk of 77 characters, lasting 77/14 = 5.5 seconds. *)
Definition alphabet_raw : RawData :=
  {| raw_metadata :=
       {| title := Some "Alphabet"; author := Some "Author";
          source_filename := "alphabet.pdf"; total_pages := 1 |};
     content :=
       [ {| page_number := 1;
            text_blocks :=
              ["Aa. Bb. Cc. Dd. Ee. Ff. Gg. Hh. Ii. Jj. Kk. Ll. " +:+
               "m. n. o. p. q. r. s. t. u. v."];
            coordinate_blocks := [] |} ] |}.

Definition alphabet_manifest : CitationManifest :=
  build_manifest default_max_chars "alphabet" alphabet_raw.

(* ===================================================================== *)
(** * The Chunker computes the greedy grouping                            *)
(* ===================================================================== *)

Section ChunkerRefinement.
Variable max_chars : Z.

Lemma assemble_app k gs1 gs2 :
  assemble k (gs1 ++ gs2) = assemble k gs1 ++ assemble (advance k gs1) gs2.
Proof.
  revert k. induction gs1 as [|g gs1 IH]; intros k; simpl; [done|].
  by rewrite IH.
Qed.

Lemma advance_app k gs1 gs2 :
  advance k (gs1 ++ gs2) = advance (advance k gs1) gs2.
Proof. unfold advance. by rewrite fold_left_app. Qed.

Lemma length_assemble k gs : length (assemble k gs) = length gs.
Proof. revert k. induction gs as [|g gs IH]; intros k; simpl; auto. Qed.


Lemma length_sentence_records g0 g : length (sentence_records g0 g) = length g.
Proof. unfold sentence_records. by rewrite length_imap. Qed.

Lemma sentence_records_snoc g0 g s :
  sentence_records g0 (g ++ [s]) =
  sentence_records g0 g ++
  [ {| global_index := g0 + length g; sentence_in_block := length g;
       sentence_text := s |} ].
Proof.
  unfold sentence_records. rewrite imap_app. simpl.
  by rewrite !Nat.add_0_r.
Qed.

Lemma group_chars_snoc g s :
  group_chars (g ++ [s]) = group_chars g + (String.length s + 1).
Proof.
  unfold group_chars. rewrite sum_list_with_app. simpl. lia.
Qed.

(** Closing the open chunk emits the chunk of the current group. *)
Lemma close_if_open_spec p b st g0 :
  global_sentence_index st = g0 + length (current_chunk st) ->
  chunk_sentences_data st = sentence_records g0 (current_chunk st) ->
  let k := {| next_id := length (tts_chunks st); next_gsi := g0;
              next_time := estimated_total_time st |} in
  let gs := located p (b + 1) (close_group (current_chunk st)) in
  let st' := close_if_open p b st in
  tts_chunks st' = tts_chunks st ++ assemble k gs
  /\ cursor_of st' = advance k gs
  /\ current_chunk st' = current_chunk st
  /\ current_chunk_chars st' = current_chunk_chars st
  /\ chunk_sentences_data st' = chunk_sentences_data st.
Proof.
  intros Hg Hs. unfold close_if_open, close_group.
  destruct (current_chunk st) as [|s cur] eqn:Hcur; simpl.
  - rewrite app_nil_r. repeat split; try done.
    unfold cursor_of. f_equal. simpl in Hg. lia.
  - unfold close_chunk, cursor_of, advance, advance1, chunk_of_group; simpl.
    rewrite Hcur, Hs. simpl. repeat split; try done.
    f_equal.
    + rewrite length_app. simpl. lia.
    + simpl in Hg. lia.
Qed.

(** The three ways through the body of the sentence loop. *)
Lemma sentence_step_blank p b st s :
  Py.strip s = "" -> sentence_step max_chars p b st s = st.
Proof. intros H. unfold sentence_step. by rewrite H. Qed.

Lemma sentence_step_fits p b st s :
  Py.strip s <> "" ->
  (Z.of_nat (current_chunk_chars st + String.length (Py.strip s) + 1)
     < max_chars)%Z ->
  sentence_step max_chars p b st s =
  {| tts_chunks := tts_chunks st;
     global_sentence_index := global_sentence_index st + 1;
     estimated_total_time := estimated_total_time st;
     current_chunk := current_chunk st ++ [Py.strip s];
     current_chunk_chars :=
       current_chunk_chars st + (String.length (Py.strip s) + 1);
     chunk_sentences_data :=
       chunk_sentences_data st ++
       [ {| global_index := global_sentence_index st;
            sentence_in_block := length (chunk_sentences_data st);
            sentence_text := Py.strip s |} ] |}.
Proof.
  intros Hne Hfit. unfold sentence_step.
  apply String.eqb_neq in Hne. rewrite Hne.
  replace (_ <? _)%Z with true; [done|].
  symmetry. apply Z.ltb_lt. lia.
Qed.

Lemma sentence_step_starts p b st s :
  Py.strip s <> "" ->
  ~ (Z.of_nat (current_chunk_chars st + String.length (Py.strip s) + 1)
       < max_chars)%Z ->
  let st' := close_if_open p b st in
  sentence_step max_chars p b st s =
  {| tts_chunks := tts_chunks st';
     global_sentence_index := global_sentence_index st' + 1;
     estimated_total_time := estimated_total_time st';
     current_chunk := [Py.strip s];
     current_chunk_chars := String.length (Py.strip s) + 1;
     chunk_sentences_data :=
       [ {| global_index := global_sentence_index st';
            sentence_in_block := 0;
            sentence_text := Py.strip s |} ] |}.
Proof.
  intros Hne Hfit. unfold sentence_step.
  apply String.eqb_neq in Hne. rewrite Hne.
  replace (_ <? _)%Z with false; [done|].
  symmetry. apply Z.ltb_ge. lia.
Qed.

(** The sentence loop of one block, from any point inside the block. *)
Lemma sentence_loop p b ss : forall st g0,
  global_sentence_index st = g0 + length (current_chunk st) ->
  chunk_sentences_data st = sentence_records g0 (current_chunk st) ->
  current_chunk_chars st = group_chars (current_chunk st) ->
  let k := {| next_id := length (tts_chunks st); next_gsi := g0;
              next_time := estimated_total_time st |} in
  let gs :=
    located p (b + 1)
      (greedy max_chars (current_chunk st)
         (filter (fun s => s <> "") (Py.strip <$> ss))) in
  let st' :=
    close_if_open p b (fold_left (sentence_step max_chars p b) ss st) in
  tts_chunks st' = tts_chunks st ++ assemble k gs
  /\ cursor_of st' = advance k gs.
Proof.
  induction ss as [|s ss IH]; intros st g0 Hg Hs Hc.
  - destruct (close_if_open_spec p b st g0 Hg Hs) as (H1 & H2 & _). done.
  - cbn [fold_left fmap list_fmap].
    destruct (decide (Py.strip s = "")) as [Hblank|Hne].
    + rewrite sentence_step_blank by done.
      rewrite filter_cons_False by (intros Hn; done).
      by apply IH.
    + rewrite filter_cons_True by done. cbn [greedy].
      destruct (Z.ltb_spec
                  (Z.of_nat (group_chars (current_chunk st)
                             + String.length (Py.strip s) + 1)) max_chars)
        as [Hfit|Hfull].
      * rewrite sentence_step_fits by (rewrite ?Hc; first [done|lia]).
        match goal with |- context [fold_left _ ss ?st2] =>
          specialize (IH st2 g0) end.
        cbn [tts_chunks global_sentence_index estimated_total_time
             current_chunk current_chunk_chars chunk_sentences_data] in IH.
        apply IH.
        -- rewrite length_app. simpl. lia.
        -- rewrite Hs, sentence_records_snoc, length_sentence_records.
           do 3 f_equal. lia.
        -- rewrite group_chars_snoc. lia.
      * rewrite sentence_step_starts by (rewrite ?Hc; first [done|lia]).
        destruct (close_if_open_spec p b st g0 Hg Hs)
          as (H1 & H2 & _).
        match goal with |- context [fold_left _ ss ?st2] =>
          specialize (IH st2 (global_sentence_index (close_if_open p b st)))
        end.
        cbn [tts_chunks global_sentence_index estimated_total_time
             current_chunk current_chunk_chars chunk_sentences_data] in IH.
        destruct IH as [IH1 IH2].
        -- simpl. lia.
        -- unfold sentence_records. simpl. do 2 f_equal. lia.
        -- unfold group_chars. simpl. lia.
        -- unfold located in *. rewrite fmap_app, assemble_app, advance_app.
           rewrite <- H2. split.
           ++ rewrite IH1, app_assoc, <- H1. done.
           ++ rewrite IH2. done.
Qed.

Lemma block_step_spec p st b bt :
  let gs := located p (b + 1) (block_groups max_chars bt) in
  tts_chunks (block_step max_chars p st b bt)
    = tts_chunks st ++ assemble (cursor_of st) gs
  /\ cursor_of (block_step max_chars p st b bt) = advance (cursor_of st) gs.
Proof.
  unfold block_step, block_groups, nonempty_sentences.
  match goal with |- context [fold_left _ _ ?st0] =>
    pose proof (sentence_loop p b (re_split_sentences bt) st0
                  (global_sentence_index st)) as H end.
  cbn [tts_chunks global_sentence_index estimated_total_time
       current_chunk current_chunk_chars chunk_sentences_data] in H.
  apply H; simpl; done.
Qed.

Lemma blocks_loop_spec p blocks : forall b st,
  let gs := blocks_groups max_chars p b blocks in
  tts_chunks (blocks_loop max_chars p b blocks st)
    = tts_chunks st ++ assemble (cursor_of st) gs
  /\ cursor_of (blocks_loop max_chars p b blocks st)
     = advance (cursor_of st) gs.
Proof.
  induction blocks as [|bt blocks IH]; intros b st; simpl.
  - by rewrite app_nil_r.
  - destruct (block_step_spec p st b bt) as [H1 H2].
    destruct (IH (S b) (block_step max_chars p st b bt)) as [IH1 IH2].
    rewrite assemble_app, advance_app, IH1, IH2, H1, H2, <- app_assoc.
    done.
Qed.

Lemma pages_loop_spec pages : forall st,
  let gs := doc_groups max_chars pages in
  tts_chunks (fold_left (page_step max_chars) pages st)
    = tts_chunks st ++ assemble (cursor_of st) gs
  /\ cursor_of (fold_left (page_step max_chars) pages st)
     = advance (cursor_of st) gs.
Proof.
  unfold doc_groups.
  induction pages as [|pd pages IH]; intros st; simpl.
  - by rewrite app_nil_r.
  - destruct (blocks_loop_spec (page_number pd) (text_blocks pd) 0 st)
      as [H1 H2].
    destruct (IH (page_step max_chars st pd)) as [IH1 IH2].
    unfold page_step in *.
    rewrite assemble_app, advance_app, IH1, IH2, H1, H2, <- app_assoc.
    done.
Qed.

(** The Chunker's output is the greedy grouping of every block, numbered
    and timed in emission order. *)
Lemma chunk_pages_spec pages :
  tts_chunks (chunk_pages max_chars pages)
    = assemble start_cursor (doc_groups max_chars pages)
  /\ cursor_of (chunk_pages max_chars pages)
     = advance start_cursor (doc_groups max_chars pages).
Proof. apply (pages_loop_spec pages initial_locals). Qed.
End ChunkerRefinement.

(** ** What [assemble] guarantees *)

Lemma imap_sentence_fields (gi li : nat -> nat) (g : list string) :
  let rs := imap (fun i s => {| global_index := gi i;
                                sentence_in_block := li i;
                                sentence_text := s |}) g in
  sentence_text <$> rs = g
  /\ global_index <$> rs = gi <$> seq 0 (length g)
  /\ sentence_in_block <$> rs = li <$> seq 0 (length g).
Proof.
  revert gi li. induction g as [|s g IH]; intros gi li; [done|].
  destruct (IH (gi ∘ S) (li ∘ S)) as (H1 & H2 & H3).
  cbn [imap fmap list_fmap length seq].
  rewrite <- fmap_S_seq, <- !list_fmap_compose.
  unfold compose in *. simpl in *. rewrite H1, H2, H3. done.
Qed.

Lemma sentence_records_texts g0 g :
  sentence_text <$> sentence_records g0 g = g.
Proof. apply (imap_sentence_fields (fun i => g0 + i) (fun i => i) g). Qed.

Lemma sentence_records_global g0 g :
  global_index <$> sentence_records g0 g = seq g0 (length g).
Proof.
  destruct (imap_sentence_fields (fun i => g0 + i) (fun i => i) g) as (_ & H & _).
  unfold sentence_records. rewrite H, fmap_add_seq. f_equal; lia.
Qed.

Lemma sentence_records_local g0 g :
  sentence_in_block <$> sentence_records g0 g = seq 0 (length g).
Proof.
  destruct (imap_sentence_fields (fun i => g0 + i) (fun i => i) g) as (_ & _ & H).
  unfold sentence_records. rewrite H. apply list_fmap_id.
Qed.

Lemma provenance_assemble k gs : provenance <$> assemble k gs = gs.
Proof.
  revert k. induction gs as [|[[p b] g] gs IH]; intros k; [done|].
  simpl. rewrite IH. f_equal. unfold provenance. simpl.
  by rewrite sentence_records_texts.
Qed.

Lemma assemble_lookup k gs i c :
  assemble k gs !! i = Some c ->
  exists g, gs !! i = Some g /\ c = chunk_of_group (advance k (take i gs)) g.
Proof.
  revert k i. induction gs as [|g gs IH]; intros k i H; [done|].
  destruct i as [|i]; simpl in *.
  - injection H as <-. eauto.
  - apply IH in H as (g' & ? & ?). eauto.
Qed.



Lemma next_gsi_advance k gs :
  next_gsi (advance k gs) = next_gsi k + length (concat (snd <$> gs)).
Proof.
  unfold advance. revert k.
  induction gs as [|g gs IH]; intros k; cbn [fold_left]; [simpl; lia|].
  rewrite IH. cbn [fmap list_fmap concat]. rewrite length_app.
  unfold advance1. cbn [next_gsi]. lia.
Qed.

Lemma assemble_global_indices k gs :
  global_index <$> concat (sentences <$> assemble k gs)
  = seq (next_gsi k) (length (concat (snd <$> gs))).
Proof.
  revert k. induction gs as [|g gs IH]; intros k; [done|].
  simpl. rewrite fmap_app, IH, length_app, seq_app. simpl.
  by rewrite sentence_records_global.
Qed.




Lemma assemble_elem k gs c :
  c ∈ assemble k gs -> exists k' g, g ∈ gs /\ c = chunk_of_group k' g.
Proof.
  intros (i & Hi)%list_elem_of_lookup.
  apply assemble_lookup in Hi as (g & Hg & ->).
  eexists _, g. split; [|done]. by eapply list_elem_of_lookup_2.
Qed.

(** ** What the greedy rule guarantees *)

Lemma concat_close_group cur : concat (close_group cur) = cur.
Proof. destruct cur; simpl; [done|]. by rewrite app_nil_r. Qed.

Lemma greedy_concat max_chars ss : forall cur,
  concat (greedy max_chars cur ss) = cur ++ ss.
Proof.
  induction ss as [|s ss IH]; intros cur; simpl.
  - by rewrite concat_close_group, app_nil_r.
  - destruct (_ <? _)%Z.
    + by rewrite IH, <- app_assoc.
    + by rewrite concat_app, concat_close_group, IH.
Qed.

Lemma greedy_nonempty max_chars ss : forall cur g,
  g ∈ greedy max_chars cur ss -> g <> [].
Proof.
  induction ss as [|s ss IH]; intros cur g; simpl.
  - destruct cur; simpl; [by intros ?%elem_of_nil|].
    by intros ->%list_elem_of_singleton.
  - destruct (_ <? _)%Z; [apply IH|].
    intros [H|H]%elem_of_app; [|by eapply IH].
    destruct cur; simpl in H; [by apply elem_of_nil in H|].
    by apply list_elem_of_singleton in H as ->.
Qed.

Lemma greedy_within_limit max_chars ss : forall cur g,
  cur = [] \/ within_limit max_chars cur ->
  g ∈ greedy max_chars cur ss -> within_limit max_chars g.
Proof.
  induction ss as [|s ss IH]; intros cur g Hcur; simpl.
  - destruct cur; simpl; [by intros ?%elem_of_nil|].
    intros ->%list_elem_of_singleton. by destruct Hcur.
  - destruct (Z.ltb_spec (Z.of_nat (group_chars cur + String.length s + 1))
                max_chars) as [Hfit|Hfull].
    + apply IH. right. right. rewrite group_chars_snoc. lia.
    + intros [H|H]%elem_of_app.
      * destruct cur; simpl in H; [by apply elem_of_nil in H|].
        apply list_elem_of_singleton in H as ->. by destruct Hcur.
      * eapply IH; [|done]. right. left. eauto.
Qed.

Lemma group_chars_elem s g :
  s ∈ g -> String.length s + 1 <= group_chars g.
Proof. intros H. by apply (sum_list_with_in _ (fun s => String.length s + 1)). Qed.

Lemma blocks_groups_elem max_chars p blocks : forall b x,
  x ∈ blocks_groups max_chars p b blocks ->
  exists i bt, blocks !! i = Some bt /\ x.1.1 = p /\ x.1.2 = b + i + 1
               /\ x.2 ∈ block_groups max_chars bt.
Proof.
  induction blocks as [|bt blocks IH]; intros b x; simpl.
  - by intros ?%elem_of_nil.
  - intros [H|H]%elem_of_app.
    + unfold located in H. apply list_elem_of_fmap in H as (g & -> & Hg).
      exists 0, bt. simpl. repeat split; [lia|done].
    + apply IH in H as (i & bt' & ? & ? & ? & ?).
      exists (S i), bt'. repeat split; [done|done|lia|done].
Qed.

Lemma elem_of_concat {A} (x : A) (ls : list (list A)) :
  x ∈ concat ls <-> exists l, x ∈ l /\ l ∈ ls.
Proof.
  rewrite list_elem_of_In, in_concat. split.
  - intros (l & ? & ?). exists l. by rewrite !list_elem_of_In.
  - intros (l & ? & ?). exists l. by rewrite <- !list_elem_of_In.
Qed.

Lemma doc_groups_elem max_chars pages x :
  x ∈ doc_groups max_chars pages ->
  exists pd i bt, pd ∈ pages /\ text_blocks pd !! i = Some bt
                  /\ x.1.1 = page_number pd /\ x.1.2 = i + 1
                  /\ x.2 ∈ block_groups max_chars bt.
Proof.
  unfold doc_groups. intros (l & Hx & Hl)%elem_of_concat.
  apply list_elem_of_fmap in Hl as (pd & -> & Hpd).
  apply blocks_groups_elem in Hx as (i & bt & ? & ? & ? & ?).
  exists pd, i, bt. repeat split; [done|done|done|lia|done].
Qed.

(* ===================================================================== *)
(** * The manifest of the Chunker                                         *)
(* ===================================================================== *)

Lemma build_manifest_chunks max_chars fallback data :
  chunks (build_manifest max_chars fallback data)
  = assemble start_cursor (doc_groups max_chars (content data)).
Proof. apply chunk_pages_spec. Qed.


(** C3: the chunks of a manifest, read as (page, block ordinal, sentence
    texts), are exactly the greedy groups of each block's non-empty
    sentences, block after block; the groups of a block concatenate to its
    sentences, so nothing is dropped or cut; a sentence that alone reaches
    the limit is a chunk of its own; and every chunk holds sentences of one
    block only, the one it names. *)
Theorem C3_greedy_chunking (max_chars : Z) (fallback : string)
    (data : RawData) :
  let m := build_manifest max_chars fallback data in
  provenance <$> chunks m = doc_groups max_chars (content data)
  /\ (forall bt,
        concat (block_groups max_chars bt) = nonempty_sentences bt)
  /\ (forall bt g s,
        g ∈ block_groups max_chars bt -> s ∈ g ->
        (max_chars <= Z.of_nat (String.length s + 1))%Z -> g = [s])
  /\ (forall c, c ∈ chunks m ->
        exists pd i bt,
          pd ∈ content data /\ text_blocks pd !! i = Some bt
          /\ page c = page_number pd /\ block_index c = i + 1
          /\ (sentence_text <$> sentences c) ∈ block_groups max_chars bt).
Proof.
  cbv zeta. rewrite build_manifest_chunks. repeat split.
  - apply provenance_assemble.
  - intros bt. apply greedy_concat.
  - intros bt g s Hg Hs Hbig.
    destruct (greedy_within_limit max_chars _ [] g (or_introl eq_refl) Hg)
      as [[s' ->]|Hlim].
    + by apply list_elem_of_singleton in Hs as ->.
    + apply group_chars_elem in Hs. lia.
  - intros c Hc.
    assert (provenance c ∈ doc_groups max_chars (content data)) as Hp.
    { rewrite <- (provenance_assemble start_cursor).
      by apply list_elem_of_fmap_2. }
    apply doc_groups_elem in Hp as (pd & i & bt & ? & ? & ? & ? & ?).
    exists pd, i, bt. done.
Qed.

(** C4: reading the chunks in order and each chunk's sentences in order,
    the global indices are 0, 1, 2, ... without gap or repeat; inside each
    chunk the local positions are 0, 1, 2, ...; and [total_sentences] is the
    number of sentences read. *)
Theorem C4_sentence_indices (max_chars : Z) (fallback : string)
    (data : RawData) :
  let m := build_manifest max_chars fallback data in
  let all := concat (sentences <$> chunks m) in
  global_index <$> all = seq 0 (length all)
  /\ (forall c, c ∈ chunks m ->
        sentence_in_block <$> sentences c = seq 0 (length (sentences c)))
  /\ total_sentences (processing m) = length all.
Proof.
  cbv zeta.
  set (gs := doc_groups max_chars (content data)).
  assert (length (concat (sentences <$> assemble start_cursor gs))
          = length (concat (snd <$> gs))) as Hlen.
  { rewrite <- (length_fmap global_index), assemble_global_indices.
    apply length_seq. }
  rewrite build_manifest_chunks. fold gs. repeat split.
  - by rewrite assemble_global_indices, Hlen.
  - intros c Hc. apply assemble_elem in Hc as (k & g & _ & ->). simpl.
    by rewrite sentence_records_local, length_sentence_records.
  - rewrite Hlen. simpl.
    destruct (chunk_pages_spec max_chars (content data)) as [_ H].
    apply (f_equal next_gsi) in H. rewrite next_gsi_advance in H. done.
Qed.

(** C10: the text of every chunk is its sentences' texts joined by one
    space, and that text is what a synthesis request for the chunk sends. *)
Theorem C10_chunk_text (max_chars : Z) (fallback : string) (data : RawData)
    (i : nat) (c : Chunk) :
  chunks (build_manifest max_chars fallback data) !! i = Some c ->
  text c = Py.join " " (sentence_text <$> sentences c)
  /\ forall tts w,
       tts_requests (request_tts tts c w).2
       = tts_requests w ++ [Py.join " " (sentence_text <$> sentences c)].
Proof.
  rewrite build_manifest_chunks. intros Hc.
  apply assemble_lookup in Hc as ([[p b] g] & _ & ->). simpl.
  by rewrite sentence_records_texts.
Qed.

(** The second chunk of the five-block book, "Two.", is such a chunk. *)
Lemma C10_chunk_text_witness :
  exists c,
    chunks (build_manifest default_max_chars "five" five_raw) !! 1 = Some c
    /\ text c = "Two."
    /\ text c = Py.join " " (sentence_text <$> sentences c).
Proof.
  eexists. split; [by vm_compute|]. split; [by vm_compute|].
  eapply (C10_chunk_text default_max_chars "five" five_raw 1).
  by vm_compute.
Defined.

(* ===================================================================== *)
(** * Float rounding                                                      *)
(* ===================================================================== *)

Lemma pow2_pos k : (0 < Qpower 2 k)%Q.
Proof. by apply Qpower_0_lt. Qed.

Lemma pow2_le a b : (a <= b)%Z -> (Qpower 2 a <= Qpower 2 b)%Q.
Proof. intros H. by apply Qpower_le_compat_l. Qed.

Lemma pow2_inject k : (0 <= k)%Z -> (Qpower 2 k == inject_Z (2 ^ k))%Q.
Proof. intros H. by rewrite Zpower_Qpower. Qed.

Lemma round_half_even_bounds x :
  (Qfloor x <= Py.round_half_even x <= Qfloor x + 1)%Z.
Proof.
  unfold Py.round_half_even.
  destruct (_ ?= _)%Q; [destruct (Z.even _)|..]; lia.
Qed.

Lemma round_half_even_mono x y :
  (x <= y)%Q -> (Py.round_half_even x <= Py.round_half_even y)%Z.
Proof.
  intros Hxy. pose proof (Qfloor_resp_le _ _ Hxy) as Hf.
  destruct (decide (Qfloor x = Qfloor y)) as [E|N].
  - unfold Py.round_half_even. rewrite <- E.
    destruct (x - inject_Z (Qfloor x) ?= 1 # 2)%Q eqn:Cx;
      destruct (y - inject_Z (Qfloor x) ?= 1 # 2)%Q eqn:Cy;
      try (destruct (Z.even (Qfloor x)); lia); try lia; exfalso.
    + apply Qeq_alt in Cx. apply Qlt_alt in Cy. lra.
    + apply Qgt_alt in Cx. apply Qeq_alt in Cy. lra.
    + apply Qgt_alt in Cx. apply Qlt_alt in Cy. lra.
  - pose proof (round_half_even_bounds x). pose proof (round_half_even_bounds y).
    lia.
Qed.

Lemma round_half_even_Z z : Py.round_half_even (inject_Z z) = z.
Proof.
  unfold Py.round_half_even. rewrite Qfloor_Z.
  assert ((inject_Z z - inject_Z z ?= 1 # 2)%Q = Lt) as ->; [|done].
  apply (proj1 (Qlt_alt _ _)). lra.
Qed.

Lemma round_half_even_le x z :
  (x <= inject_Z z)%Q -> (Py.round_half_even x <= z)%Z.
Proof.
  intros H%round_half_even_mono. by rewrite round_half_even_Z in H.
Qed.

Lemma round_half_even_ge x z :
  (inject_Z z <= x)%Q -> (z <= Py.round_half_even x)%Z.
Proof.
  intros H%round_half_even_mono. by rewrite round_half_even_Z in H.
Qed.

(** [ilog2] is the exponent of the leading one. *)
Lemma ilog2_spec x :
  (0 < x)%Q ->
  (Qpower 2 (Py.ilog2 x) <= x)%Q /\ (x < Qpower 2 (Py.ilog2 x + 1))%Q.
Proof.
  intros Hx. unfold Py.ilog2. destruct (Qle_bool 1 x) eqn:H1.
  - apply Qle_bool_iff in H1.
    assert (1 <= Qfloor x)%Z as Hf.
    { change 1%Z with (Qfloor 1). by apply Qfloor_resp_le. }
    destruct (Z.log2_spec (Qfloor x)) as [Hlo Hhi]; [lia|].
    pose proof (Z.log2_nonneg (Qfloor x)) as Hn.
    rewrite !pow2_inject by lia. split.
    + apply Qle_trans with (inject_Z (Qfloor x)); [by rewrite <- Zle_Qle|].
      apply Qfloor_le.
    + apply Qlt_le_trans with (inject_Z (Qfloor x + 1)); [apply Qlt_floor|].
      rewrite <- Zle_Qle. rewrite Z.add_1_r. lia.
  - assert (x < 1)%Q as Hlt.
    { apply Qnot_le_lt. intros H. apply Qle_bool_iff in H. congruence. }
    assert (1 < / x)%Q as Hinv.
    { apply Qlt_shift_inv_l; [done|]. lra. }
    assert (2 <= Qceiling (/ x))%Z as Hc.
    { assert (1 < Qceiling (/ x))%Z; [|lia].
      rewrite Zlt_Qlt. apply Qlt_le_trans with (/ x)%Q; [done|].
      apply Qle_ceiling. }
    destruct (Z.log2_up_spec (Qceiling (/ x))) as [Hlo Hhi]; [lia|].
    set (u := Z.log2_up (Qceiling (/ x))) in *.
    assert (1 <= u)%Z as Hu.
    { destruct (Z.le_gt_cases 1 u); [done|].
      assert (u <= 0)%Z as Hu0 by lia.
      pose proof (Z.pow_le_mono_r 2 u 0 ltac:(lia) Hu0). simpl in *. lia. }
    assert (inject_Z (2 ^ Z.pred u) < / x)%Q as A.
    { apply Qle_lt_trans with (inject_Z (Qceiling (/ x) - 1)).
      - rewrite <- Zle_Qle. lia.
      - apply Qceiling_lt. }
    assert (/ x <= inject_Z (2 ^ u))%Q as B.
    { apply Qle_trans with (inject_Z (Qceiling (/ x))); [apply Qle_ceiling|].
      by rewrite <- Zle_Qle. }
    rewrite <- pow2_inject in A, B by lia.
    replace (- u + 1)%Z with (- Z.pred u)%Z by lia.
    rewrite !Qpower_opp. split.
    + apply Qle_shift_inv_r; [apply pow2_pos|].
      apply Qmult_le_l with (/ x)%Q; [lra|].
      rewrite Qmult_1_r. rewrite Qmult_assoc, (Qmult_comm (/ x)).
      rewrite Qmult_inv_r by lra. lra.
    + apply Qlt_shift_inv_l; [apply pow2_pos|].
      apply Qmult_lt_l with (/ x)%Q; [lra|].
      rewrite Qmult_assoc, (Qmult_comm (/ x)).
      rewrite Qmult_inv_r by lra. lra.
Qed.

Lemma pow2_plus a b : (Qpower 2 (a + b) == Qpower 2 a * Qpower 2 b)%Q.
Proof. by apply Qpower_plus. Qed.

Lemma Qabs_nonneg_eq x : (0 <= x)%Q -> Qabs x = x.
Proof.
  destruct x as [n d]. unfold Qle, Qabs. simpl. intros H.
  f_equal. apply Z.abs_eq. lia.
Qed.

Lemma round64_zero x : (x == 0)%Q -> Py.round64 x = 0%Q.
Proof.
  intros H. unfold Py.round64. by rewrite (proj2 (Qeq_bool_iff _ _) H).
Qed.

Lemma round64_nonneg x : (0 <= x)%Q -> (0 <= Py.round64 x)%Q.
Proof.
  intros Hx. unfold Py.round64. destruct (Qeq_bool x 0); [lra|]. cbv zeta.
  apply Qmult_le_0_compat; [|apply Qlt_le_weak, pow2_pos].
  change 0%Q with (inject_Z 0). rewrite <- Zle_Qle.
  apply round_half_even_ge.
  apply Qle_shift_div_l; [apply pow2_pos|].
  change (inject_Z 0) with 0%Q. by rewrite Qmult_0_l.
Qed.

Lemma round64_nonpos x : (x <= 0)%Q -> (Py.round64 x <= 0)%Q.
Proof.
  intros Hx. unfold Py.round64. destruct (Qeq_bool x 0); [lra|]. cbv zeta.
  pose proof (pow2_pos (Py.last_place x)) as Hp.
  assert (inject_Z (Py.round_half_even (x / Qpower 2 (Py.last_place x))) <= 0)%Q
    as Hr.
  { change 0%Q with (inject_Z 0). rewrite <- Zle_Qle.
    apply round_half_even_le.
    apply Qle_shift_div_r; [done|].
    change (inject_Z 0) with 0%Q. by rewrite Qmult_0_l. }
  rewrite <- (Qmult_0_l (Qpower 2 (Py.last_place x))).
  by apply Qmult_le_compat_r; [|apply Qlt_le_weak].
Qed.

Lemma ilog2_mono x y :
  (0 < x)%Q -> (x <= y)%Q -> (Py.ilog2 x <= Py.ilog2 y)%Z.
Proof.
  intros Hx Hxy.
  destruct (ilog2_spec x Hx) as [Hlo _].
  destruct (ilog2_spec y) as [_ Hhi]; [lra|].
  destruct (Z.le_gt_cases (Py.ilog2 x) (Py.ilog2 y)) as [|Hgt]; [done|].
  assert (Qpower 2 (Py.ilog2 y + 1) <= Qpower 2 (Py.ilog2 x))%Q
    by (apply pow2_le; lia).
  lra.
Qed.

(** Rounding keeps the order of non-negative numbers. *)
Lemma round64_mono x y :
  (0 <= x)%Q -> (x <= y)%Q -> (Py.round64 x <= Py.round64 y)%Q.
Proof.
  intros Hx Hxy.
  destruct (Qeq_bool x 0) eqn:Ex.
  { apply Qeq_bool_iff in Ex. rewrite (round64_zero x Ex).
    apply round64_nonneg. lra. }
  assert (0 < x)%Q as Hx0.
  { apply Qle_lteq in Hx as [H|H]; [done|].
    symmetry in H. apply Qeq_bool_iff in H. congruence. }
  assert (0 < y)%Q as Hy0 by lra.
  assert (Qeq_bool y 0 = false) as Ey.
  { destruct (Qeq_bool y 0) eqn:E; [|done]. apply Qeq_bool_iff in E. lra. }
  unfold Py.round64. rewrite Ex, Ey. cbv zeta. unfold Py.last_place.
  rewrite (Qabs_nonneg_eq x), (Qabs_nonneg_eq y) by lra.
  pose proof (ilog2_mono x y Hx0 Hxy) as Hm.
  destruct (ilog2_spec x Hx0) as [_ Hxhi].
  destruct (ilog2_spec y Hy0) as [Hylo _].
  set (ex := Py.ilog2 x) in *. set (ey := Py.ilog2 y) in *.
  set (kx := (Z.max ex (-1022) - 52)%Z). set (ky := (Z.max ey (-1022) - 52)%Z).
  pose proof (pow2_pos kx) as Pkx. pose proof (pow2_pos ky) as Pky.
  destruct (decide (kx = ky)) as [E|N].
  - rewrite <- E. apply Qmult_le_compat_r; [|lra].
    rewrite <- Zle_Qle. apply round_half_even_mono.
    apply Qmult_le_compat_r; [done|].
    apply Qlt_le_weak, Qinv_lt_0_compat, Pkx.
  - assert (kx + 53 <= ky + 52)%Z as Hk by lia.
    assert (ky = ey - 52)%Z as Hky by lia.
    apply Qle_trans with (Qpower 2 (kx + 53)).
    + rewrite Z.add_comm, pow2_plus.
      apply Qmult_le_compat_r; [|lra].
      rewrite (pow2_inject 53) by lia. rewrite <- Zle_Qle.
      apply round_half_even_le. apply Qle_shift_div_r; [done|].
      rewrite <- pow2_inject by lia. rewrite <- pow2_plus.
      apply Qle_trans with (Qpower 2 (ex + 1)); [lra|]. apply pow2_le. lia.
    + apply Qle_trans with (Qpower 2 (ky + 52)); [apply pow2_le; lia|].
      rewrite Z.add_comm, pow2_plus.
      apply Qmult_le_compat_r; [|lra].
      rewrite (pow2_inject 52) by lia. rewrite <- Zle_Qle.
      apply round_half_even_ge. apply Qle_shift_div_l; [done|].
      rewrite <- pow2_inject by lia. rewrite <- pow2_plus.
      replace (52 + ky)%Z with ey by lia. done.
Qed.

(* ===================================================================== *)
(** * The Citation Resolver                                               *)
(* ===================================================================== *)

Lemma Qlt_bool_iff a b : Qlt_bool a b = true <-> (a < b)%Q.
Proof.
  unfold Qlt_bool. rewrite negb_true_iff. split.
  - intros H. apply Qnot_le_lt. intros Hle.
    apply Qle_bool_iff in Hle. congruence.
  - intros H. destruct (Qle_bool b a) eqn:E; [|done].
    apply Qle_bool_iff in E. by apply Qlt_not_le in H.
Qed.

Lemma covers_iff c t : covers c t = true <-> in_interval c t.
Proof.
  unfold covers, in_interval.
  by rewrite andb_true_iff, Qle_bool_iff, Qlt_bool_iff.
Qed.

Lemma covers_false c t : covers c t = false <-> ~ in_interval c t.
Proof. rewrite <- covers_iff. by destruct (covers c t). Qed.

(** On a non-negative number, [int] and the floor agree. *)
Lemma int_of_floor q : (0 <= q)%Q -> Py.int_of q = Qfloor q.
Proof.
  destruct q as [n d]. unfold Qle, Py.int_of, Qfloor. simpl. intros H.
  apply Z.quot_div_nonneg; lia.
Qed.

Lemma Qfloor_nonneg q : (0 <= q)%Q -> (0 <= Qfloor q)%Z.
Proof.
  destruct q as [n d]. unfold Qle, Qfloor. simpl. intros H.
  apply Z.div_pos; lia.
Qed.

Lemma Qfloor_nonpos q : (q <= 0)%Q -> (Qfloor q <= 0)%Z.
Proof.
  intros H. change 0%Z with (Qfloor 0). by apply Qfloor_resp_le.
Qed.

Lemma Qlt_bool_false a b : Qlt_bool a b = false <-> (b <= a)%Q.
Proof.
  unfold Qlt_bool. rewrite negb_false_iff. apply Qle_bool_iff.
Qed.

Lemma Qdiv_nonneg_neg a d : (0 <= a)%Q -> (d < 0)%Q -> (a / d <= 0)%Q.
Proof.
  destruct a as [an ad], d as [dn dd]. unfold Qle, Qlt, Qdiv, Qmult, Qinv.
  simpl. intros Ha Hd. destruct dn as [|p|p]; simpl; lia.
Qed.

(** The index the code computes is the clamped floor of the float
    product. *)
Lemma sentence_index_at_spec c t :
  in_interval c t -> sentences c <> [] ->
  sentence_index_at c t = float_sentence_index c t
  /\ (0 <= sentence_index_at c t < Z.of_nat (length (sentences c)))%Z.
Proof.
  intros [Hlo Hhi] Hne.
  assert (1 <= Z.of_nat (length (sentences c)))%Z as Hn.
  { destruct (sentences c); [done|]. simpl. lia. }
  assert (0 <= Py.fsub t (start_time c))%Q as Hinto.
  { apply round64_nonneg. lra. }
  assert (0 <= Py.float_of_int (Z.of_nat (length (sentences c))))%Q as Hnq.
  { apply round64_nonneg. change 0%Q with (inject_Z 0).
    rewrite <- Zle_Qle. lia. }
  unfold sentence_index_at, float_sentence_index.
  destruct (Qlt_bool 0 (duration_seconds c)) eqn:Hd.
  - apply Qlt_bool_iff in Hd.
    assert (Qeq_bool (duration_seconds c) 0 = false) as ->.
    { destruct (Qeq_bool (duration_seconds c) 0) eqn:E; [|done].
      apply Qeq_bool_iff in E. lra. }
    assert (0 <= Py.fmul (Py.fdiv (Py.fsub t (start_time c))
                            (duration_seconds c))
                   (Py.float_of_int (Z.of_nat (length (sentences c)))))%Q
      as Hx.
    { apply round64_nonneg. apply Qmult_le_0_compat; [|done].
      apply round64_nonneg.
      apply Qle_shift_div_l; [done|]. by rewrite Qmult_0_l. }
    rewrite (int_of_floor _ Hx).
    pose proof (Qfloor_nonneg _ Hx). lia.
  - apply Qlt_bool_false in Hd.
    assert (Py.fmul 0 (Py.float_of_int (Z.of_nat (length (sentences c))))
            = 0%Q) as Hz0.
    { apply round64_zero. apply Qmult_0_l. }
    rewrite Hz0. change (Py.int_of 0) with 0%Z.
    destruct (Qeq_bool (duration_seconds c) 0) eqn:Hz.
    + rewrite Hz0. change (Qfloor 0) with 0%Z. lia.
    + apply Qeq_bool_neq in Hz.
      assert (duration_seconds c < 0)%Q as Hneg.
      { apply Qle_lteq in Hd as [?|E]; [done|]. by destruct Hz. }
      assert (Py.fmul (Py.fdiv (Py.fsub t (start_time c))
                         (duration_seconds c))
                (Py.float_of_int (Z.of_nat (length (sentences c)))) <= 0)%Q
        as Hx.
      { apply round64_nonpos.
        eapply Qle_trans.
        - apply Qmult_le_compat_r; [|exact Hnq].
          apply round64_nonpos. by apply Qdiv_nonneg_neg.
        - rewrite Qmult_0_l. apply Qle_refl. }
      pose proof (Qfloor_nonpos _ Hx). lia.
Qed.

Lemma index_in_range {A} (l : list A) (z : Z) :
  (0 <= z < Z.of_nat (length l))%Z ->
  exists a, l !! Z.to_nat z = Some a /\ Py.index l z = Py.Return a.
Proof.
  intros [Hlo Hhi]. unfold Py.index.
  destruct (Z.ltb_spec z 0) as [?|_]; [lia|].
  destruct (Z.ltb_spec z 0) as [?|_]; [lia|].
  destruct (lookup_lt_is_Some_2 l (Z.to_nat z)) as [a Ha]; [lia|].
  exists a. by rewrite Ha.
Qed.

Lemma resolve_in_none md cs t :
  (forall c, c ∈ cs -> ~ in_interval c t) ->
  resolve_in md cs t = Py.Return None.
Proof.
  induction cs as [|c cs IH]; intros H; simpl; [done|].
  assert (covers c t = false) as ->.
  { apply covers_false, H. by left. }
  apply IH. intros c' Hc'. apply H. by right.
Qed.

(** The scan stops at the first chunk whose interval holds the time. *)
Lemma resolve_in_first md cs t : forall i c,
  cs !! i = Some c -> in_interval c t ->
  (forall j c', j < i -> cs !! j = Some c' -> ~ in_interval c' t) ->
  resolve_in md cs t =
  match Py.index (sentences c) (sentence_index_at c t) with
  | Py.Return s => Py.Return (Some (make_citation md c s t))
  | Py.Raise e => Py.Raise e
  end.
Proof.
  induction cs as [|c0 cs IH]; intros i c Hi Hin Hbefore; [done|].
  destruct i as [|i]; simpl in *.
  - injection Hi as ->. apply covers_iff in Hin. by rewrite Hin.
  - assert (covers c0 t = false) as ->.
    { apply covers_false. apply (Hbefore 0); [lia|done]. }
    apply (IH i); [done|done|].
    intros j c' Hj. apply (Hbefore (S j)). lia.
Qed.

Lemma resolve_in_total md cs t :
  (forall c, c ∈ cs -> sentences c <> []) ->
  exists r, resolve_in md cs t = Py.Return r.
Proof.
  induction cs as [|c cs IH]; intros Hne; simpl; [eauto|].
  destruct (covers c t) eqn:Hc.
  - apply covers_iff in Hc.
    destruct (sentence_index_at_spec c t Hc) as [_ Hrange].
    { apply Hne. by left. }
    apply index_in_range in Hrange as (s & _ & ->). eauto.
  - apply IH. intros c' Hc'. apply Hne. by right.
Qed.

(** C2 as stated fails: the index is not the floor of the exact product.
    The chunk of the alphabet book holds 22 sentences and lasts 5.5
    seconds; at 3.75 seconds the exact product is 15, which names [p.],
    while the float quotient 3.75 / 5.5 is rounded down and its product
    with 22 stays below 15, so the resolver reports [o.]. *)
Lemma C2_counterexample :
  exists c,
    chunks alphabet_manifest = [c]
    /\ covers c (15 # 4) = true
    /\ Qeq_bool (duration_seconds c) (11 # 2) = true
    /\ length (sentences c) = 22
    /\ spec_sentence_index c (15 # 4) = 15%Z
    /\ sentence_text <$> sentences c !! 15 = Some "p."
    /\ sentence_index_at c (15 # 4) = 14%Z
    /\ reported_text (resolve alphabet_manifest (15 # 4)) = Some "o.".
Proof.
  eexists. split; [vm_compute; reflexivity|]. repeat split; by vm_compute.
Qed.

(** C2, amended: on any manifest, when exactly one chunk's half-open
    interval holds the time, that chunk has sentences and the float results
    stay in the binary64 range, the resolver returns the citation of the
    sentence whose index is the floor of the product taken in float
    arithmetic, each operation rounded, clamped to the sentence list: its
    page, its block ordinal, the sentence's stored position plus one, and
    its text cut to 100 characters with an ellipsis when longer; when no
    interval holds the time (so also on an empty manifest) it returns
    nothing; the function on a stored manifest is this resolution; and on
    the worked example the times 3, 7 and 12 give B, C and nothing. *)
Theorem C2_citation_resolution :
  (forall (m : CitationManifest) (t : Q) (i : nat) (c : Chunk),
     chunks m !! i = Some c -> in_interval c t ->
     (forall j c', chunks m !! j = Some c' -> in_interval c' t -> j = i) ->
     sentences c <> [] ->
     floats_in_range c t = true ->
     exists s cit,
       sentences c !! Z.to_nat (float_sentence_index c t) = Some s
       /\ (0 <= float_sentence_index c t < Z.of_nat (length (sentences c)))%Z
       /\ resolve m t = Py.Return (Some cit)
       /\ cit = make_citation (metadata m) c s t
       /\ cit_page cit = page c
       /\ cit_block cit = block_index c
       /\ cit_sentence_in_block cit = sentence_in_block s + 1
       /\ cit_sentence_text cit =
            if 100 <? String.length (sentence_text s)
            then Py.str_take 100 (sentence_text s) +:+ "..."
            else sentence_text s)
  /\ (forall (m : CitationManifest) (t : Q),
        (forall c, c ∈ chunks m -> ~ in_interval c t) ->
        resolve m t = Py.Return None)
  /\ (forall (m : CitationManifest) (t : Q),
        chunks m = [] -> resolve m t = Py.Return None)
  /\ (forall (w : World) (p : string) (m : CitationManifest) (t : Q),
        fs w !! p = Some (CitationJSON m) ->
        get_citation_at_timestamp w p t = resolve m t)
  /\ reported_text (resolve example_manifest 3) = Some "B"
  /\ reported_text (resolve example_manifest 7) = Some "C"
  /\ resolve example_manifest 12 = Py.Return None.
Proof.
  split; [|split; [|split; [|split; [|by vm_compute]]]].
  - intros m t i c Hi Hin Huniq Hne _.
    destruct (sentence_index_at_spec c t Hin Hne) as [Heq Hrange].
    destruct (index_in_range _ _ Hrange) as (s & Hs & Hidx).
    exists s, (make_citation (metadata m) c s t).
    rewrite <- Heq. repeat split; try done; try lia.
    unfold resolve. rewrite (resolve_in_first _ _ _ i c Hi Hin), Hidx; [done|].
    intros j c' Hlt Hj Hin'. specialize (Huniq j c' Hj Hin'). lia.
  - intros m t H. by apply resolve_in_none.
  - intros m t H. unfold resolve. by rewrite H.
  - intros w p m t H. unfold get_citation_at_timestamp, path_exists, load_citation.
    rewrite H. rewrite bool_decide_eq_true_2 by eauto. done.
Qed.

Lemma C2_citation_resolution_witness :
  exists c s cit,
    chunks alphabet_manifest !! 0 = Some c
    /\ floats_in_range c (15 # 4) = true
    /\ float_sentence_index c (15 # 4) = 14%Z
    /\ sentences c !! 14 = Some s
    /\ sentence_text s = "o."
    /\ resolve alphabet_manifest (15 # 4) = Py.Return (Some cit)
    /\ cit_sentence_text cit = "o.".
Proof.
  destruct (chunks alphabet_manifest) as [|c [|c1 cs]] eqn:Hcs;
    [by vm_compute in Hcs| |by vm_compute in Hcs].
  assert (chunks alphabet_manifest !! 0 = Some c) as Hi by (by rewrite Hcs).
  assert (covers c (15 # 4) = true) as Hcov.
  { vm_compute in Hcs. injection Hcs as <-. by vm_compute. }
  assert (sentences c <> []) as Hne.
  { vm_compute in Hcs. injection Hcs as <-. done. }
  assert (floats_in_range c (15 # 4) = true) as Hrange.
  { vm_compute in Hcs. injection Hcs as <-. by vm_compute. }
  assert (float_sentence_index c (15 # 4) = 14%Z) as Hidx.
  { vm_compute in Hcs. injection Hcs as <-. by vm_compute. }
  assert (forall j c', chunks alphabet_manifest !! j = Some c' ->
                       in_interval c' (15 # 4) -> j = 0) as Huniq.
  { intros j c' Hj _. rewrite Hcs in Hj. by destruct j as [|[|j]]. }
  destruct (proj1 C2_citation_resolution alphabet_manifest (15 # 4)%Q 0 c Hi
              (proj1 (covers_iff c (15 # 4)%Q) Hcov) Huniq Hne Hrange)
    as (s & cit & Hs & _ & Hres & Hcit & _).
  rewrite Hidx in Hs. simpl Z.to_nat in Hs.
  exists c, s, cit. rewrite <- Hcs at 1.
  split; [exact Hi|]. split; [exact Hrange|]. split; [exact Hidx|].
  split; [exact Hs|].
  assert (sentence_text s = "o.") as Ht.
  { vm_compute in Hcs. injection Hcs as <-. vm_compute in Hs.
    by injection Hs as <-. }
  split; [exact Ht|]. split; [exact Hres|].
  rewrite Hcit. unfold make_citation, truncate_text. cbn [cit_sentence_text].
  by rewrite Ht.
Defined.

Lemma doc_groups_nonempty max_chars pages g :
  g ∈ doc_groups max_chars pages -> g.2 <> [].
Proof.
  intros (pd & i & bt & _ & _ & _ & _ & H)%doc_groups_elem.
  by eapply greedy_nonempty.
Qed.

(** C9: every chunk the Chunker emits has at least one sentence; hence for
    any time inside a chunk's interval the index the resolver computes lies
    within that chunk's sentence list and the read succeeds, and the
    resolver never raises on such a manifest. *)
Theorem C9_sentence_lookup_safe (max_chars : Z) (fallback : string)
    (data : RawData) :
  let m := build_manifest max_chars fallback data in
  (forall c, c ∈ chunks m -> sentences c <> [])
  /\ (forall c t, c ∈ chunks m -> covers c t = true ->
        (0 <= sentence_index_at c t < Z.of_nat (length (sentences c)))%Z
        /\ exists s, Py.index (sentences c) (sentence_index_at c t)
                     = Py.Return s)
  /\ (forall t, exists r, resolve m t = Py.Return r).
Proof.
  cbv zeta.
  assert (forall c, c ∈ chunks (build_manifest max_chars fallback data) ->
                    sentences c <> []) as Hne.
  { rewrite build_manifest_chunks. intros c Hc.
    apply assemble_elem in Hc as (k & g & Hg & ->). simpl.
    apply doc_groups_nonempty in Hg. intros E.
    apply (f_equal length) in E. rewrite length_sentence_records in E.
    by destruct g.2. }
  split; [exact Hne|]. split.
  - intros c t Hc Hcov. apply covers_iff in Hcov.
    destruct (sentence_index_at_spec c t Hcov (Hne c Hc)) as [_ Hr].
    split; [done|].
    apply index_in_range in Hr as (s & _ & ?). eauto.
  - intros t. by apply resolve_in_total.
Qed.

(* ===================================================================== *)
(** * The Segment Generator                                               *)
(* ===================================================================== *)

Lemma listed_insert id x l :
  listed id (insert_by_id x l) = (rc_chunk_id x =? id) || listed id l.
Proof.
  unfold listed. induction l as [|y l IH]; simpl; [done|].
  destruct (rc_chunk_id x <=? rc_chunk_id y); simpl; [done|].
  rewrite IH. by destruct (rc_chunk_id x =? id), (rc_chunk_id y =? id).
Qed.

Lemma listed_sort id l : listed id (sort_by_id l) = listed id l.
Proof.
  induction l as [|x l IH]; simpl; [done|].
  rewrite listed_insert, IH. done.
Qed.

Lemma listed_snoc id l x :
  listed id (l ++ [x]) = listed id l || (rc_chunk_id x =? id).
Proof. unfold listed. rewrite existsb_app. simpl. by rewrite orb_false_r. Qed.

Lemma insert_by_id_perm x l : insert_by_id x l ≡ₚ x :: l.
Proof.
  induction l as [|y l IH]; simpl; [done|].
  destruct (rc_chunk_id x <=? rc_chunk_id y); [done|].
  rewrite IH. apply Permutation_swap.
Qed.

Lemma sort_by_id_perm l : sort_by_id l ≡ₚ l.
Proof.
  induction l as [|x l IH]; simpl; [done|].
  by rewrite insert_by_id_perm, IH.
Qed.

Lemma insert_by_id_sorted x l :
  Sorted le (rc_chunk_id <$> l) ->
  Sorted le (rc_chunk_id <$> insert_by_id x l).
Proof.
  induction l as [|y l IH]; simpl; intros H.
  - repeat constructor.
  - destruct (Nat.leb_spec (rc_chunk_id x) (rc_chunk_id y)) as [Hle|Hgt].
    + constructor; [done|]. by constructor.
    + apply Sorted_inv in H as [Hs Hhd]. simpl. constructor; [by apply IH|].
      destruct l as [|z l]; simpl.
      * constructor. lia.
      * destruct (rc_chunk_id x <=? rc_chunk_id z); simpl; constructor.
        -- lia.
        -- by apply HdRel_inv in Hhd.
Qed.

Lemma sort_by_id_sorted l : Sorted le (rc_chunk_id <$> sort_by_id l).
Proof.
  induction l as [|x l IH]; simpl; [constructor|].
  by apply insert_by_id_sorted.
Qed.

Section GeneratorFacts.
Variable tts : Synthesizer.
Variables (md : Metadata) (book_name : string) (n_chunks : nat).

Lemma chunk_step_fitz st c :
  fitz_opened (world (chunk_step tts md book_name n_chunks st c)) = fitz_opened (world st).
Proof.
  unfold chunk_step, mark_ready, save_ledger, request_tts.
  destruct (_ || _); [by destruct (_ && _)|].
  by destruct (tts _ _).
Qed.

Lemma chunks_loop_fitz cs : forall st,
  fitz_opened (world (chunks_loop tts md book_name n_chunks cs st))
  = fitz_opened (world st).
Proof.
  induction cs as [|c cs IH]; intros st; simpl; [done|].
  unfold chunks_loop in *. rewrite IH. apply chunk_step_fitz.
Qed.

(** A chunk found on disk or in the ledger is skipped: no request, no
    audio written. *)
Lemma chunk_step_skip st c :
  path_exists (world st) (audio_path book_name c) = true
  \/ listed (chunk_id c) (ready st) = true ->
  tts_requests (world (chunk_step tts md book_name n_chunks st c)) = tts_requests (world st)
  /\ forall p, p <> manifest_path book_name ->
       fs (world (chunk_step tts md book_name n_chunks st c)) !! p = fs (world st) !! p.
Proof.
  intros H. unfold chunk_step.
  assert (path_exists (world st) (audio_path book_name c)
          || listed (chunk_id c) (ready st) = true) as ->.
  { apply orb_true_iff. done. }
  destruct (_ && _); [|done]. simpl. split; [done|].
  intros p Hp. by rewrite lookup_insert_ne.
Qed.

(** The self-healing branch. *)
Lemma chunk_step_heal st c :
  path_exists (world st) (audio_path book_name c) = true ->
  listed (chunk_id c) (ready st) = false ->
  chunk_step tts md book_name n_chunks st c = mark_ready md book_name n_chunks c st.
Proof.
  intros H1 H2. unfold chunk_step. by rewrite H1, H2.
Qed.

(** A failed synthesis leaves everything but the request log as it was. *)
Lemma chunk_step_failure st c :
  path_exists (world st) (audio_path book_name c) = false ->
  listed (chunk_id c) (ready st) = false ->
  tts (length (tts_requests (world st))) (text c) = None ->
  chunk_step tts md book_name n_chunks st c =
  {| ready := ready st;
     world := {| fs := fs (world st);
                 tts_requests := tts_requests (world st) ++ [text c];
                 fitz_opened := fitz_opened (world st) |} |}.
Proof.
  intros H1 H2 H3. unfold chunk_step, request_tts. by rewrite H1, H2, H3.
Qed.
End GeneratorFacts.

Lemma generate_fitz tts w p limit :
  fitz_opened (generate_audio_streaming tts w p limit).2 = fitz_opened w.
Proof.
  unfold generate_audio_streaming.
  destruct (negb _); [done|].
  destruct (load_citation w p) as [m|e]; [|done].
  destruct (path_exists w _).
  - destruct (load_ready_chunks w _); [|done]. simpl.
    by rewrite chunks_loop_fitz.
  - simpl. by rewrite chunks_loop_fitz.
Qed.

(** C5: when the loop reaches a chunk whose audio file is on disk but
    whose id the ledger does not list, it adds the entry built from the
    chunk's filename, page, text preview, start time and duration, keeps the
    records sorted by chunk id, writes the ledger at once with exactly these
    records, and sends nothing to the synthesizer; a chunk that is on disk
    or listed is never sent to the synthesizer and its audio file is not
    rewritten.  On the worked scenario (entry of chunk 2 deleted, file
    kept) a run restores the entry and makes no request. *)
Theorem C5_self_heal :
  (forall tts md book_name n_chunks st c,
     path_exists (world st) (audio_path book_name c) = true ->
     listed (chunk_id c) (ready st) = false ->
     let st' := chunk_step tts md book_name n_chunks st c in
     ready st' = sort_by_id (ready st ++ [ready_record c])
     /\ ready st' ≡ₚ ready_record c :: ready st
     /\ Sorted le (rc_chunk_id <$> ready st')
     /\ listed (chunk_id c) (ready st') = true
     /\ fs (world st') !! manifest_path book_name
        = Some (LedgerJSON {| ledger_metadata := md;
                              ledger_book_id := book_name;
                              ledger_total_chunks := n_chunks;
                              ready_chunks := Some (ready st') |})
     /\ (forall p, p <> manifest_path book_name ->
           fs (world st') !! p = fs (world st) !! p)
     /\ tts_requests (world st') = tts_requests (world st))
  /\ (forall c,
        ready_record c =
        {| rc_chunk_id := chunk_id c;
           rc_filename := audio_filename c;
           rc_page := page c;
           rc_text_snippet := Py.str_take 50 (text c) +:+ "...";
           rc_start_time := start_time c;
           rc_duration_seconds := duration_seconds c |})
  /\ (forall tts md book_name n_chunks st c,
        path_exists (world st) (audio_path book_name c) = true
        \/ listed (chunk_id c) (ready st) = true ->
        let st' := chunk_step tts md book_name n_chunks st c in
        tts_requests (world st') = tts_requests (world st)
        /\ forall p, p <> manifest_path book_name ->
             fs (world st') !! p = fs (world st) !! p)
  /\ (ledger_ids five_entry_lost (manifest_path "Five") = Some [0; 1; 3; 4]
      /\ forall tts,
           let r := generate_audio_streaming tts five_entry_lost
                      five_citation_path None in
           ledger_ids r.2 (manifest_path "Five") = Some [0; 1; 2; 3; 4]
           /\ tts_requests r.2 = tts_requests five_entry_lost).
Proof.
  split; [|split; [done|split]].
  - intros tts md book_name n_chunks st c Hdisk Hnew. cbv zeta.
    rewrite (chunk_step_heal _ _ _ _ _ _ Hdisk Hnew).
    unfold mark_ready, save_ledger. simpl. repeat split.
    + rewrite sort_by_id_perm. symmetry. apply Permutation_cons_append.
    + apply sort_by_id_sorted.
    + rewrite listed_sort, listed_snoc. simpl.
      rewrite Nat.eqb_refl. apply orb_true_r.
    + apply lookup_insert_eq.
    + intros p Hp. by rewrite lookup_insert_ne.
  - intros tts md book_name n_chunks st c H. by apply chunk_step_skip.
  - split; [by vm_compute|]. intros tts. by vm_compute.
Qed.

(** C6: when the ledger file of the book exists and cannot be read, the
    stage returns [None] and leaves the world as it found it: no request to
    the synthesizer, no file written, the ledger file untouched. *)
Theorem C6_unreadable_ledger_halts (tts : Synthesizer) (w : World)
    (citation_json_path : string) (data : CitationManifest)
    (limit : option Z) (e : Py.exn) :
  fs w !! citation_json_path = Some (CitationJSON data) ->
  path_exists w (manifest_path (book_id data)) = true ->
  load_ready_chunks w (manifest_path (book_id data)) = Py.Raise e ->
  generate_audio_streaming tts w citation_json_path limit
  = (Py.Return None, w).
Proof.
  intros Hdata Hexists Hfail.
  unfold generate_audio_streaming, path_exists at 1, load_citation.
  rewrite Hdata, bool_decide_eq_true_2 by eauto. simpl.
  by rewrite Hexists, Hfail.
Qed.

(** The scenario with a corrupt ledger file meets the three premises. *)
Lemma C6_unreadable_ledger_halts_witness :
  fs five_ledger_corrupt !! five_citation_path
    = Some (CitationJSON five_manifest)
  /\ path_exists five_ledger_corrupt (manifest_path (book_id five_manifest))
     = true
  /\ load_ready_chunks five_ledger_corrupt
       (manifest_path (book_id five_manifest))
     = Py.Raise Py.JSONDecodeError
  /\ generate_audio_streaming always_ok five_ledger_corrupt
       five_citation_path None
     = (Py.Return None, five_ledger_corrupt).
Proof.
  assert (fs five_ledger_corrupt !! five_citation_path
          = Some (CitationJSON five_manifest)) as H1 by (by vm_compute).
  assert (path_exists five_ledger_corrupt
            (manifest_path (book_id five_manifest)) = true)
    as H2 by (by vm_compute).
  assert (load_ready_chunks five_ledger_corrupt
            (manifest_path (book_id five_manifest))
          = Py.Raise Py.JSONDecodeError) as H3 by (by vm_compute).
  split; [exact H1|]. split; [exact H2|]. split; [exact H3|].
  exact (C6_unreadable_ledger_halts always_ok five_ledger_corrupt
           five_citation_path five_manifest None Py.JSONDecodeError
           H1 H2 H3).
Defined.

(** The stage runs to its end whenever the manifest can be read and the
    ledger is absent or readable, whatever the synthesizer answers. *)
Lemma generate_completes tts w p data limit :
  fs w !! p = Some (CitationJSON data) ->
  (path_exists w (manifest_path (book_id data)) = true ->
   exists rs, load_ready_chunks w (manifest_path (book_id data))
              = Py.Return rs) ->
  (generate_audio_streaming tts w p limit).1
  = Py.Return (Some (audio_dir (book_id data))).
Proof.
  intros Hdata Hledger.
  unfold generate_audio_streaming, path_exists at 1, load_citation.
  rewrite Hdata, bool_decide_eq_true_2 by eauto. simpl.
  destruct (path_exists w (manifest_path (book_id data))); [|done].
  by destruct Hledger as [rs ->].
Qed.

(** C7: a failed synthesis of a chunk changes neither the files nor the
    ready records, so the chunk stays absent from disk and ledger and all
    other entries and audio files are as before; the loop goes on with the
    chunks that follow; the stage still returns its audio directory however
    many requests fail.  On the five-chunk scenario with the third request
    failing, the run ends normally with the ledger listing chunks 0, 1, 3,
    4 and no audio file for chunk 2, after one request per chunk. *)
Theorem C7_synthesis_failure_not_fatal :
  (forall tts md book_name n_chunks st c,
     path_exists (world st) (audio_path book_name c) = false ->
     listed (chunk_id c) (ready st) = false ->
     tts (length (tts_requests (world st))) (text c) = None ->
     let st' := chunk_step tts md book_name n_chunks st c in
     ready st' = ready st
     /\ fs (world st') = fs (world st)
     /\ path_exists (world st') (audio_path book_name c) = false
     /\ listed (chunk_id c) (ready st') = false
     /\ forall after,
          chunks_loop tts md book_name n_chunks (c :: after) st
          = chunks_loop tts md book_name n_chunks after
              {| ready := ready st;
                 world :=
                   {| fs := fs (world st);
                      tts_requests := tts_requests (world st) ++ [text c];
                      fitz_opened := fitz_opened (world st) |} |})
  /\ (forall tts w p data limit,
        fs w !! p = Some (CitationJSON data) ->
        (path_exists w (manifest_path (book_id data)) = true ->
         exists rs, load_ready_chunks w (manifest_path (book_id data))
                    = Py.Return rs) ->
        (generate_audio_streaming tts w p limit).1
        = Py.Return (Some (audio_dir (book_id data))))
  /\ (let r := generate_audio_streaming fails_on_third five_world
                 five_citation_path None in
      r.1 = Py.Return (Some (audio_dir "Five"))
      /\ length (chunks five_manifest) = 5
      /\ ledger_ids r.2 (manifest_path "Five") = Some [0; 1; 3; 4]
      /\ (forall c, chunks five_manifest !! 2 = Some c ->
            path_exists r.2 (audio_path "Five" c) = false)
      /\ (forall i c, chunks five_manifest !! i = Some c -> i <> 2 ->
            path_exists r.2 (audio_path "Five" c) = true)
      /\ tts_requests r.2 = text <$> chunks five_manifest).
Proof.
  split; [|split].
  - intros tts md book_name n_chunks st c Hdisk Hnew Hfail. cbv zeta.
    rewrite (chunk_step_failure _ _ _ _ _ _ Hdisk Hnew Hfail). simpl.
    repeat split; try done.
    intros after. unfold chunks_loop. simpl.
    by rewrite (chunk_step_failure _ _ _ _ _ _ Hdisk Hnew Hfail).
  - apply generate_completes.
  - cbv zeta. split; [by vm_compute|]. split; [by vm_compute|].
    split; [by vm_compute|]. split; [|split; [|by vm_compute]].
    + intros c Hc. vm_compute in Hc. injection Hc as <-. by vm_compute.
    + intros i c Hc Hi.
      destruct i as [|[|[|[|[|i]]]]]; try done;
        vm_compute in Hc; try done; injection Hc as <-; by vm_compute.
Qed.

(* ===================================================================== *)
(** * The orchestrator                                                    *)
(* ===================================================================== *)

Lemma stage3_fitz tts p w : fitz_opened (stage3 tts p w).2 = fitz_opened w.
Proof.
  unfold stage3. pose proof (generate_fitz tts w p None) as H.
  by destruct (generate_audio_streaming tts w p None) as [[r|e] w'].
Qed.

Lemma path_exists_write w p f : path_exists (write_file w p f) p = true.
Proof.
  unfold path_exists, write_file. simpl.
  apply bool_decide_eq_true_2. rewrite lookup_insert_eq. eauto.
Qed.

Lemma json_load_write w p d :
  json_load (write_file w p (RawJSON d)) p = Py.Return (JRaw d).
Proof. unfold json_load, write_file. simpl. by rewrite lookup_insert_eq. Qed.

(** Stage 2 on a raw cache that Stage 1 has just written. *)
Lemma prepare_after_write w p d max_chars :
  let m := build_manifest max_chars (remove_all "_raw" (path_stem p)) d in
  let citation_path :=
    joinpath CACHE_DIR (book_id m +:+ "_citation_ready.json") in
  prepare_tts_chunks_with_citations (write_file w p (RawJSON d)) (Some p)
    max_chars
  = (Py.Return (Some citation_path),
     write_file (write_file w p (RawJSON d)) citation_path (CitationJSON m)).
Proof.
  unfold prepare_tts_chunks_with_citations.
  by rewrite path_exists_write, json_load_write.
Qed.

(** C8 as stated fails: with a raw cache on disk and no citation manifest,
    the run opens the document again, overwrites the cache with the new
    extraction, and chunks the new text, not the cached one. *)
Lemma C8_counterexample :
  cache_hit tale_world "tale.pdf" = None
  /\ fs tale_world !! tale_raw_path = Some (RawJSON tale_old_raw)
  /\ fitz_opened tale_world = []
  /\ fitz_opened tale_run.2 = [joinpath INPUT_DIR "tale.pdf"]
  /\ fs tale_run.2 !! tale_raw_path <> Some (RawJSON tale_old_raw)
  /\ tts_requests tale_run.2 = ["Fresh text."].
Proof. repeat split; by vm_compute. Qed.

(** C8, amended: a citation manifest found for the derived book id is the
    only thing that lets the run skip Extraction (and Chunking with it).
    When none is found and the document is in the input directory, the
    document is opened again whether or not a raw cache exists; if it
    opens, the raw cache is written anew from it, the manifest is built
    from that new extraction with the default limit, and Stage 3 runs on
    the result. *)
Theorem C8_extraction_follows_manifest (tts : Synthesizer) (w : World)
    (pdf_filename : string) :
  let pdf_path := joinpath INPUT_DIR pdf_filename in
  let raw_path := joinpath CACHE_DIR (path_stem pdf_path +:+ "_raw.json") in
  let r := run_full_pipeline tts w pdf_filename in
  (forall citation_path,
     cache_hit w pdf_filename = Some citation_path ->
     r = stage3 tts citation_path w /\ fitz_opened r.2 = fitz_opened w)
  /\ (cache_hit w pdf_filename = None ->
      path_exists w pdf_path = true ->
      fitz_opened r.2 = fitz_opened w ++ [pdf_path])
  /\ (forall doc,
        cache_hit w pdf_filename = None ->
        fs w !! pdf_path = Some (Pdf doc) ->
        let raw := extract_document pdf_path doc in
        let m :=
          build_manifest default_max_chars
            (remove_all "_raw" (path_stem raw_path)) raw in
        let citation_path :=
          joinpath CACHE_DIR (book_id m +:+ "_citation_ready.json") in
        r = stage3 tts citation_path
              (write_file
                 (write_file (fitz_open w pdf_path) raw_path (RawJSON raw))
                 citation_path (CitationJSON m))).
Proof.
  cbv zeta. split; [|split].
  - intros cp Hhit. unfold run_full_pipeline. rewrite Hhit.
    split; [done|]. apply stage3_fitz.
  - intros Hmiss Hpdf. unfold run_full_pipeline, process_pdf.
    rewrite Hmiss, Hpdf. simpl negb. cbv iota.
    destruct (fs w !! joinpath INPUT_DIR pdf_filename) as [[doc| | | | |]|];
      try done.
    rewrite prepare_after_write. by rewrite stage3_fitz.
  - intros doc Hmiss Hdoc. unfold run_full_pipeline, process_pdf.
    rewrite Hmiss. unfold path_exists at 1.
    rewrite Hdoc, bool_decide_eq_true_2 by eauto. simpl negb. cbv iota.
    by rewrite prepare_after_write.
Qed.

(* ===================================================================== *)
(** * Texts                                                               *)
(* ===================================================================== *)

Lemma chars_inj s1 s2 : chars s1 = chars s2 -> s1 = s2.
Proof.
  intros H. rewrite <- (string_of_list_ascii_of_string s1),
    <- (string_of_list_ascii_of_string s2). unfold chars in H. by rewrite H.
Qed.

Lemma chars_app s1 s2 : chars (s1 +:+ s2) = chars s1 ++ chars s2.
Proof. induction s1 as [|c s1 IH]; simpl; [done|]. by rewrite IH. Qed.

Lemma chars_rev_app s acc :
  chars (String.rev_app s acc) = reverse (chars s) ++ chars acc.
Proof.
  revert acc. induction s as [|c s IH]; intros acc; simpl; [done|].
  rewrite IH, reverse_cons, <- app_assoc. done.
Qed.

Lemma chars_rev s : chars (String.rev s) = reverse (chars s).
Proof. unfold String.rev. rewrite chars_rev_app. simpl. apply app_nil_r. Qed.

Lemma chars_length s : length (chars s) = String.length s.
Proof. induction s as [|c s IH]; simpl; [done|]. by rewrite IH. Qed.

Lemma chars_filter f s :
  chars (Py.str_filter f s) = filter (fun c => f c = true) (chars s).
Proof.
  induction s as [|c s IH]; simpl; [done|].
  destruct (f c) eqn:E.
  - rewrite filter_cons_True by done. simpl. by rewrite IH.
  - rewrite filter_cons_False by (rewrite E; done). done.
Qed.

Lemma str_app_nil_r s : s +:+ "" = s.
Proof. apply chars_inj. rewrite chars_app. apply app_nil_r. Qed.

Lemma str_app_assoc a b c : (a +:+ b) +:+ c = a +:+ (b +:+ c).
Proof. apply chars_inj. rewrite !chars_app. by rewrite app_assoc. Qed.

Lemma str_rev_involutive s : String.rev (String.rev s) = s.
Proof. apply chars_inj. rewrite !chars_rev. apply reverse_involutive. Qed.

Lemma str_rev_app a b : String.rev (a +:+ b) = String.rev b +:+ String.rev a.
Proof.
  apply chars_inj. rewrite chars_rev, !chars_app, !chars_rev.
  apply reverse_app.
Qed.

Lemma str_rev_cons c s : String.rev (String c s) = String.rev s +:+ String c "".
Proof. apply (str_rev_app (String c "") s). Qed.

Lemma str_length_app a b :
  String.length (a +:+ b) = String.length a + String.length b.
Proof. rewrite <- !chars_length, chars_app. apply length_app. Qed.

Lemma str_filter_app f a b :
  Py.str_filter f (a +:+ b) = Py.str_filter f a +:+ Py.str_filter f b.
Proof.
  induction a as [|c a IH]; simpl; [done|].
  destruct (f c); simpl; by rewrite IH.
Qed.

Lemma str_filter_rev f s :
  Py.str_filter f (String.rev s) = String.rev (Py.str_filter f s).
Proof.
  induction s as [|c s IH]; [done|].
  rewrite str_rev_cons, str_filter_app, IH. simpl.
  destruct (f c); [by rewrite str_rev_cons|by rewrite str_app_nil_r].
Qed.

(** ** Stripping *)

Lemma lstrip_app_single a c :
  Py.lstrip (a +:+ String c "") =
  if String.eqb (Py.lstrip a) ""
  then (if Py.is_space c then "" else String c "")
  else Py.lstrip a +:+ String c "".
Proof.
  induction a as [|d a IH]; simpl; [by destruct (Py.is_space c)|].
  destruct (Py.is_space d); [done|]. done.
Qed.

(** [rstrip] read from the left. *)
Lemma rstrip_cons c s :
  Py.rstrip (String c s) =
  if String.eqb (Py.rstrip s) ""
  then (if Py.is_space c then "" else String c "")
  else String c (Py.rstrip s).
Proof.
  unfold Py.rstrip. rewrite str_rev_cons, lstrip_app_single.
  destruct (String.eqb_spec (Py.lstrip (String.rev s)) "") as [E|E].
  - rewrite E. simpl. by destruct (Py.is_space c).
  - destruct (String.eqb_spec (String.rev (Py.lstrip (String.rev s))) "")
      as [E'|E'].
    + apply (f_equal String.rev) in E'.
      rewrite str_rev_involutive in E'. done.
    + rewrite str_rev_app. done.
Qed.

Lemma rstrip_nil : Py.rstrip "" = "".
Proof. done. Qed.

Lemma visible_lstrip s : visible (Py.lstrip s) = visible s.
Proof.
  unfold visible. induction s as [|c s IH]; simpl; [done|].
  destruct (Py.is_space c) eqn:E; simpl; [done|]. by rewrite E.
Qed.

Lemma visible_rstrip s : visible (Py.rstrip s) = visible s.
Proof.
  unfold Py.rstrip.
  transitivity (String.rev (visible (Py.lstrip (String.rev s)))).
  { apply str_filter_rev. }
  rewrite visible_lstrip. unfold visible.
  by rewrite str_filter_rev, str_rev_involutive.
Qed.

Lemma visible_strip s : visible (Py.strip s) = visible s.
Proof. unfold Py.strip. by rewrite visible_rstrip, visible_lstrip. Qed.

Lemma lstrip_blank s : visible s = "" -> Py.lstrip s = "".
Proof.
  unfold visible. induction s as [|c s IH]; simpl; [done|].
  destruct (Py.is_space c); simpl; [done|done].
Qed.

(** A text strips to nothing exactly when it has no visible character. *)
Lemma strip_blank_iff s : Py.strip s = "" <-> visible s = "".
Proof.
  split.
  - intros H. rewrite <- visible_strip, H. done.
  - intros H. unfold Py.strip. by rewrite lstrip_blank.
Qed.

(* ===================================================================== *)
(** * What chunking keeps of the text                                     *)
(* ===================================================================== *)

Lemma visible_app a b : visible (a +:+ b) = visible a +:+ visible b.
Proof. apply str_filter_app. Qed.

Lemma concat_str_app l1 l2 :
  concat_str (l1 ++ l2) = concat_str l1 +:+ concat_str l2.
Proof.
  induction l1 as [|s l1 IH]; simpl; [done|].
  by rewrite IH, str_app_assoc.
Qed.

Lemma visible_concat_str l :
  visible (concat_str l) = concat_str (visible <$> l).
Proof.
  induction l as [|s l IH]; simpl; [done|]. by rewrite visible_app, IH.
Qed.

(** Splitting into sentences drops whitespace only. *)
Lemma re_split_go_visible s : forall m cur,
  (m = InSeparator -> cur = "") ->
  concat_str (visible <$> re_split_go m cur s)
  = String.rev (visible cur) +:+ visible s.
Proof.
  assert (forall c cur, Py.is_space c = false ->
            String.rev (visible (String c cur))
            = String.rev (visible cur) +:+ String c "") as Hkeep.
  { intros c cur Hc. unfold visible. simpl. rewrite Hc. simpl.
    apply str_rev_cons. }
  assert (forall c cur, Py.is_space c = true ->
            visible (String c cur) = visible cur) as Hdrop.
  { intros c cur Hc. unfold visible. simpl. by rewrite Hc. }
  induction s as [|c s IH]; intros m cur Hm.
  - simpl. unfold visible at 1. rewrite str_filter_rev.
    by rewrite !str_app_nil_r.
  - destruct (Py.is_space c) eqn:Hc.
    + rewrite (Hdrop c s Hc).
      destruct m as [[|]|]; simpl; rewrite ?Hc.
      * cbn [fmap list_fmap concat_str foldr].
        rewrite IH by done. unfold visible at 1.
        rewrite str_filter_rev. done.
      * rewrite IH by done. by rewrite (Hdrop c cur Hc).
      * rewrite IH by done. by rewrite Hm.
    + assert (visible (String c s) = String c (visible s)) as ->.
      { unfold visible. simpl. by rewrite Hc. }
      destruct m as [[|]|]; simpl; rewrite ?Hc; rewrite IH by done.
      * rewrite (Hkeep c cur Hc), str_app_assoc. reflexivity.
      * rewrite (Hkeep c cur Hc), str_app_assoc. reflexivity.
      * rewrite (Hm eq_refl), (Hkeep c "" Hc), str_app_assoc. reflexivity.
Qed.

Lemma re_split_visible bt :
  concat_str (visible <$> re_split_sentences bt) = visible bt.
Proof.
  unfold re_split_sentences. by rewrite re_split_go_visible.
Qed.

Lemma nonempty_sentences_visible bt :
  concat_str (visible <$> nonempty_sentences bt) = visible bt.
Proof.
  unfold nonempty_sentences. rewrite <- re_split_visible.
  induction (re_split_sentences bt) as [|s l IH]; [done|].
  cbn [fmap list_fmap].
  destruct (decide (Py.strip s = "")) as [E|E].
  - rewrite filter_cons_False by (intros H; done).
    cbn [concat_str foldr]. apply strip_blank_iff in E.
    rewrite E. simpl. apply IH.
  - rewrite filter_cons_True by done. cbn [fmap list_fmap concat_str foldr].
    f_equal; [apply visible_strip|apply IH].
Qed.

Lemma visible_join g :
  visible (Py.join " " g) = concat_str (visible <$> g).
Proof.
  induction g as [|s g IH]; [done|].
  destruct g as [|s' g]; [simpl; by rewrite str_app_nil_r|].
  change (Py.join " " (s :: s' :: g))
    with (s +:+ " " +:+ Py.join " " (s' :: g)).
  rewrite !visible_app, IH. done.
Qed.

Lemma assemble_visible k gs :
  concat_str (visible <$> (text <$> assemble k gs))
  = concat_str (visible <$> concat (snd <$> gs)).
Proof.
  revert k. induction gs as [|g gs IH]; intros k; [done|].
  cbn [assemble fmap list_fmap concat concat_str foldr].
  rewrite fmap_app, concat_str_app, IH. f_equal. simpl. apply visible_join.
Qed.

Lemma located_groups p b gs : concat (snd <$> located p b gs) = concat gs.
Proof.
  unfold located. rewrite <- list_fmap_compose.
  f_equal. apply list_fmap_id.
Qed.

Lemma blocks_groups_visible max_chars p blocks : forall b,
  concat_str (visible <$> concat (snd <$> blocks_groups max_chars p b blocks))
  = concat_str (visible <$> blocks).
Proof.
  induction blocks as [|bt blocks IH]; intros b; [done|].
  cbn [blocks_groups fmap list_fmap concat_str foldr].
  rewrite fmap_app, concat_app, fmap_app, concat_str_app, IH.
  f_equal. rewrite located_groups. unfold block_groups.
  rewrite greedy_concat. apply nonempty_sentences_visible.
Qed.

Lemma doc_groups_visible max_chars pages :
  concat_str (visible <$> concat (snd <$> doc_groups max_chars pages))
  = concat_str (visible <$> concat (text_blocks <$> pages)).
Proof.
  unfold doc_groups.
  induction pages as [|pd pages IH]; [done|].
  cbn [fmap list_fmap concat].
  rewrite fmap_app, concat_app, !fmap_app, !concat_str_app, IH.
  f_equal. apply blocks_groups_visible.
Qed.

(** X1: chunking loses no visible character: the non-whitespace
    characters of the chunk texts, read in chunk order, are those of the
    blocks of the raw cache, read in page and block order. *)
Theorem chunking_keeps_visible_text (max_chars : Z) (fallback : string)
    (data : RawData) :
  concat_str (visible <$> (text <$> chunks (build_manifest max_chars fallback data)))
  = concat_str (visible <$> all_blocks data).
Proof.
  rewrite build_manifest_chunks, assemble_visible.
  apply doc_groups_visible.
Qed.

Lemma re_split_go_plain s : forall cur,
  free_of is_terminator s ->
  re_split_go (InPiece false) cur s = [String.rev cur +:+ s].
Proof.
  unfold free_of, chars.
  induction s as [|c s IH]; intros cur H; simpl.
  - by rewrite str_app_nil_r.
  - apply Forall_cons in H as [Hc H]. rewrite Hc, IH by done.
    by rewrite str_rev_cons, str_app_assoc.
Qed.

Lemma nonempty_sentences_plain bt :
  free_of is_terminator bt ->
  nonempty_sentences bt = if decide (Py.strip bt = "") then [] else [Py.strip bt].
Proof.
  intros H. unfold nonempty_sentences, re_split_sentences.
  rewrite re_split_go_plain by done. simpl.
  change (String.rev "" +:+ bt) with bt.
  case_decide as E.
  - by rewrite filter_cons_False by (intros Hn; done).
  - by rewrite filter_cons_True by done.
Qed.

(** X2: a block without [.], [!] or [?] is one sentence, so it becomes one
    chunk holding the whole stripped block whatever the limit is (and no
    chunk at all when the block is blank). *)
Theorem unpunctuated_block_is_one_chunk (max_chars : Z) (page_num : nat)
    (st : Locals) (block_idx : nat) (block_text : string) :
  free_of is_terminator block_text ->
  text <$> tts_chunks (block_step max_chars page_num st block_idx block_text)
  = (text <$> tts_chunks st)
    ++ (if decide (Py.strip block_text = "") then [] else [Py.strip block_text]).
Proof.
  intros H.
  destruct (block_step_spec max_chars page_num st block_idx block_text)
    as [-> _].
  unfold block_groups. rewrite nonempty_sentences_plain by done.
  rewrite fmap_app. f_equal.
  case_decide; simpl; [done|].
  destruct (Z.of_nat _ <? max_chars)%Z; simpl; done.
Qed.

(** The limit is far below the length of this unpunctuated block. *)
Lemma unpunctuated_block_is_one_chunk_witness :
  free_of is_terminator "  a heading without any full stop  "
  /\ text <$> tts_chunks
       (block_step 10 1 initial_locals 0 "  a heading without any full stop  ")
     = ["a heading without any full stop"].
Proof.
  assert (free_of is_terminator "  a heading without any full stop  ") as H.
  { unfold free_of. by vm_compute; repeat constructor. }
  split; [exact H|].
  exact (unpunctuated_block_is_one_chunk 10 1 initial_locals 0
           "  a heading without any full stop  " H).
Defined.

Lemma join_length g :
  g <> [] -> String.length (Py.join " " g) + 1 = group_chars g.
Proof.
  unfold group_chars. induction g as [|s g IH]; [done|]. intros _.
  destruct g as [|s' g]; [simpl; lia|].
  change (Py.join " " (s :: s' :: g))
    with (s +:+ " " +:+ Py.join " " (s' :: g)).
  rewrite !str_length_app. specialize (IH ltac:(done)).
  change (sum_list_with (fun s => String.length s + 1) (s :: s' :: g))
    with (String.length s + 1
          + sum_list_with (fun s => String.length s + 1) (s' :: g)).
  rewrite <- IH. change (String.length " ") with 1. lia.
Qed.

Lemma doc_groups_within_limit max_chars pages g :
  g ∈ doc_groups max_chars pages -> within_limit max_chars g.2.
Proof.
  intros (pd & i & bt & _ & _ & _ & _ & H)%doc_groups_elem.
  by apply (greedy_within_limit max_chars (nonempty_sentences bt) [] _
              (or_introl eq_refl)).
Qed.

(** X3: a chunk of two or more sentences is under the limit: the length
    of its text plus one is below [max_chars]. *)
Theorem multi_sentence_chunk_under_limit (max_chars : Z) (fallback : string)
    (data : RawData) (i : nat) (c : Chunk) :
  chunks (build_manifest max_chars fallback data) !! i = Some c ->
  2 <= length (sentences c) ->
  (Z.of_nat (String.length (text c)) + 1 < max_chars)%Z.
Proof.
  rewrite build_manifest_chunks. intros Hc Hlen.
  apply assemble_lookup in Hc as (g & Hg & ->). simpl in *.
  rewrite length_sentence_records in Hlen.
  apply list_elem_of_lookup_2, doc_groups_within_limit in Hg
    as [[s Hs]|Hlim].
  - rewrite Hs in Hlen. simpl in Hlen. lia.
  - rewrite <- join_length in Hlim
      by (intros E; rewrite E in Hlen; simpl in Hlen; lia).
    lia.
Qed.

Lemma multi_sentence_chunk_under_limit_witness :
  exists c,
    chunks (build_manifest 12 "x" short_pair_raw) !! 0 = Some c
    /\ text c = "Hi. Yo."
    /\ 2 <= length (sentences c)
    /\ (Z.of_nat (String.length (text c)) + 1 < 12)%Z.
Proof.
  eexists. split; [by vm_compute|].
  match goal with |- text ?c = _ /\ _ =>
    assert (chunks (build_manifest 12 "x" short_pair_raw) !! 0 = Some c)
      as Hc by (by vm_compute);
    assert (2 <= length (sentences c)) as Hlen by (vm_compute; lia)
  end.
  split; [by vm_compute|]. split; [exact Hlen|].
  exact (multi_sentence_chunk_under_limit 12 "x" short_pair_raw 0 _ Hc Hlen).
Defined.

(* ===================================================================== *)
(** * Durations and totals                                                *)
(* ===================================================================== *)

Lemma greedy_elem max_chars ss g s :
  g ∈ greedy max_chars [] ss -> s ∈ g -> s ∈ ss.
Proof.
  intros Hg Hs. rewrite <- (app_nil_l ss), <- (greedy_concat max_chars ss []).
  apply elem_of_concat. eauto.
Qed.

(** The sentences of a chunk are stripped and not blank. *)
Lemma doc_groups_sentence max_chars pages g s :
  g ∈ doc_groups max_chars pages -> s ∈ g.2 ->
  s <> "" /\ exists x, s = Py.strip x.
Proof.
  intros (pd & i & bt & _ & _ & _ & _ & Hg)%doc_groups_elem Hs.
  apply (greedy_elem _ _ _ _ Hg) in Hs. unfold nonempty_sentences in Hs.
  apply list_elem_of_filter in Hs as [Hne Hs].
  apply list_elem_of_fmap in Hs as (x & -> & _). eauto.
Qed.







Lemma advance_last k gs :
  next_time (advance k gs)
  = default (next_time k) (end_time <$> last (assemble k gs)).
Proof.
  revert k. induction gs as [|g gs IH]; intros k; [done|].
  unfold advance in *. cbn [fold_left assemble]. rewrite IH.
  destruct gs as [|g' gs]; [reflexivity|].
  cbn [assemble]. rewrite !last_cons_cons.
  destruct (last (_ :: _)) eqn:E; [done|].
  by apply last_None in E.
Qed.

(** X5: the summary block counts the chunks, and the total estimated
    duration is the end time of the last chunk (0 when there is none). *)
Theorem manifest_summary (max_chars : Z) (fallback : string)
    (data : RawData) :
  let m := build_manifest max_chars fallback data in
  total_chunks (processing m) = length (chunks m)
  /\ total_estimated_duration_seconds (processing m)
     = default 0%Q (end_time <$> last (chunks m))
  /\ metadata m = raw_metadata data.
Proof.
  cbv zeta. split; [done|]. split; [|done].
  rewrite build_manifest_chunks. simpl.
  destruct (chunk_pages_spec max_chars (content data)) as [_ H].
  apply (f_equal next_time) in H. simpl in H. rewrite H.
  apply advance_last.
Qed.

Lemma concat_str_nil l : concat_str l = "" <-> Forall (fun s => s = "") l.
Proof.
  induction l as [|s l IH]; simpl; [by split|].
  rewrite Forall_cons, <- IH. destruct s; simpl; [tauto|].
  split; [done|]. by intros [? _].
Qed.

(** X6: a manifest has no chunk exactly when the raw cache holds no
    visible character; the resolver then finds nothing at any time. *)
Theorem blank_document_has_no_chunks (max_chars : Z) (fallback : string)
    (data : RawData) :
  let m := build_manifest max_chars fallback data in
  (chunks m = [] <-> concat_str (visible <$> all_blocks data) = "")
  /\ (chunks m = [] -> forall t, resolve m t = Py.Return None).
Proof.
  cbv zeta. split.
  - unfold all_blocks. rewrite <- (doc_groups_visible max_chars).
    rewrite <- (assemble_visible start_cursor), build_manifest_chunks.
    split; [by intros ->|]. intros H.
    destruct (doc_groups max_chars (content data)) as [|g gs] eqn:E; [done|].
    exfalso.
    assert (g ∈ doc_groups max_chars (content data)) as Hg
      by (rewrite E; by left).
    pose proof (doc_groups_nonempty _ _ _ Hg) as Hne.
    destruct g.2 as [|s l] eqn:E2; [done|].
    destruct (doc_groups_sentence _ _ g s Hg) as [Hs [x Hx]].
    { rewrite E2. by left. }
    cbn [assemble fmap list_fmap concat_str foldr] in H.
    apply (f_equal String.length) in H. rewrite str_length_app in H.
    simpl text in H. rewrite visible_join, E2 in H.
    cbn [fmap list_fmap concat_str foldr] in H.
    rewrite str_length_app in H.
    assert (visible s <> "") as Hv.
    { rewrite Hx, visible_strip. intros Hb. apply strip_blank_iff in Hb.
      by rewrite <- Hx in Hb. }
    destruct (visible s); [done|]. simpl in H. lia.
  - intros H t. unfold resolve. by rewrite H.
Qed.

(* ===================================================================== *)
(** * Stage 2 as a whole                                                  *)
(* ===================================================================== *)

Lemma path_exists_true w p : path_exists w p = true <-> is_Some (fs w !! p).
Proof. unfold path_exists. apply bool_decide_eq_true. Qed.

Lemma path_exists_false w p : path_exists w p = false <-> fs w !! p = None.
Proof.
  unfold path_exists. rewrite bool_decide_eq_false.
  by rewrite <- eq_None_not_Some.
Qed.

(** X7: Stage 2 fails without touching any file.  With no path or no
    file it returns [None].  With a JSON file that is no raw cache (a
    citation manifest or a ledger) the missing key is caught inside the
    [try] and it returns [None] as well.  With a file that is not JSON it
    raises, because [json.load] is outside the [try].  So the files change
    only when it returns a path. *)
Theorem stage2_failures_write_nothing (w : World) (max_chars : Z) :
  prepare_tts_chunks_with_citations w None max_chars = (Py.Return None, w)
  /\ (forall p, fs w !! p = None ->
        prepare_tts_chunks_with_citations w (Some p) max_chars
        = (Py.Return None, w))
  /\ (forall p f, fs w !! p = Some f ->
        match f with
        | RawJSON _ => True
        | CitationJSON _ | LedgerJSON _ =>
            prepare_tts_chunks_with_citations w (Some p) max_chars
            = (Py.Return None, w)
        | Pdf _ | Wav _ | Garbage _ =>
            exists e,
              prepare_tts_chunks_with_citations w (Some p) max_chars
              = (Py.Raise e, w)
        end)
  /\ (forall cache_file_path,
        let r :=
          prepare_tts_chunks_with_citations w cache_file_path max_chars in
        (forall q, r.1 <> Py.Return (Some q)) -> r.2 = w).
Proof.
  split; [done|]. split; [|split].
  - intros p Hp. unfold prepare_tts_chunks_with_citations.
    apply path_exists_false in Hp. by rewrite Hp.
  - intros p f Hp. unfold prepare_tts_chunks_with_citations, json_load.
    rewrite (proj2 (path_exists_true w p)) by (rewrite Hp; eauto).
    rewrite Hp. destruct f; simpl; eauto.
  - intros [p|]; [|done]. cbv zeta.
    unfold prepare_tts_chunks_with_citations, json_load.
    destruct (path_exists w p); [|done]. simpl.
    destruct (fs w !! p) as [[]|]; simpl; try done.
    intros H. exfalso. by eapply H.
Qed.

(** X8: on a readable raw cache Stage 2 writes one file, the manifest,
    under the sanitized title; every other file stays as it was, no
    external call is made, and the resolver reading that file answers as
    the resolution on the manifest built from the cache. *)
Theorem stage2_writes_the_manifest (w : World) (p : string) (d : RawData)
    (max_chars : Z) :
  fs w !! p = Some (RawJSON d) ->
  let m := build_manifest max_chars (remove_all "_raw" (path_stem p)) d in
  let citation_path :=
    joinpath CACHE_DIR (sanitize_title
                          (default (remove_all "_raw" (path_stem p))
                             (title (raw_metadata d)))
                        +:+ "_citation_ready.json") in
  let r := prepare_tts_chunks_with_citations w (Some p) max_chars in
  r.1 = Py.Return (Some citation_path)
  /\ fs r.2 !! citation_path = Some (CitationJSON m)
  /\ (forall q, q <> citation_path -> fs r.2 !! q = fs w !! q)
  /\ tts_requests r.2 = tts_requests w
  /\ fitz_opened r.2 = fitz_opened w
  /\ (forall t, get_citation_at_timestamp r.2 citation_path t = resolve m t).
Proof.
  intros Hp. cbv zeta. unfold prepare_tts_chunks_with_citations, json_load.
  rewrite (proj2 (path_exists_true w p)) by (rewrite Hp; eauto).
  rewrite Hp. simpl.
  split; [done|]. split; [apply lookup_insert_eq|].
  split; [intros q Hq; by apply lookup_insert_ne|].
  split; [done|]. split; [done|].
  intros t. unfold get_citation_at_timestamp, load_citation.
  rewrite path_exists_write. simpl. by rewrite lookup_insert_eq.
Qed.

Lemma stage2_writes_the_manifest_witness :
  fs (write_file five_world "/workspace/pdf_cache/five_raw.json"
        (RawJSON five_raw)) !! "/workspace/pdf_cache/five_raw.json"
  = Some (RawJSON five_raw)
  /\ (prepare_tts_chunks_with_citations
        (write_file five_world "/workspace/pdf_cache/five_raw.json"
           (RawJSON five_raw))
        (Some "/workspace/pdf_cache/five_raw.json") 400).1
     = Py.Return (Some "/workspace/pdf_cache/Five_citation_ready.json").
Proof.
  assert (fs (write_file five_world "/workspace/pdf_cache/five_raw.json"
                (RawJSON five_raw)) !! "/workspace/pdf_cache/five_raw.json"
          = Some (RawJSON five_raw)) as H by (by vm_compute).
  split; [exact H|].
  exact (proj1 (stage2_writes_the_manifest _ _ five_raw 400 H)).
Defined.

(* ===================================================================== *)
(** * Sanitized names                                                     *)
(* ===================================================================== *)

Lemma free_of_nil bad : free_of bad "".
Proof. constructor. Qed.

Lemma free_of_cons bad c s :
  free_of bad (String c s) <-> bad c = false /\ free_of bad s.
Proof.
  unfold free_of. simpl. split.
  - intros H. by inversion H.
  - intros [? ?]. by constructor.
Qed.

Lemma free_of_app bad a b :
  free_of bad (a +:+ b) <-> free_of bad a /\ free_of bad b.
Proof. unfold free_of. rewrite chars_app. apply Forall_app. Qed.

Lemma free_of_rev bad s : free_of bad (String.rev s) <-> free_of bad s.
Proof.
  unfold free_of. rewrite chars_rev. split; intros H.
  - rewrite <- (reverse_involutive (chars s)). by apply Forall_reverse.
  - by apply Forall_reverse.
Qed.

Lemma free_of_filter bad keep s :
  (forall c, keep c = true -> bad c = false) ->
  free_of bad (Py.str_filter keep s).
Proof.
  intros H. induction s as [|c s IH]; simpl; [apply free_of_nil|].
  destruct (keep c) eqn:E; [|done]. apply free_of_cons. auto.
Qed.

Lemma free_of_lstrip bad s : free_of bad s -> free_of bad (Py.lstrip s).
Proof.
  induction s as [|c s IH]; simpl; [done|]. intros H.
  destruct (Py.is_space c); [|done]. apply IH.
  apply free_of_cons in H. tauto.
Qed.

Lemma free_of_strip bad s : free_of bad s -> free_of bad (Py.strip s).
Proof.
  intros H. unfold Py.strip, Py.rstrip.
  by apply free_of_rev, free_of_lstrip, free_of_rev, free_of_lstrip.
Qed.

Lemma str_filter_id keep s :
  free_of (fun c => negb (keep c)) s -> Py.str_filter keep s = s.
Proof.
  induction s as [|c s IH]; simpl; [done|].
  intros [Hc Hs]%free_of_cons. apply negb_false_iff in Hc.
  by rewrite Hc, IH.
Qed.

Lemma replace_char_id a b s :
  free_of (fun c => Ascii.eqb c a) s -> Py.replace_char a b s = s.
Proof.
  induction s as [|c s IH]; simpl; [done|].
  intros [Hc Hs]%free_of_cons. by rewrite Hc, IH.
Qed.

(** ** Texts that stripping leaves alone *)

Lemma lstrip_idemp s : Py.lstrip (Py.lstrip s) = Py.lstrip s.
Proof.
  induction s as [|c s IH]; simpl; [done|].
  destruct (Py.is_space c) eqn:E; [done|]. simpl. by rewrite E.
Qed.

Lemma rstrip_idemp s : Py.rstrip (Py.rstrip s) = Py.rstrip s.
Proof.
  unfold Py.rstrip. by rewrite str_rev_involutive, lstrip_idemp.
Qed.

Lemma lstrip_length s : String.length (Py.lstrip s) <= String.length s.
Proof.
  induction s as [|c s IH]; simpl; [done|].
  destruct (Py.is_space c); simpl; lia.
Qed.

(** A text that [lstrip] leaves alone is empty or starts with a visible
    character. *)
Lemma lstrip_fixed s :
  Py.lstrip s = s <->
  match s with "" => True | String c _ => Py.is_space c = false end.
Proof.
  destruct s as [|c s]; simpl; [done|].
  destruct (Py.is_space c); [|done]. split; [|done].
  intros H. pose proof (lstrip_length s) as Hl. rewrite H in Hl.
  simpl in Hl. lia.
Qed.

Lemma rstrip_keeps_head s : Py.lstrip s = s -> Py.lstrip (Py.rstrip s) = Py.rstrip s.
Proof.
  intros H. apply lstrip_fixed. apply lstrip_fixed in H.
  destruct s as [|c s]; [done|]. rewrite rstrip_cons.
  destruct (String.eqb (Py.rstrip s) ""); [by rewrite H|done].
Qed.

Lemma strip_lstrip s : Py.lstrip (Py.strip s) = Py.strip s.
Proof. apply rstrip_keeps_head, lstrip_idemp. Qed.

Lemma strip_rstrip s : Py.rstrip (Py.strip s) = Py.strip s.
Proof. apply rstrip_idemp. Qed.

Lemma trimmed_iff s : trimmed s <-> Py.lstrip s = s /\ Py.rstrip s = s.
Proof.
  unfold trimmed. split.
  - intros H. rewrite <- H. split; [apply strip_lstrip|apply strip_rstrip].
  - intros [H1 H2]. unfold Py.strip. by rewrite H1.
Qed.

Lemma strip_trimmed s : trimmed (Py.strip s).
Proof. apply trimmed_iff. split; [apply strip_lstrip|apply strip_rstrip]. Qed.

Lemma rstrip_fixed s : Py.rstrip s = s <-> ends_visible s.
Proof.
  induction s as [|c s IH]; [done|]. rewrite rstrip_cons.
  destruct s as [|d s'].
  - simpl. by destruct (Py.is_space c).
  - change (ends_visible (String c (String d s')))
      with (ends_visible (String d s')).
    rewrite <- IH.
    destruct (String.eqb_spec (Py.rstrip (String d s')) "") as [E|E].
    + rewrite E. by destruct (Py.is_space c).
    + split; [by intros [= ->]|by intros ->].
Qed.

Lemma replace_char_cons a b c s :
  Py.replace_char a (String b "") (String c s)
  = String (if Ascii.eqb c a then b else c)
      (Py.replace_char a (String b "") s).
Proof. simpl. by destruct (Ascii.eqb c a). Qed.

Lemma replace_ends_visible a b s :
  Py.is_space b = false -> ends_visible s ->
  ends_visible (Py.replace_char a (String b "") s).
Proof.
  intros Hb. induction s as [|c s IH]; [done|].
  rewrite replace_char_cons. destruct s as [|d s'].
  - simpl. by destruct (Ascii.eqb c a).
  - intros H. rewrite replace_char_cons in *. by apply IH.
Qed.

Lemma replace_trimmed a b s :
  Py.is_space b = false -> trimmed s ->
  trimmed (Py.replace_char a (String b "") s).
Proof.
  intros Hb [H1 H2]%trimmed_iff. apply trimmed_iff. split.
  - apply lstrip_fixed. apply lstrip_fixed in H1.
    destruct s as [|c s]; [done|]. rewrite replace_char_cons.
    by destruct (Ascii.eqb c a).
  - apply rstrip_fixed, replace_ends_visible; [done|]. by apply rstrip_fixed.
Qed.

Lemma free_of_replace bad a b s :
  bad b = false -> free_of bad s ->
  free_of bad (Py.replace_char a (String b "") s).
Proof.
  intros Hb. induction s as [|c s IH]; [done|].
  rewrite replace_char_cons. intros [Hc Hs]%free_of_cons.
  apply free_of_cons. split; [by destruct (Ascii.eqb c a)|auto].
Qed.

Lemma replace_removes a b s :
  Ascii.eqb b a = false ->
  free_of (fun c => Ascii.eqb c a) (Py.replace_char a (String b "") s).
Proof.
  intros Hb. induction s as [|c s IH]; [apply free_of_nil|].
  rewrite replace_char_cons. apply free_of_cons. split; [|done].
  by destruct (Ascii.eqb c a) eqn:E.
Qed.

Lemma sanitize_title_class t :
  free_of (fun c => negb (Py.is_word c || Py.is_space c || Ascii.eqb c "-"%char))
    (sanitize_title t).
Proof.
  apply (free_of_replace _ " "%char "_"%char); [done|].
  apply free_of_strip, free_of_filter.
  intros c Hc. by rewrite Hc.
Qed.

Lemma sanitize_title_no_space t :
  free_of (fun c => Ascii.eqb c " "%char) (sanitize_title t).
Proof. by apply (replace_removes " "%char "_"%char). Qed.

Lemma sanitize_title_trimmed t : trimmed (sanitize_title t).
Proof.
  apply (replace_trimmed " "%char "_"%char); [done|]. apply strip_trimmed.
Qed.

Lemma sanitize_title_idemp t : sanitize_title (sanitize_title t) = sanitize_title t.
Proof.
  unfold sanitize_title at 1.
  rewrite str_filter_id by apply sanitize_title_class.
  rewrite sanitize_title_trimmed.
  apply replace_char_id, sanitize_title_no_space.
Qed.

(** X9: a sanitized title holds only word characters, hyphens and inner
    whitespace other than the space, so no space, dot or path separator;
    it neither starts nor ends with whitespace; and sanitizing it again
    changes nothing. *)
Theorem sanitize_title_safe_and_stable (t : string) :
  let id := sanitize_title t in
  (forall c, c ∈ chars id ->
     (Py.is_word c || Py.is_space c || Ascii.eqb c "-"%char) = true
     /\ c <> " "%char /\ c <> "/"%char /\ c <> "."%char)
  /\ trimmed id
  /\ sanitize_title id = id.
Proof.
  cbv zeta.
  split; [|split; [apply sanitize_title_trimmed|apply sanitize_title_idemp]].
  intros c Hc.
  pose proof (sanitize_title_class t) as HK.
  pose proof (sanitize_title_no_space t) as Hsp.
  unfold free_of in HK, Hsp. rewrite Forall_forall in HK, Hsp.
  specialize (HK c Hc). specialize (Hsp c Hc). simpl in HK, Hsp.
  apply negb_false_iff in HK. split; [done|].
  repeat split; intros ->; done.
Qed.

(* ===================================================================== *)
(** * The endpoints                                                       *)
(* ===================================================================== *)

Lemma path_name_go_plain f : forall acc,
  free_of (fun c => Ascii.eqb c "/"%char) f ->
  path_name_go acc f = String.rev acc +:+ f.
Proof.
  induction f as [|c f IH]; intros acc H; simpl.
  - by rewrite str_app_nil_r.
  - apply free_of_cons in H as [Hc H]. rewrite Hc, IH by done.
    by rewrite str_rev_cons, str_app_assoc.
Qed.

Lemma path_name_go_after_separator a f : forall acc,
  path_name_go acc (a +:+ String "/"%char f) = path_name_go "" f.
Proof.
  induction a as [|c a IH]; intros acc; [done|].
  change (String c a +:+ String "/"%char f)
    with (String c (a +:+ String "/"%char f)).
  simpl. destruct (Ascii.eqb c "/"%char); apply IH.
Qed.

(** The name of a path made of a directory and a plain file name is that
    file name. *)
Lemma path_name_joinpath dir f :
  free_of (fun c => Ascii.eqb c "/"%char) f -> path_name (joinpath dir f) = f.
Proof.
  intros H. unfold path_name, joinpath.
  change ("/" +:+ f) with (String "/"%char f).
  rewrite path_name_go_after_separator, path_name_go_plain by done. done.
Qed.

Lemma safe_filename_class name :
  free_of (fun c => negb (Py.is_word c || Ascii.eqb c "-"%char
                          || Ascii.eqb c "."%char))
    (safe_filename_of name).
Proof.
  apply free_of_strip, free_of_filter. intros c Hc. by rewrite Hc.
Qed.

Lemma free_of_weaken (bad bad' : ascii -> bool) s :
  (forall c, bad c = false -> bad' c = false) ->
  free_of bad s -> free_of bad' s.
Proof.
  intros H. unfold free_of. rewrite !Forall_forall. intros Hs c Hc. auto.
Qed.

(** X11: the processing endpoint hands to the pipeline only the sanitized
    name, and only when it ends in [.pdf] and names a file of the input
    directory; that name holds only word characters, hyphens and dots, so
    no separator and no whitespace, and the path built from it has that
    name as its last component. *)
Theorem accepted_names_are_plain (w : World) (pdf_filename f : string) :
  (start_pdf_processing w pdf_filename).2 = Some f ->
  f = safe_filename_of pdf_filename
  /\ (start_pdf_processing w pdf_filename).1
     = Ok {| ps_status := "processing_started"; ps_filename := f |}
  /\ endswith f ".pdf" = true
  /\ path_exists w (joinpath INPUT_DIR f) = true
  /\ free_of (fun c => Ascii.eqb c "/"%char) f
  /\ free_of Py.is_space f
  /\ path_name (joinpath INPUT_DIR f) = f.
Proof.
  unfold start_pdf_processing.
  destruct (endswith (safe_filename_of pdf_filename) ".pdf") eqn:Hend;
    [|done].
  destruct (path_exists w _) eqn:Hex; [|done]. simpl.
  intros [= <-].
  assert (free_of (fun c => Ascii.eqb c "/"%char)
            (safe_filename_of pdf_filename)) as Hsep.
  { eapply free_of_weaken; [|apply safe_filename_class].
    intros c Hc. apply negb_false_iff in Hc.
    destruct (Ascii.eqb_spec c "/"%char) as [->|]; done. }
  repeat split; try done.
  - eapply free_of_weaken; [|apply safe_filename_class].
    intros c Hc. apply negb_false_iff in Hc.
    destruct (Py.is_space c) eqn:Hs; [|done].
    revert Hc Hs. unfold Py.is_word, Py.is_space.
    destruct c as [[] [] [] [] [] [] [] []]; by vm_compute.
  - by apply path_name_joinpath.
Qed.

Lemma accepted_names_are_plain_witness :
  (start_pdf_processing tale_world "../tale.pdf;").2 = None
  /\ (start_pdf_processing tale_world "ta le.pdf").2 = Some "tale.pdf"
  /\ path_name (joinpath INPUT_DIR "tale.pdf") = "tale.pdf".
Proof.
  assert ((start_pdf_processing tale_world "ta le.pdf").2 = Some "tale.pdf")
    as H by (by vm_compute).
  split; [by vm_compute|]. split; [exact H|].
  exact (proj2 (proj2 (proj2 (proj2 (proj2 (proj2
           (accepted_names_are_plain tale_world "ta le.pdf" "tale.pdf" H))))))).
Defined.

Lemma has_double_star_tail s :
  free_of (fun c => Ascii.eqb c "*"%char) s ->
  has_double_star (s +:+ "*citation_ready.json") = false.
Proof.
  induction s as [|c s IH]; [by intros _; vm_compute|].
  intros [Hc Hs]%free_of_cons.
  change (String c s +:+ "*citation_ready.json")
    with (String c (s +:+ "*citation_ready.json")).
  assert (exists a r, s +:+ "*citation_ready.json" = String a r) as (a & r & E).
  { destruct s; [by eexists _, _|]. by eexists _, _. }
  rewrite E.
  change (has_double_star (String c (String a r)))
    with ((Ascii.eqb c "*"%char && Ascii.eqb a "*"%char)
          || has_double_star (String a r)).
  rewrite Hc, andb_false_l, orb_false_l. rewrite <- E. by apply IH.
Qed.

(** The scan pattern of the citation endpoint holds [**] exactly when the
    sanitized id is empty. *)
Lemma scan_pattern_double_star book :
  has_double_star ("*" +:+ sanitize_title book +:+ "*citation_ready.json")
  = bool_decide (sanitize_title book = "").
Proof.
  assert (free_of (fun c => Ascii.eqb c "*"%char) (sanitize_title book))
    as Hfree.
  { eapply free_of_weaken; [|apply sanitize_title_class].
    intros c Hc. destruct (Ascii.eqb_spec c "*"%char) as [->|]; [|done].
    by vm_compute in Hc. }
  destruct (sanitize_title book) as [|c s] eqn:E; [by vm_compute|].
  rewrite bool_decide_eq_false_2 by done.
  apply free_of_cons in Hfree as [Hc Hs].
  change ("*" +:+ String c s +:+ "*citation_ready.json")
    with (String "*"%char (String c (s +:+ "*citation_ready.json"))).
  change (has_double_star
            (String "*"%char (String c (s +:+ "*citation_ready.json"))))
    with ((Ascii.eqb "*"%char "*"%char && Ascii.eqb c "*"%char)
          || has_double_star (String c (s +:+ "*citation_ready.json"))).
  rewrite Hc, andb_false_r, orb_false_l.
  change (String c (s +:+ "*citation_ready.json"))
    with (String c s +:+ "*citation_ready.json").
  apply has_double_star_tail. by apply free_of_cons.
Qed.

Section CitationEndpointFacts.
Variable glob_cache : World -> string -> list string.
Variable float_str : Q -> string.

(** The endpoint on a name whose exact manifest file exists. *)
Lemma get_citation_exact w book m t :
  fs w !! joinpath CACHE_DIR (sanitize_title book +:+ "_citation_ready.json")
  = Some (CitationJSON m) ->
  get_citation glob_cache float_str w book t =
  match resolve m t with
  | Py.Return (Some c) => Py.Return (Ok c)
  | Py.Return None =>
      Py.Return
        (HTTPException 404
           ("No citation found for timestamp " +:+ float_str t))
  | Py.Raise e => Py.Raise e
  end.
Proof.
  intros H. unfold get_citation.
  change (Py.replace_char " "%char "_" (safe_book_id_of book))
    with (sanitize_title book).
  rewrite (proj2 (path_exists_true w _)) by (rewrite H; eauto). simpl.
  unfold get_citation_at_timestamp, load_citation.
  rewrite (proj2 (path_exists_true w _)) by (rewrite H; eauto).
  rewrite H. simpl. by destruct (resolve m t) as [[c|]|e].
Qed.

(** X10: asked with the [book_id] that Stage 2 stored in the manifest it
    has just written, the citation endpoint reads that manifest (it never
    falls back to the directory scan): it answers the resolved citation, or
    404 when no chunk covers the time.  Asked for a book with no manifest
    file under its sanitized id, it scans: when the id is not empty and the
    scan finds nothing it answers 404; when the id sanitizes to the empty
    string the pattern is [**citation_ready.json], which [Path.glob]
    refuses, and the request fails with [ValueError] instead of a 404. *)
Theorem citation_endpoint_finds_stage2_manifest :
  (forall (w : World) (p : string) (d : RawData) (max_chars : Z) (t : Q),
     fs w !! p = Some (RawJSON d) ->
     let m := build_manifest max_chars (remove_all "_raw" (path_stem p)) d in
     let w' := (prepare_tts_chunks_with_citations w (Some p) max_chars).2 in
     get_citation glob_cache float_str w' (book_id m) t =
     match resolve m t with
     | Py.Return (Some c) => Py.Return (Ok c)
     | Py.Return None =>
         Py.Return
           (HTTPException 404
              ("No citation found for timestamp " +:+ float_str t))
     | Py.Raise e => Py.Raise e
     end)
  /\ (forall (w : World) (book : string) (t : Q),
        sanitize_title book <> "" ->
        fs w !! joinpath CACHE_DIR
                  (sanitize_title book +:+ "_citation_ready.json") = None ->
        glob_cache w ("*" +:+ sanitize_title book +:+ "*citation_ready.json")
        = [] ->
        get_citation glob_cache float_str w book t
        = Py.Return (HTTPException 404 "Citation data not available"))
  /\ (forall (w : World) (book : string) (t : Q),
        sanitize_title book = "" ->
        fs w !! joinpath CACHE_DIR "_citation_ready.json" = None ->
        get_citation glob_cache float_str w book t = Py.Raise Py.ValueError).
Proof.
  split; [|split].
  - intros w p d max_chars t Hp. cbv zeta.
    apply get_citation_exact.
    unfold prepare_tts_chunks_with_citations, json_load.
    rewrite (proj2 (path_exists_true w p)) by (rewrite Hp; eauto).
    rewrite Hp. simpl fs. unfold build_manifest at 1 2. simpl book_id.
    rewrite sanitize_title_idemp. apply lookup_insert_eq.
  - intros w book t Hne Hnone Hglob. unfold get_citation.
    change (Py.replace_char " "%char "_" (safe_book_id_of book))
      with (sanitize_title book).
    rewrite (proj2 (path_exists_false w _)) by done. simpl negb. cbv iota zeta.
    rewrite scan_pattern_double_star.
    rewrite bool_decide_eq_false_2 by done. by rewrite Hglob.
  - intros w book t He Hnone. unfold get_citation.
    change (Py.replace_char " "%char "_" (safe_book_id_of book))
      with (sanitize_title book).
    rewrite He.
    change ("" +:+ "_citation_ready.json") with "_citation_ready.json".
    by rewrite (proj2 (path_exists_false w _)) by done.
Qed.
End CitationEndpointFacts.

(* ===================================================================== *)
(** * Stage 1 as a whole                                                  *)
(* ===================================================================== *)

Lemma clean_block_wellformed b :
  trimmed (clean_block b)
  /\ free_of (fun c => Ascii.eqb c newline) (clean_block b).
Proof.
  split; [apply strip_trimmed|].
  apply free_of_strip. by apply (replace_removes newline " "%char).
Qed.

Lemma extract_pages_wellformed pages : forall n pd,
  pd ∈ extract_pages n pages ->
  n < page_number pd <= n + length pages
  /\ (text_blocks pd <> [] \/ coordinate_blocks pd <> [])
  /\ forall b, b ∈ text_blocks pd ->
       b <> "" /\ trimmed b /\ free_of (fun c => Ascii.eqb c newline) b.
Proof.
  induction pages as [|p pages IH]; intros n pd; simpl.
  - by intros ?%elem_of_nil.
  - assert (pd ∈ extract_pages (S n) pages ->
            n < page_number pd <= n + S (length pages)
            /\ (text_blocks pd <> [] \/ coordinate_blocks pd <> [])
            /\ forall b, b ∈ text_blocks pd ->
                 b <> "" /\ trimmed b
                 /\ free_of (fun c => Ascii.eqb c newline) b) as Hrest.
    { intros H. apply IH in H as (? & ? & ?). split; [lia|done]. }
    assert (forall b, b ∈ filter (fun t => t <> "") (clean_block <$> fitz_blocks p) ->
              b <> "" /\ trimmed b
              /\ free_of (fun c => Ascii.eqb c newline) b) as Hblocks.
    { intros b [Hne Hb]%list_elem_of_filter.
      apply list_elem_of_fmap in Hb as (x & -> & _).
      split; [done|]. apply clean_block_wellformed. }
    destruct (filter _ _) as [|t ts] eqn:Ef, (fitz_spans p) as [|sp sps] eqn:Es;
      [done| | |];
      (intros [->|H]%elem_of_cons; [|by apply Hrest]); simpl;
      (split; [lia|]); (split; [|done]); auto.
Qed.

Lemma extract_pages_sorted pages : forall n,
  Sorted lt (page_number <$> extract_pages n pages).
Proof.
  induction pages as [|p pages IH]; intros n; simpl; [constructor|].
  assert (HdRel lt (n + 1) (page_number <$> extract_pages (S n) pages)) as Hhd.
  { pose proof (extract_pages_wellformed pages (S n)) as Hw.
    destruct (extract_pages (S n) pages) as [|pd l]; constructor.
    destruct (Hw pd) as [? _]; [by left|]. lia. }
  destruct (filter _ _), (fitz_spans p); [apply IH| | |];
    simpl; constructor; auto.
Qed.

(** X14: in what Stage 1 extracts, every page entry carries the 1-based
    number of its page, entries are in strictly increasing page order (a
    page with neither text nor spans is left out), [total_pages] still
    counts all pages, and every text block is non-empty, neither starts
    nor ends with whitespace and holds no line break. *)
Theorem extraction_wellformed (pdf_path : string) (doc : FitzDoc) :
  let raw := extract_document pdf_path doc in
  total_pages (raw_metadata raw) = length (fitz_pages doc)
  /\ Sorted lt (page_number <$> content raw)
  /\ (forall pd, pd ∈ content raw ->
        1 <= page_number pd <= length (fitz_pages doc)
        /\ (text_blocks pd <> [] \/ coordinate_blocks pd <> [])
        /\ forall b, b ∈ text_blocks pd ->
             b <> "" /\ trimmed b
             /\ free_of (fun c => Ascii.eqb c newline) b).
Proof.
  cbv zeta. split; [done|]. split; [apply extract_pages_sorted|].
  intros pd Hpd. apply extract_pages_wellformed in Hpd as (? & ? & ?).
  split; [lia|done].
Qed.

Lemma str_take_app x y : Py.str_take (String.length x) (x +:+ y) = x.
Proof.
  induction x as [|c x IH]; simpl; [by destruct y|].
  change (String c x +:+ y) with (String c (x +:+ y)). by rewrite IH.
Qed.

(** The stem of [x.pdf] is [x]. *)
Lemma stem_of_pdf_name x : x <> "" -> stem_of_name (x +:+ ".pdf") = x.
Proof.
  intros Hx. unfold stem_of_name.
  rewrite str_rev_app.
  change (String.rev ".pdf" +:+ String.rev x)
    with (String "f" (String "d" (String "p" (String "." (String.rev x))))).
  cbn [chars_before_dot Ascii.eqb Bool.eqb fmap option_fmap option_map].
  rewrite str_length_app. change (String.length ".pdf") with 4.
  replace (String.length x + 4 - 1 - 3) with (String.length x) by lia.
  assert (0 < String.length x) as Hlen by (destruct x; [done|simpl; lia]).
  rewrite (proj2 (Nat.ltb_lt _ _)) by lia.
  rewrite (proj2 (Nat.ltb_lt _ _)) by lia.
  apply str_take_app.
Qed.

(** X12: Stage 1 has three outcomes.  No file under the name: [None], the
    world untouched and the extractor not called.  A file that is no
    document: [None], no file written.  A document: the raw cache path,
    the cache reading back as the extraction of that document, every other
    file as before, and no synthesis request. *)
Theorem stage1_outcomes (w : World) (pdf_filename : string) :
  let pdf_path := joinpath INPUT_DIR pdf_filename in
  let cache := joinpath CACHE_DIR (path_stem pdf_path +:+ "_raw.json") in
  let r := process_pdf w pdf_filename in
  (fs w !! pdf_path = None -> r = (None, w))
  /\ (forall f, fs w !! pdf_path = Some f -> (forall d, f <> Pdf d) ->
        r.1 = None /\ fs r.2 = fs w
        /\ fitz_opened r.2 = fitz_opened w ++ [pdf_path])
  /\ (forall doc, fs w !! pdf_path = Some (Pdf doc) ->
        r.1 = Some cache
        /\ json_load r.2 cache
           = Py.Return (JRaw (extract_document pdf_path doc))
        /\ (forall q, q <> cache -> fs r.2 !! q = fs w !! q)
        /\ fitz_opened r.2 = fitz_opened w ++ [pdf_path]
        /\ tts_requests r.2 = tts_requests w).
Proof.
  cbv zeta. unfold process_pdf. split; [|split].
  - intros H. by rewrite (proj2 (path_exists_false w _)).
  - intros f H Hf.
    rewrite (proj2 (path_exists_true w _)) by (rewrite H; eauto).
    rewrite H. simpl. destruct f; try done. by destruct (Hf d).
  - intros doc H.
    rewrite (proj2 (path_exists_true w _)) by (rewrite H; eauto).
    rewrite H. simpl. split; [done|]. split; [apply json_load_write|].
    split; [|done]. intros q Hq. by apply lookup_insert_ne.
Qed.

(** X13: for a document named [x.pdf], with [x] non-empty and free of
    separators, the raw cache is [x_raw.json] in the cache directory. *)
Theorem raw_cache_named_after_document (w : World) (x : string)
    (doc : FitzDoc) :
  x <> "" ->
  free_of (fun c => Ascii.eqb c "/"%char) x ->
  fs w !! joinpath INPUT_DIR (x +:+ ".pdf") = Some (Pdf doc) ->
  path_stem (joinpath INPUT_DIR (x +:+ ".pdf")) = x
  /\ (process_pdf w (x +:+ ".pdf")).1
     = Some (joinpath CACHE_DIR (x +:+ "_raw.json"))
  /\ title (raw_metadata (extract_document
                            (joinpath INPUT_DIR (x +:+ ".pdf")) doc))
     = Some (default x (fitz_title doc)).
Proof.
  intros Hx Hsep Hdoc.
  assert (path_stem (joinpath INPUT_DIR (x +:+ ".pdf")) = x) as Hstem.
  { unfold path_stem. rewrite path_name_joinpath.
    - by apply stem_of_pdf_name.
    - apply free_of_app. split; [done|]. by repeat constructor. }
  split; [done|]. split.
  - unfold process_pdf.
    rewrite (proj2 (path_exists_true w _)) by (rewrite Hdoc; eauto).
    rewrite Hdoc, Hstem. done.
  - simpl. by rewrite Hstem.
Qed.

Lemma raw_cache_named_after_document_witness :
  "tale" <> ""
  /\ free_of (fun c => Ascii.eqb c "/"%char) "tale"
  /\ fs tale_world !! joinpath INPUT_DIR ("tale" +:+ ".pdf") = Some (Pdf tale_doc)
  /\ (process_pdf tale_world ("tale" +:+ ".pdf")).1
     = Some (joinpath CACHE_DIR ("tale" +:+ "_raw.json")).
Proof.
  assert ("tale" <> "") as H1 by done.
  assert (free_of (fun c => Ascii.eqb c "/"%char) "tale") as H2
    by (by repeat constructor).
  assert (fs tale_world !! joinpath INPUT_DIR ("tale" +:+ ".pdf")
          = Some (Pdf tale_doc)) as H3 by (by vm_compute).
  split; [exact H1|]. split; [exact H2|]. split; [exact H3|].
  exact (proj1 (proj2 (raw_cache_named_after_document tale_world "tale"
                         tale_doc H1 H2 H3))).
Defined.

(* ===================================================================== *)
(** * A whole run of the Segment Generator                                *)
(* ===================================================================== *)

Lemma listed_iff id rs : listed id rs = true <-> id ∈ ready_ids rs.
Proof.
  unfold listed, ready_ids. rewrite existsb_exists, list_elem_of_fmap.
  split.
  - intros (r & Hr & E). apply Nat.eqb_eq in E.
    exists r. split; [done|]. by apply list_elem_of_In.
  - intros (r & -> & Hr). exists r. split; [by apply list_elem_of_In|].
    apply Nat.eqb_refl.
Qed.

Lemma elem_of_sort_by_id r l : r ∈ sort_by_id l <-> r ∈ l.
Proof. by rewrite sort_by_id_perm. Qed.

Lemma ready_ids_sort l x :
  ready_ids (sort_by_id (l ++ [x])) ≡ₚ rc_chunk_id x :: ready_ids l.
Proof.
  unfold ready_ids. rewrite sort_by_id_perm, fmap_app. simpl.
  symmetry. apply Permutation_cons_append.
Qed.

Section GeneratorRun.
Variable tts : Synthesizer.
Variables (md : Metadata) (book_name : string) (n_chunks : nat).

(** The four ways through the loop body. *)
Lemma chunk_step_cases st c :
  let st' := chunk_step tts md book_name n_chunks st c in
  (listed (chunk_id c) (ready st) = true /\ st' = st)
  \/ (listed (chunk_id c) (ready st) = false
      /\ path_exists (world st) (audio_path book_name c) = true
      /\ st' = mark_ready md book_name n_chunks c st)
  \/ (listed (chunk_id c) (ready st) = false
      /\ path_exists (world st) (audio_path book_name c) = false
      /\ tts (length (tts_requests (world st))) (text c) = None
      /\ st' = {| ready := ready st;
                  world := (request_tts tts c (world st)).2 |})
  \/ (exists audio,
        listed (chunk_id c) (ready st) = false
        /\ path_exists (world st) (audio_path book_name c) = false
        /\ tts (length (tts_requests (world st))) (text c) = Some audio
        /\ st' = mark_ready md book_name n_chunks c
                   {| ready := ready st;
                      world := write_file (request_tts tts c (world st)).2
                                 (audio_path book_name c) (Wav audio) |}).
Proof.
  cbv zeta. unfold chunk_step.
  destruct (listed (chunk_id c) (ready st)) eqn:Hl,
           (path_exists (world st) (audio_path book_name c)) eqn:Hd; simpl.
  - by left.
  - by left.
  - right. by left.
  - right. right. unfold request_tts.
    destruct (tts _ _) as [audio|] eqn:Ht.
    + right. by exists audio.
    + by left.
Qed.

Lemma grows_refl st : grows book_name st st.
Proof. unfold grows. tauto. Qed.

Lemma grows_trans st1 st2 st3 :
  grows book_name st1 st2 -> grows book_name st2 st3 ->
  grows book_name st1 st3.
Proof.
  intros (A1 & A2 & A3 & A4 & A5 & A6) (B1 & B2 & B3 & B4 & B5 & B6).
  repeat split; auto.
  intros p Hp Hs. rewrite B2 by auto. auto.
Qed.

Lemma synced_mark_ready c st :
  synced book_name (mark_ready md book_name n_chunks c st).
Proof.
  unfold synced, ledger_start, mark_ready, save_ledger, load_ready_chunks.
  simpl. rewrite path_exists_write. simpl. by rewrite lookup_insert_eq.
Qed.

(** Appending the record of an unlisted chunk. *)
Lemma grows_mark_ready c st :
  listed (chunk_id c) (ready st) = false ->
  grows book_name st (mark_ready md book_name n_chunks c st).
Proof.
  intros Hl. unfold grows, mark_ready, save_ledger. simpl.
  split; [|split; [|split; [|split; [|split]]]].
  - intros r Hr. apply elem_of_sort_by_id, elem_of_app. by left.
  - intros p Hp _. by apply lookup_insert_ne.
  - intros p Hs. destruct (decide (p = manifest_path book_name)) as [->|Hne].
    + rewrite lookup_insert_eq. eauto.
    + by rewrite lookup_insert_ne.
  - intros Hnd. rewrite ready_ids_sort. simpl. constructor; [|done].
    intros Hin. apply listed_iff in Hin. congruence.
  - intros _. apply sort_by_id_sorted.
  - intros _. apply (synced_mark_ready c st).
Qed.

Lemma grows_step st c :
  grows book_name st (chunk_step tts md book_name n_chunks st c).
Proof.
  destruct (chunk_step_cases st c)
    as [[_ ->]|[(Hl & _ & ->)|[(Hl & Hd & _ & ->)|(audio & Hl & Hd & _ & ->)]]].
  - apply grows_refl.
  - by apply grows_mark_ready.
  - unfold grows, synced, ledger_start, path_exists, load_ready_chunks.
    simpl. tauto.
  - apply path_exists_false in Hd.
    match goal with |- grows _ _ (mark_ready _ _ _ _ ?st2) =>
      destruct (grows_mark_ready c st2 Hl) as (B1 & _ & _ & B4 & B5 & _)
    end.
    split; [exact B1|]. split; [|split; [|split; [exact B4|split; [exact B5|]]]].
    + intros p Hp [f Hf]. unfold mark_ready, save_ledger. simpl.
      rewrite lookup_insert_ne by done.
      rewrite lookup_insert_ne; [done|]. congruence.
    + intros p [f Hf]. unfold mark_ready, save_ledger. simpl.
      destruct (decide (p = manifest_path book_name)) as [->|Hne];
        [rewrite lookup_insert_eq; eauto|].
      rewrite lookup_insert_ne by done.
      destruct (decide (p = audio_path book_name c)) as [->|Hne'];
        [rewrite lookup_insert_eq; eauto|].
      rewrite lookup_insert_ne by done. eauto.
    + intros _. apply synced_mark_ready.
Qed.

Lemma grows_loop cs : forall st,
  grows book_name st (chunks_loop tts md book_name n_chunks cs st).
Proof.
  induction cs as [|c cs IH]; intros st; [apply grows_refl|].
  eapply grows_trans; [apply grows_step|apply IH].
Qed.

Lemma listed_grows st st' id :
  grows book_name st st' ->
  listed id (ready st) = true -> listed id (ready st') = true.
Proof.
  intros (H & _). rewrite !listed_iff. unfold ready_ids.
  rewrite !list_elem_of_fmap. intros (r & -> & Hr). eauto.
Qed.

Lemma exists_grows st st' p :
  grows book_name st st' ->
  path_exists (world st') p = false -> path_exists (world st) p = false.
Proof.
  intros (_ & _ & H & _). rewrite !path_exists_false.
  intros Hn. destruct (fs (world st) !! p) as [f0|] eqn:E; [|done].
  destruct (H p) as [f1 Hf]; [eauto|]. congruence.
Qed.

Lemma listed_mark_ready c st :
  listed (chunk_id c) (ready (mark_ready md book_name n_chunks c st)) = true.
Proof.
  unfold mark_ready. simpl. rewrite listed_sort, listed_snoc. simpl.
  rewrite Nat.eqb_refl. apply orb_true_r.
Qed.

Lemma step_origin st c r :
  r ∈ ready (chunk_step tts md book_name n_chunks st c) ->
  r ∈ ready st
  \/ (r = ready_record c /\ listed (chunk_id c) (ready st) = false).
Proof.
  destruct (chunk_step_cases st c)
    as [[_ ->]|[(Hl & _ & ->)|[(Hl & _ & _ & ->)|(audio & Hl & _ & _ & ->)]]];
    [by left| |by left|];
    unfold mark_ready; simpl;
    intros [?|Hr]%elem_of_sort_by_id%elem_of_app; [by left| |by left|];
    apply list_elem_of_singleton in Hr as ->; by right.
Qed.

Lemma loop_origin cs : forall st r,
  r ∈ ready (chunks_loop tts md book_name n_chunks cs st) ->
  r ∈ ready st
  \/ exists c, c ∈ cs /\ r = ready_record c
               /\ listed (chunk_id c) (ready st) = false.
Proof.
  induction cs as [|c cs IH]; intros st r; [by left|].
  intros [H|(c' & Hc' & -> & Hl)]%IH.
  - apply step_origin in H as [?|[-> ?]]; [by left|].
    right. exists c. split; [by left|done].
  - right. exists c'. split; [by right|]. split; [done|].
    destruct (listed (chunk_id c') (ready st)) eqn:E; [|done].
    apply (listed_grows _ _ _ (grows_step st c)) in E. congruence.
Qed.

Lemma step_requests st c :
  let st' := chunk_step tts md book_name n_chunks st c in
  tts_requests (world st') = tts_requests (world st)
  \/ (tts_requests (world st') = tts_requests (world st) ++ [text c]
      /\ path_exists (world st) (audio_path book_name c) = false
      /\ listed (chunk_id c) (ready st) = false).
Proof.
  destruct (chunk_step_cases st c)
    as [[_ ->]|[(Hl & _ & ->)|[(Hl & Hd & _ & ->)|(audio & Hl & Hd & _ & ->)]]];
    [by left|by left|by right|by right].
Qed.

Lemma loop_requests cs : forall st,
  exists l,
    sublist l cs
    /\ tts_requests (world (chunks_loop tts md book_name n_chunks cs st))
       = tts_requests (world st) ++ (text <$> l)
    /\ forall c, c ∈ l ->
         path_exists (world st) (audio_path book_name c) = false
         /\ listed (chunk_id c) (ready st) = false.
Proof.
  induction cs as [|c cs IH]; intros st.
  - exists []. split; [constructor|]. split; [by rewrite app_nil_r|].
    by intros c ?%elem_of_nil.
  - destruct (IH (chunk_step tts md book_name n_chunks st c))
      as (l & Hsub & Hreq & Hl).
    assert (forall c', c' ∈ l ->
              path_exists (world st) (audio_path book_name c') = false
              /\ listed (chunk_id c') (ready st) = false) as Hl'.
    { intros c' Hc'. destruct (Hl c' Hc') as [Hd Hn]. split.
      - by apply (exists_grows _ _ _ (grows_step st c)).
      - destruct (listed (chunk_id c') (ready st)) eqn:E; [|done].
        apply (listed_grows _ _ _ (grows_step st c)) in E. congruence. }
    destruct (step_requests st c) as [Hsame|(Hnew & Hd & Hn)].
    + exists l. split; [by constructor|]. split; [|done].
      unfold chunks_loop in *. simpl. by rewrite Hreq, Hsame.
    + exists (c :: l). split; [by constructor|]. split.
      * unfold chunks_loop in *. simpl.
        by rewrite Hreq, Hnew, <- app_assoc.
      * intros c' [->|?]%elem_of_cons; auto.
Qed.

Lemma step_lists_chunk st c :
  (forall n t, is_Some (tts n t)) ->
  listed (chunk_id c) (ready (chunk_step tts md book_name n_chunks st c))
  = true.
Proof.
  intros Hok.
  destruct (chunk_step_cases st c)
    as [[Hl ->]|[(Hl & _ & ->)|[(Hl & _ & Hf & ->)|(audio & Hl & _ & _ & ->)]]].
  - done.
  - apply listed_mark_ready.
  - destruct (Hok (length (tts_requests (world st))) (text c)). congruence.
  - apply listed_mark_ready.
Qed.

Lemma loop_lists_chunks cs : forall st c,
  (forall n t, is_Some (tts n t)) ->
  c ∈ cs ->
  listed (chunk_id c) (ready (chunks_loop tts md book_name n_chunks cs st))
  = true.
Proof.
  induction cs as [|c0 cs IH]; intros st c Hok; [by intros ?%elem_of_nil|].
  intros [->|Hc]%elem_of_cons.
  - apply (listed_grows _ _ _ (grows_loop cs _)).
    by apply step_lists_chunk.
  - by apply IH.
Qed.

Lemma step_listed_noop st c :
  listed (chunk_id c) (ready st) = true ->
  chunk_step tts md book_name n_chunks st c = st.
Proof.
  intros H. unfold chunk_step. rewrite H.
  by rewrite orb_true_r, andb_false_r.
Qed.

Lemma loop_listed_noop cs : forall st,
  (forall c, c ∈ cs -> listed (chunk_id c) (ready st) = true) ->
  chunks_loop tts md book_name n_chunks cs st = st.
Proof.
  induction cs as [|c cs IH]; intros st H; [done|].
  simpl. rewrite step_listed_noop by (apply H; by left).
  apply IH. intros c' Hc'. apply H. by right.
Qed.
End GeneratorRun.

(** The stage, once past its checks, is the loop from the ledger's
    records. *)
Lemma generate_is_loop tts w p data limit rs0 :
  fs w !! p = Some (CitationJSON data) ->
  ledger_start w (book_id data) = Some rs0 ->
  generate_audio_streaming tts w p limit
  = (Py.Return (Some (audio_dir (book_id data))),
     world (chunks_loop tts (metadata data) (book_id data)
              (length (chunks data))
              (Py.slice_limit (chunks data) limit) (loop_start w rs0))).
Proof.
  intros Hp Hs. unfold generate_audio_streaming, load_citation.
  rewrite (proj2 (path_exists_true w p)) by (rewrite Hp; eauto).
  rewrite Hp. simpl. unfold ledger_start in Hs.
  destruct (path_exists w (manifest_path (book_id data))).
  - destruct (load_ready_chunks w _); [|done]. by injection Hs as ->.
  - by injection Hs as <-.
Qed.

Lemma synced_start w book rs0 :
  ledger_start w book = Some rs0 -> synced book (loop_start w rs0).
Proof. done. Qed.

Lemma loop_start_eta st : loop_start (world st) (ready st) = st.
Proof. by destruct st. Qed.

(** X15: a run never undoes finished work.  Every record the ledger held
    is still in it afterwards, every new record is the record of a
    processed chunk that was not listed, and no file that existed, other
    than the ledger itself, is rewritten. *)
Theorem resume_keeps_finished_work (tts : Synthesizer) (w : World)
    (p : string) (data : CitationManifest) (limit : option Z)
    (rs0 : list ReadyChunk) :
  fs w !! p = Some (CitationJSON data) ->
  ledger_start w (book_id data) = Some rs0 ->
  let w1 := (generate_audio_streaming tts w p limit).2 in
  (forall q, q <> manifest_path (book_id data) -> is_Some (fs w !! q) ->
     fs w1 !! q = fs w !! q)
  /\ exists rs1,
       ledger_start w1 (book_id data) = Some rs1
       /\ (forall r, r ∈ rs0 -> r ∈ rs1)
       /\ (forall r, r ∈ rs1 ->
             r ∈ rs0
             \/ exists c, c ∈ Py.slice_limit (chunks data) limit
                          /\ r = ready_record c
                          /\ listed (chunk_id c) rs0 = false).
Proof.
  intros Hp Hs. cbv zeta. rewrite (generate_is_loop _ _ _ _ _ _ Hp Hs).
  cbn [snd].
  set (cs := Py.slice_limit (chunks data) limit).
  set (st0 := loop_start w rs0).
  destruct (grows_loop tts (metadata data) (book_id data)
              (length (chunks data)) cs st0)
    as (G1 & G2 & _ & _ & _ & G6).
  split; [exact G2|].
  eexists. split; [apply G6; by apply synced_start|].
  split; [exact G1|]. intros r Hr.
  by apply loop_origin in Hr.
Qed.

Lemma resume_keeps_finished_work_witness :
  fs five_entry_lost !! five_citation_path = Some (CitationJSON five_manifest)
  /\ (exists rs0, ledger_start five_entry_lost (book_id five_manifest) = Some rs0
                  /\ ready_ids rs0 = [0; 1; 3; 4]
                  /\ exists rs1,
                       ledger_start
                         (generate_audio_streaming fails_on_third
                            five_entry_lost five_citation_path None).2
                         (book_id five_manifest) = Some rs1
                       /\ forall r, r ∈ rs0 -> r ∈ rs1).
Proof.
  assert (fs five_entry_lost !! five_citation_path
          = Some (CitationJSON five_manifest)) as H1 by (by vm_compute).
  split; [exact H1|].
  eexists. assert (ledger_start five_entry_lost (book_id five_manifest)
                   = Some _) as H2 by (vm_compute; reflexivity).
  split; [exact H2|]. split; [by vm_compute|].
  destruct (resume_keeps_finished_work fails_on_third five_entry_lost
              five_citation_path five_manifest None _ H1 H2)
    as (_ & rs1 & Hrs1 & Hkeep & _).
  exists rs1. split; [exact Hrs1|exact Hkeep].
Defined.

(** X16: a run keeps the ledger's records unique by chunk id and sorted
    by chunk id, if they were so before (as they are when it starts from no
    ledger). *)
Theorem ledger_stays_unique_and_sorted (tts : Synthesizer) (w : World)
    (p : string) (data : CitationManifest) (limit : option Z)
    (rs0 rs1 : list ReadyChunk) :
  fs w !! p = Some (CitationJSON data) ->
  ledger_start w (book_id data) = Some rs0 ->
  ledger_start (generate_audio_streaming tts w p limit).2 (book_id data)
  = Some rs1 ->
  (NoDup (ready_ids rs0) -> NoDup (ready_ids rs1))
  /\ (Sorted le (ready_ids rs0) -> Sorted le (ready_ids rs1)).
Proof.
  intros Hp Hs. rewrite (generate_is_loop _ _ _ _ _ _ Hp Hs). cbn [snd].
  set (cs := Py.slice_limit (chunks data) limit).
  set (st0 := loop_start w rs0).
  destruct (grows_loop tts (metadata data) (book_id data)
              (length (chunks data)) cs st0)
    as (_ & _ & _ & G4 & G5 & G6).
  intros H1. rewrite (G6 (synced_start _ _ _ Hs)) in H1.
  injection H1 as <-. split; [exact G4|exact G5].
Qed.

Lemma ledger_stays_unique_and_sorted_witness :
  exists rs1,
    fs five_world !! five_citation_path = Some (CitationJSON five_manifest)
    /\ ledger_start five_world (book_id five_manifest) = Some []
    /\ ledger_start
         (generate_audio_streaming fails_on_third five_world
            five_citation_path None).2 (book_id five_manifest) = Some rs1
    /\ ready_ids rs1 = [0; 1; 3; 4]
    /\ NoDup (ready_ids rs1) /\ Sorted le (ready_ids rs1).
Proof.
  eexists.
  assert (fs five_world !! five_citation_path
          = Some (CitationJSON five_manifest)) as H1 by (by vm_compute).
  assert (ledger_start five_world (book_id five_manifest) = Some [])
    as H2 by (by vm_compute).
  assert (ledger_start
            (generate_audio_streaming fails_on_third five_world
               five_citation_path None).2 (book_id five_manifest) = Some _)
    as H3 by (vm_compute; reflexivity).
  split; [exact H1|]. split; [exact H2|]. split; [exact H3|].
  split; [by vm_compute|].
  destruct (ledger_stays_unique_and_sorted fails_on_third five_world
              five_citation_path five_manifest None [] _ H1 H2 H3)
    as [Hn Hsrt].
  split; [apply Hn; constructor|apply Hsrt; constructor].
Defined.

(** X17: with a synthesizer that answers every request, each processed
    chunk is listed in the ledger when the run ends. *)
Theorem reliable_run_lists_every_chunk (tts : Synthesizer) (w : World)
    (p : string) (data : CitationManifest) (limit : option Z)
    (rs0 : list ReadyChunk) (c : Chunk) :
  fs w !! p = Some (CitationJSON data) ->
  ledger_start w (book_id data) = Some rs0 ->
  (forall n t, is_Some (tts n t)) ->
  c ∈ Py.slice_limit (chunks data) limit ->
  exists rs1,
    ledger_start (generate_audio_streaming tts w p limit).2 (book_id data)
    = Some rs1
    /\ listed (chunk_id c) rs1 = true.
Proof.
  intros Hp Hs Hok Hc. rewrite (generate_is_loop _ _ _ _ _ _ Hp Hs).
  cbn [snd].
  set (cs := Py.slice_limit (chunks data) limit) in *.
  set (st0 := loop_start w rs0).
  destruct (grows_loop tts (metadata data) (book_id data)
              (length (chunks data)) cs st0)
    as (_ & _ & _ & _ & _ & G6).
  eexists. split; [apply G6; by apply synced_start|].
  by apply loop_lists_chunks.
Qed.

(** X18: after a run with a synthesizer that answers every request, a
    second run with the same limit is idle whatever its synthesizer does:
    it returns the audio directory, sends no request and changes no file. *)
Theorem rerun_after_reliable_run_is_idle (tts tts' : Synthesizer) (w : World)
    (p : string) (data : CitationManifest) (limit : option Z)
    (rs0 : list ReadyChunk) :
  fs w !! p = Some (CitationJSON data) ->
  p <> manifest_path (book_id data) ->
  ledger_start w (book_id data) = Some rs0 ->
  (forall n t, is_Some (tts n t)) ->
  let w1 := (generate_audio_streaming tts w p limit).2 in
  generate_audio_streaming tts' w1 p limit
  = (Py.Return (Some (audio_dir (book_id data))), w1).
Proof.
  intros Hp Hne Hs Hok. cbv zeta.
  rewrite (generate_is_loop _ _ _ _ _ _ Hp Hs). cbn [snd].
  set (cs := Py.slice_limit (chunks data) limit).
  set (st0 := loop_start w rs0).
  set (st1 := chunks_loop tts (metadata data) (book_id data)
                (length (chunks data)) cs st0).
  destruct (grows_loop tts (metadata data) (book_id data)
              (length (chunks data)) cs st0)
    as (_ & G2 & _ & _ & _ & G6).
  fold st1 in G2, G6.
  assert (fs (world st1) !! p = Some (CitationJSON data)) as Hp1.
  { rewrite G2; [exact Hp|exact Hne|]. exists (CitationJSON data). exact Hp. }
  rewrite (generate_is_loop tts' (world st1) p data limit (ready st1) Hp1)
    by (apply G6; by apply synced_start).
  fold cs. rewrite loop_start_eta.
  rewrite loop_listed_noop; [done|].
  intros c Hc. by apply loop_lists_chunks.
Qed.

Lemma rerun_after_reliable_run_is_idle_witness :
  fs five_world !! five_citation_path = Some (CitationJSON five_manifest)
  /\ five_citation_path <> manifest_path (book_id five_manifest)
  /\ ledger_start five_world (book_id five_manifest) = Some []
  /\ (forall n t, is_Some (always_ok n t))
  /\ generate_audio_streaming fails_on_third five_done five_citation_path None
     = (Py.Return (Some (audio_dir "Five")), five_done).
Proof.
  assert (fs five_world !! five_citation_path
          = Some (CitationJSON five_manifest)) as H1 by (by vm_compute).
  assert (five_citation_path <> manifest_path (book_id five_manifest))
    as H2 by (by vm_compute).
  assert (ledger_start five_world (book_id five_manifest) = Some [])
    as H3 by (by vm_compute).
  assert (forall n t, is_Some (always_ok n t)) as H4
    by (intros n t; unfold always_ok; eauto).
  split; [exact H1|]. split; [exact H2|]. split; [exact H3|].
  split; [exact H4|].
  exact (rerun_after_reliable_run_is_idle always_ok fails_on_third five_world
           five_citation_path five_manifest None [] H1 H2 H3 H4).
Defined.

Lemma slice_limit_length {A} (l : list A) limit :
  length (Py.slice_limit l limit) <= length l
  /\ forall k, limit = Some k -> (0 < k)%Z ->
       length (Py.slice_limit l limit) <= Z.to_nat k.
Proof.
  unfold Py.slice_limit. destruct limit as [k|]; [|split; [done|done]].
  destruct (Z.eqb_spec k 0) as [->|Hk].
  { split; [done|]. intros k' [= <-]. lia. }
  destruct (Z.ltb_spec k 0); rewrite length_take;
    (split; [lia|]); intros k' [= <-]; lia.
Qed.

(** X19: a run sends requests only for processed chunks that were neither
    on disk nor listed when it started, in manifest order and at most one
    per chunk; so it sends no more requests than there are chunks, and no
    more than a positive limit. *)
Theorem requests_only_for_missing_chunks (tts : Synthesizer) (w : World)
    (p : string) (data : CitationManifest) (limit : option Z)
    (rs0 : list ReadyChunk) :
  fs w !! p = Some (CitationJSON data) ->
  ledger_start w (book_id data) = Some rs0 ->
  let w1 := (generate_audio_streaming tts w p limit).2 in
  exists l,
    sublist l (Py.slice_limit (chunks data) limit)
    /\ tts_requests w1 = tts_requests w ++ (text <$> l)
    /\ (forall c, c ∈ l ->
          path_exists w (audio_path (book_id data) c) = false
          /\ listed (chunk_id c) rs0 = false)
    /\ length l <= length (chunks data)
    /\ (forall k, limit = Some k -> (0 < k)%Z -> length l <= Z.to_nat k).
Proof.
  intros Hp Hs. cbv zeta. rewrite (generate_is_loop _ _ _ _ _ _ Hp Hs).
  cbn [snd].
  destruct (loop_requests tts (metadata data) (book_id data)
              (length (chunks data)) (Py.slice_limit (chunks data) limit)
              (loop_start w rs0)) as (l & Hsub & Hreq & Hl).
  exists l. split; [done|]. split; [done|]. split; [done|].
  apply sublist_length in Hsub.
  destruct (slice_limit_length (chunks data) limit) as [H1 H2].
  split; [lia|]. intros k Hk Hpos. specialize (H2 k Hk Hpos). lia.
Qed.

Lemma requests_only_for_missing_chunks_witness :
  fs five_entry_lost !! five_citation_path = Some (CitationJSON five_manifest)
  /\ (exists rs0,
        ledger_start five_entry_lost (book_id five_manifest) = Some rs0
        /\ exists l,
             tts_requests
               (generate_audio_streaming always_ok five_entry_lost
                  five_citation_path (Some 3%Z)).2
             = tts_requests five_entry_lost ++ (text <$> l)
             /\ length l <= 3).
Proof.
  assert (fs five_entry_lost !! five_citation_path
          = Some (CitationJSON five_manifest)) as H1 by (by vm_compute).
  split; [exact H1|].
  eexists. assert (ledger_start five_entry_lost (book_id five_manifest)
                   = Some _) as H2 by (vm_compute; reflexivity).
  split; [exact H2|].
  destruct (requests_only_for_missing_chunks always_ok five_entry_lost
              five_citation_path five_manifest (Some 3%Z) _ H1 H2)
    as (l & _ & Hreq & _ & _ & Hk).
  exists l. split; [exact Hreq|].
  apply (Hk 3%Z); [reflexivity|lia].
Defined.

Lemma reliable_run_lists_every_chunk_witness :
  exists c rs1,
    chunks five_manifest !! 2 = Some c
    /\ ledger_start
         (generate_audio_streaming always_ok five_world five_citation_path
            None).2 (book_id five_manifest) = Some rs1
    /\ listed (chunk_id c) rs1 = true.
Proof.
  assert (fs five_world !! five_citation_path
          = Some (CitationJSON five_manifest)) as H1 by (by vm_compute).
  assert (ledger_start five_world (book_id five_manifest) = Some [])
    as H2 by (by vm_compute).
  assert (forall n t, is_Some (always_ok n t)) as H3
    by (intros n t; unfold always_ok; eauto).
  destruct (chunks five_manifest !! 2) as [c|] eqn:Hc; [|by vm_compute in Hc].
  assert (c ∈ Py.slice_limit (chunks five_manifest) None) as H4
    by (by apply (list_elem_of_lookup_2 _ 2)).
  destruct (reliable_run_lists_every_chunk always_ok five_world
              five_citation_path five_manifest None [] c H1 H2 H3 H4)
    as (rs1 & Hrs1 & Hl).
  exists c, rs1. split; [reflexivity|]. split; [exact Hrs1|exact Hl].
Defined.

(* ===================================================================== *)
(** * Audio file names                                                    *)
(* ===================================================================== *)

Lemma pretty_N_char_digit x : is_digit (pretty_N_char x) = true.
Proof. unfold pretty_N_char. by repeat case_match. Qed.

Lemma pretty_N_go_digits x : forall s,
  free_of (fun c => negb (is_digit c)) s ->
  free_of (fun c => negb (is_digit c)) (pretty_N_go x s).
Proof.
  induction (N.lt_wf_0 x) as [x _ IH]; intros s Hs.
  destruct (decide (x = 0)%N) as [->|Hx]; [by rewrite pretty_N_go_0|].
  rewrite pretty_N_go_step by lia. apply IH.
  - apply N.div_lt; lia.
  - apply free_of_cons. split; [|done].
    by rewrite pretty_N_char_digit.
Qed.

Lemma pretty_N_go_head x : forall s,
  (0 < x)%N ->
  exists c r, pretty_N_go x s = String c r /\ c <> "0"%char.
Proof.
  induction (N.lt_wf_0 x) as [x _ IH]; intros s Hx.
  rewrite pretty_N_go_step by done.
  destruct (decide (x `div` 10 = 0)%N) as [E|E].
  - rewrite E, pretty_N_go_0. eexists _, _. split; [done|].
    assert (x < 10)%N as Hlt by (apply N.div_small_iff in E; lia).
    rewrite N.mod_small by done.
    assert (x = 1 \/ x = 2 \/ x = 3 \/ x = 4 \/ x = 5 \/ x = 6
            \/ x = 7 \/ x = 8 \/ x = 9)%N as Hc by lia.
    repeat (destruct Hc as [->|Hc]; [done|]). by subst.
  - apply IH; [apply N.div_lt; lia|]. by apply N.neq_0_lt_0.
Qed.

(** The decimal writing of a number: digits only, not empty, and no
    leading zero except for zero itself. *)
Lemma pretty_nat_shape (n : nat) :
  free_of (fun c => negb (is_digit c)) (pretty n)
  /\ exists c r, pretty n = String c r /\ (c = "0"%char -> r = "").
Proof.
  unfold pretty, pretty_nat, pretty, pretty_N.
  case_decide as E.
  - split; [by repeat constructor|]. by exists "0"%char, "".
  - split; [apply pretty_N_go_digits, free_of_nil|].
    destruct (pretty_N_go_head (N.of_nat n) "") as (c & r & -> & Hc); [lia|].
    by exists c, r.
Qed.

(** Reading a run of digits up to the first other character. *)
Lemma digits_prefix_unique a a' c c' r r' :
  free_of (fun c => negb (is_digit c)) a ->
  free_of (fun c => negb (is_digit c)) a' ->
  is_digit c = false -> is_digit c' = false ->
  a +:+ String c r = a' +:+ String c' r' ->
  a = a' /\ c = c' /\ r = r'.
Proof.
  intros Ha Ha' Hc Hc'. revert a' Ha'.
  induction a as [|d a IH]; intros [|d' a'] Ha' E.
  - by injection E as -> ->.
  - injection E as -> _. apply free_of_cons in Ha' as [Hd _].
    rewrite Hc in Hd. done.
  - injection E as -> _. apply free_of_cons in Ha as [Hd _].
    rewrite Hc' in Hd. done.
  - injection E as -> E. apply free_of_cons in Ha as [_ Ha].
    apply free_of_cons in Ha' as [_ Ha'].
    destruct (IH Ha a' Ha' E) as (-> & -> & ->). done.
Qed.

Lemma free_of_take bad k s : free_of bad s -> free_of bad (Py.str_take k s).
Proof.
  revert s. induction k as [|k IH]; intros [|c s] H; simpl;
    try apply free_of_nil.
  apply free_of_cons in H as [Hc H]. apply free_of_cons. auto.
Qed.

Lemma zero_pad_4_inj (n n' : nat) :
  Py.format_0d 4 n = Py.format_0d 4 n' -> n = n'.
Proof.
  unfold Py.format_0d, Py.zero_pad. intros E.
  apply (inj pretty).
  destruct (pretty_nat_shape n) as (_ & c & r & Hn & Hc).
  destruct (pretty_nat_shape n') as (_ & c' & r' & Hn' & Hc').
  rewrite Hn, Hn' in *. clear Hn Hn'.
  destruct r as [|c2 [|c3 [|c4 r]]], r' as [|c2' [|c3' [|c4' r']]];
    vm_compute in E; simplify_eq; try done;
    try (by specialize (Hc eq_refl)); try (by specialize (Hc' eq_refl)).
Qed.

(** X20: the audio file name determines the chunk id and the page: two
    chunks get the same file name only when both agree, whatever their
    text is. *)
Theorem audio_filename_injective (c c' : Chunk) :
  audio_filename c = audio_filename c' ->
  chunk_id c = chunk_id c' /\ page c = page c'.
Proof.
  unfold audio_filename, Py.format_d. intros E.
  apply (inj (String.app "chunk_")) in E.
  destruct (pretty_nat_shape (page c)) as (Hp & _).
  destruct (pretty_nat_shape (page c')) as (Hp' & _).
  assert (forall n, free_of (fun c => negb (is_digit c)) (Py.format_0d 4 n))
    as Hpad.
  { intros n. unfold Py.format_0d, Py.zero_pad.
    destruct (pretty_nat_shape n) as (Hn & _).
    apply free_of_app. split; [|done]. apply free_of_rev, free_of_take.
    by repeat constructor. }
  change ("_p" +:+ ?x) with (String "_" (String "p" x)) in E.
  apply digits_prefix_unique in E as (E1 & _ & E2); [|done..].
  injection E2 as E2.
  change (?x +:+ ".wav") with (x +:+ String "." "wav") in E2.
  apply digits_prefix_unique in E2 as (E2 & _); [|done..].
  split; [by apply zero_pad_4_inj|by apply (inj pretty)].
Qed.

Lemma audio_filename_injective_witness :
  exists c c',
    chunks five_manifest !! 0 = Some c /\ chunks five_manifest !! 0 = Some c'
    /\ audio_filename c = audio_filename c'
    /\ chunk_id c = chunk_id c' /\ page c = page c'.
Proof.
  destruct (chunks five_manifest !! 0) as [c|] eqn:Hc; [|by vm_compute in Hc].
  exists c, c. split; [reflexivity|]. split; [reflexivity|].
  assert (audio_filename c = audio_filename c) as H by reflexivity.
  split; [exact H|]. exact (audio_filename_injective c c H).
Defined.

(* ===================================================================== *)
(** * The time axis of a Chunker manifest                                 *)
(* ===================================================================== *)






(** X22: inside a chunk, a later time never cites an earlier sentence,
    and the start of the chunk cites its first sentence. *)
Theorem sentence_index_monotone (c : Chunk) (t t' : Q) :
  (start_time c <= t)%Q -> (t <= t')%Q ->
  (sentence_index_at c t <= sentence_index_at c t')%Z
  /\ (sentences c <> [] -> sentence_index_at c (start_time c) = 0%Z).
Proof.
  intros Hlo Hle. unfold sentence_index_at.
  set (n := Py.float_of_int (Z.of_nat (length (sentences c)))).
  assert (0 <= n)%Q as Hn.
  { apply round64_nonneg. change 0%Q with (inject_Z 0).
    rewrite <- Zle_Qle. lia. }
  assert (Py.fmul 0 n = 0%Q) as Hz by (apply round64_zero, Qmult_0_l).
  destruct (Qlt_bool 0 (duration_seconds c)) eqn:Hd.
  - apply Qlt_bool_iff in Hd.
    assert (forall x, (start_time c <= x)%Q ->
              (0 <= Py.fsub x (start_time c) / duration_seconds c)%Q) as Hq.
    { intros x Hx. apply Qle_shift_div_l; [done|]. rewrite Qmult_0_l.
      apply round64_nonneg. lra. }
    assert (forall x, (start_time c <= x)%Q ->
              (0 <= Py.fdiv (Py.fsub x (start_time c)) (duration_seconds c)
                    * n)%Q) as Hp.
    { intros x Hx. apply Qmult_le_0_compat; [|done].
      by apply round64_nonneg, Hq. }
    split.
    + rewrite !int_of_floor by (apply round64_nonneg, Hp; lra).
      apply Z.min_le_compat_r, Qfloor_resp_le.
      apply round64_mono; [apply Hp; lra|].
      apply Qmult_le_compat_r; [|done].
      apply round64_mono; [by apply Hq|].
      apply Qmult_le_compat_r; [|by apply Qlt_le_weak, Qinv_lt_0_compat].
      apply round64_mono; lra.
    + intros Hne.
      assert (Py.fsub (start_time c) (start_time c) = 0%Q) as ->
        by (apply round64_zero; lra).
      assert (Py.fdiv 0 (duration_seconds c) = 0%Q) as ->.
      { apply round64_zero. unfold Qdiv. apply Qmult_0_l. }
      rewrite Hz. change (Py.int_of 0) with 0%Z.
      destruct (sentences c) as [|s l]; [done|].
      simpl length. clear. lia.
  - split; [done|]. intros Hne.
    rewrite Hz. change (Py.int_of 0) with 0%Z.
    destruct (sentences c) as [|s l]; [done|].
    simpl length. clear. lia.
Qed.

Lemma sentence_index_monotone_witness :
  exists c,
    chunks example_manifest !! 0 = Some c
    /\ (start_time c <= 1)%Q /\ (1 <= 4)%Q
    /\ (sentence_index_at c 1 <= sentence_index_at c 4)%Z.
Proof.
  destruct (chunks example_manifest !! 0) as [c|] eqn:Hc;
    [|by vm_compute in Hc].
  injection Hc as <-.
  eexists. split; [reflexivity|].
  match goal with |- (start_time ?c <= 1)%Q /\ _ =>
    assert (start_time c <= 1)%Q as H1 by (by vm_compute);
    assert (1 <= 4)%Q as H2 by (by vm_compute);
    split; [exact H1|]; split; [exact H2|];
    exact (proj1 (sentence_index_monotone c 1 4 H1 H2))
  end.
Defined.

(* ===================================================================== *)
(** * The pipeline as a whole                                             *)
(* ===================================================================== *)

(** The stage halts on an unreadable ledger without touching anything. *)
Lemma generate_halts tts w p data limit :
  fs w !! p = Some (CitationJSON data) ->
  ledger_start w (book_id data) = None ->
  generate_audio_streaming tts w p limit = (Py.Return None, w).
Proof.
  intros Hp Hs. unfold generate_audio_streaming, load_citation.
  rewrite (proj2 (path_exists_true w p)) by (rewrite Hp; eauto).
  rewrite Hp. simpl. unfold ledger_start in Hs.
  destruct (path_exists w (manifest_path (book_id data))); [|done].
  by destruct (load_ready_chunks w _).
Qed.

(** Stage 3 rewrites no existing file but the ledger. *)
Lemma generate_frame tts w p data limit q :
  fs w !! p = Some (CitationJSON data) ->
  q <> manifest_path (book_id data) ->
  is_Some (fs w !! q) ->
  fs (generate_audio_streaming tts w p limit).2 !! q = fs w !! q.
Proof.
  intros Hp Hq Hs.
  destruct (ledger_start w (book_id data)) as [rs0|] eqn:E.
  - rewrite (generate_is_loop _ _ _ _ _ _ Hp E). cbn [snd].
    by apply (grows_loop tts (metadata data) (book_id data)
                (length (chunks data)) _ (loop_start w rs0)).
  - by rewrite (generate_halts _ _ _ _ _ Hp E).
Qed.

Lemma stage3_frame tts w p data q :
  fs w !! p = Some (CitationJSON data) ->
  q <> manifest_path (book_id data) ->
  is_Some (fs w !! q) ->
  fs (stage3 tts p w).2 !! q = fs w !! q.
Proof.
  intros Hp Hq Hs. unfold stage3.
  pose proof (generate_frame tts w p data None q Hp Hq Hs) as H.
  by destruct (generate_audio_streaming tts w p None) as [[r|e] w'].
Qed.

(** A file of the cache directory is never the ledger of a book. *)
Lemma cache_path_not_ledger name book :
  joinpath CACHE_DIR name <> manifest_path book.
Proof.
  intros E. apply (f_equal (Py.str_take 12)) in E. by vm_compute in E.
Qed.

(** A raw cache and a citation manifest never share their name. *)
Lemma raw_name_not_citation_name a b :
  joinpath CACHE_DIR (a +:+ "_raw.json")
  <> joinpath CACHE_DIR (b +:+ "_citation_ready.json").
Proof.
  unfold joinpath. intros E. apply (f_equal String.rev) in E.
  rewrite !str_rev_app in E.
  apply (f_equal (Py.str_take 6)) in E. by vm_compute in E.
Qed.

(** X23: with no citation manifest for the derived id, the pipeline halts
    at Stage 1 when the document is missing, leaving the world untouched,
    and when the file is no document, writing no file and sending no
    request. *)
Theorem pipeline_halts_at_stage1 (tts : Synthesizer) (w : World)
    (pdf_filename : string) :
  cache_hit w pdf_filename = None ->
  let pdf_path := joinpath INPUT_DIR pdf_filename in
  let r := run_full_pipeline tts w pdf_filename in
  (fs w !! pdf_path = None -> r = (Py.Return HaltedAtStage1, w))
  /\ (forall f, fs w !! pdf_path = Some f -> (forall d, f <> Pdf d) ->
        r.1 = Py.Return HaltedAtStage1
        /\ fs r.2 = fs w /\ tts_requests r.2 = tts_requests w).
Proof.
  intros Hmiss. cbv zeta. unfold run_full_pipeline, process_pdf.
  rewrite Hmiss. split.
  - intros H. by rewrite (proj2 (path_exists_false w _)).
  - intros f H Hf.
    rewrite (proj2 (path_exists_true w _)) by (rewrite H; eauto).
    rewrite H. simpl. destruct f; try done. by destruct (Hf d).
Qed.

Lemma pipeline_halts_at_stage1_witness :
  cache_hit empty_world "ghost.pdf" = None
  /\ run_full_pipeline always_ok empty_world "ghost.pdf"
     = (Py.Return HaltedAtStage1, empty_world).
Proof.
  assert (cache_hit empty_world "ghost.pdf" = None) as H by (by vm_compute).
  split; [exact H|].
  apply (proj1 (pipeline_halts_at_stage1 always_ok empty_world "ghost.pdf" H)).
  by vm_compute.
Defined.

(** X24: once a run has gone through Stages 1 and 2 for a document, the
    next run on the same name finds the citation manifest: it opens the
    document no more and goes straight to Stage 3. *)
Theorem second_run_is_a_cache_hit (tts tts' : Synthesizer) (w : World)
    (pdf_filename : string) (doc : FitzDoc) :
  cache_hit w pdf_filename = None ->
  fs w !! joinpath INPUT_DIR pdf_filename = Some (Pdf doc) ->
  let w1 := (run_full_pipeline tts w pdf_filename).2 in
  let book :=
    sanitize_title
      (default (path_stem (joinpath INPUT_DIR pdf_filename)) (fitz_title doc)) in
  let citation_path := joinpath CACHE_DIR (book +:+ "_citation_ready.json") in
  cache_hit w1 pdf_filename = Some citation_path
  /\ run_full_pipeline tts' w1 pdf_filename = stage3 tts' citation_path w1
  /\ fitz_opened (run_full_pipeline tts' w1 pdf_filename).2 = fitz_opened w1.
Proof.
  intros Hmiss Hdoc. cbv zeta.
  set (pdf_path := joinpath INPUT_DIR pdf_filename) in *.
  set (stem := path_stem pdf_path).
  set (raw_path := joinpath CACHE_DIR (stem +:+ "_raw.json")).
  set (raw := extract_document pdf_path doc).
  set (book := sanitize_title (default stem (fitz_title doc))).
  set (cp := joinpath CACHE_DIR (book +:+ "_citation_ready.json")).
  set (m := build_manifest default_max_chars
              (remove_all "_raw" (path_stem raw_path)) raw).
  set (w2 := write_file
               (write_file (fitz_open w pdf_path) raw_path (RawJSON raw))
               cp (CitationJSON m)).
  assert (run_full_pipeline tts w pdf_filename = stage3 tts cp w2) as Hrun.
  { unfold run_full_pipeline, process_pdf. rewrite Hmiss.
    fold pdf_path. rewrite (proj2 (path_exists_true w pdf_path))
      by (rewrite Hdoc; eauto).
    rewrite Hdoc. simpl negb. cbv iota. fold stem raw_path raw.
    by rewrite prepare_after_write. }
  rewrite Hrun.
  assert (fs w2 !! cp = Some (CitationJSON m)) as Hcp
    by apply lookup_insert_eq.
  assert (fs w2 !! raw_path = Some (RawJSON raw)) as Hraw.
  { unfold w2. simpl. rewrite lookup_insert_ne
      by (intros E; symmetry in E; by apply raw_name_not_citation_name in E).
    apply lookup_insert_eq. }
  assert (book_id m = book) as Hbook by done.
  assert (fs (stage3 tts cp w2).2 !! cp = Some (CitationJSON m)) as Hcp1.
  { rewrite (stage3_frame tts w2 cp m cp Hcp); [done| |eauto].
    apply cache_path_not_ledger. }
  assert (fs (stage3 tts cp w2).2 !! raw_path = Some (RawJSON raw)) as Hraw1.
  { rewrite (stage3_frame tts w2 cp m raw_path Hcp); [done| |eauto].
    apply cache_path_not_ledger. }
  assert (cache_hit (stage3 tts cp w2).2 pdf_filename = Some cp) as Hhit.
  { unfold cache_hit, potential_citation_path. fold pdf_path stem raw_path.
    rewrite (proj2 (path_exists_true _ raw_path)) by (rewrite Hraw1; eauto).
    unfold json_load. rewrite Hraw1. simpl. fold stem book cp.
    by rewrite (proj2 (path_exists_true _ cp)) by (rewrite Hcp1; eauto). }
  split; [done|].
  assert (run_full_pipeline tts' (stage3 tts cp w2).2 pdf_filename
          = stage3 tts' cp (stage3 tts cp w2).2) as Hrun2.
  { unfold run_full_pipeline. by rewrite Hhit. }
  split; [done|]. rewrite Hrun2. apply stage3_fitz.
Qed.

Lemma second_run_is_a_cache_hit_witness :
  cache_hit tale_world "tale.pdf" = None
  /\ fs tale_world !! joinpath INPUT_DIR "tale.pdf" = Some (Pdf tale_doc)
  /\ cache_hit tale_run.2 "tale.pdf"
     = Some (joinpath CACHE_DIR "Tale_citation_ready.json").
Proof.
  assert (cache_hit tale_world "tale.pdf" = None) as H1 by (by vm_compute).
  assert (fs tale_world !! joinpath INPUT_DIR "tale.pdf"
          = Some (Pdf tale_doc)) as H2 by (by vm_compute).
  split; [exact H1|]. split; [exact H2|].
  exact (proj1 (second_run_is_a_cache_hit always_ok always_ok tale_world
                  "tale.pdf" tale_doc H1 H2)).
Defined.

Lemma run_after_miss tts w pdf_filename doc :
  cache_hit w pdf_filename = None ->
  fs w !! joinpath INPUT_DIR pdf_filename = Some (Pdf doc) ->
  run_full_pipeline tts w pdf_filename
  = stage3 tts (pipeline_citation_path pdf_filename doc)
      (before_stage3 w pdf_filename doc).
Proof.
  intros Hmiss Hdoc. unfold run_full_pipeline, process_pdf.
  rewrite Hmiss.
  rewrite (proj2 (path_exists_true w _)) by (rewrite Hdoc; eauto).
  rewrite Hdoc. simpl negb. cbv iota.
  by rewrite prepare_after_write.
Qed.

Lemma ledger_start_write w q f book :
  q <> manifest_path book ->
  ledger_start (write_file w q f) book = ledger_start w book.
Proof.
  intros Hq. unfold ledger_start, path_exists, load_ready_chunks, write_file.
  simpl. by rewrite lookup_insert_ne.
Qed.

(** X25: a first run on a document that opens, with a synthesizer that
    answers every request and no unreadable ledger in the way, finishes
    with the manifest of the document on disk and every chunk of it listed
    in the ledger. *)
Theorem full_run_completes_the_book (tts : Synthesizer) (w : World)
    (pdf_filename : string) (doc : FitzDoc) :
  cache_hit w pdf_filename = None ->
  fs w !! joinpath INPUT_DIR pdf_filename = Some (Pdf doc) ->
  let m := pipeline_manifest pdf_filename doc in
  ledger_start w (book_id m) <> None ->
  (forall n t, is_Some (tts n t)) ->
  let r := run_full_pipeline tts w pdf_filename in
  r.1 = Py.Return Finished
  /\ fs r.2 !! pipeline_citation_path pdf_filename doc = Some (CitationJSON m)
  /\ forall c, c ∈ chunks m ->
       exists rs1, ledger_start r.2 (book_id m) = Some rs1
                   /\ listed (chunk_id c) rs1 = true.
Proof.
  intros Hmiss Hdoc m Hledger Hok. cbv zeta.
  rewrite (run_after_miss _ _ _ _ Hmiss Hdoc).
  set (cp := pipeline_citation_path pdf_filename doc).
  set (w2 := before_stage3 w pdf_filename doc).
  assert (fs w2 !! cp = Some (CitationJSON m)) as Hcp
    by apply lookup_insert_eq.
  assert (exists rs0, ledger_start w2 (book_id m) = Some rs0) as [rs0 Hrs0].
  { unfold w2, before_stage3.
    rewrite !ledger_start_write by apply cache_path_not_ledger.
    change (ledger_start (fitz_open w (joinpath INPUT_DIR pdf_filename))
              (book_id m)) with (ledger_start w (book_id m)).
    destruct (ledger_start w (book_id m)); [eauto|done]. }
  unfold stage3. rewrite (generate_is_loop _ _ _ _ _ _ Hcp Hrs0). cbn [fst snd].
  set (st0 := loop_start w2 rs0).
  destruct (grows_loop tts (metadata m) (book_id m) (length (chunks m))
              (Py.slice_limit (chunks m) None) st0)
    as (_ & G2 & _ & _ & _ & G6).
  split; [done|]. split.
  - rewrite G2; [done|apply cache_path_not_ledger|].
    exists (CitationJSON m). exact Hcp.
  - intros c Hc. eexists. split; [apply G6; by apply synced_start|].
    by apply loop_lists_chunks.
Qed.

Lemma full_run_completes_the_book_witness :
  cache_hit tale_world "tale.pdf" = None
  /\ fs tale_world !! joinpath INPUT_DIR "tale.pdf" = Some (Pdf tale_doc)
  /\ ledger_start tale_world (book_id (pipeline_manifest "tale.pdf" tale_doc))
     <> None
  /\ (forall n t, is_Some (always_ok n t))
  /\ tale_run.1 = Py.Return Finished.
Proof.
  assert (cache_hit tale_world "tale.pdf" = None) as H1 by (by vm_compute).
  assert (fs tale_world !! joinpath INPUT_DIR "tale.pdf"
          = Some (Pdf tale_doc)) as H2 by (by vm_compute).
  assert (ledger_start tale_world
            (book_id (pipeline_manifest "tale.pdf" tale_doc)) <> None)
    as H3 by (by vm_compute).
  assert (forall n t, is_Some (always_ok n t)) as H4
    by (intros n t; unfold always_ok; eauto).
  split; [exact H1|]. split; [exact H2|]. split; [exact H3|].
  split; [exact H4|].
  exact (proj1 (full_run_completes_the_book always_ok tale_world "tale.pdf"
                  tale_doc H1 H2 H3 H4)).
Defined.
